(** * bcda-app worker and queue manager: a shallow embedding

    This development embeds [bcdaworker/worker/worker.go] and
    [bcdaworker/queueing/manager/que.go] and checks the statements of the
    system specification against them.

    Conventions.
    - Go's [int], [uint] and [int32] are [Z] with the wrap-around written out.
    - [float64] is IEEE-754 binary64, given by the Standard Library's
      executable specification [SpecFloat] at precision 53.
    - A Go function returning [(v, error)] returns [result]; a function
      returning only [error] returns [option error] ([None] is [nil]).
    - Everything a function mutates (job store, file system, log, upstream
      calls, the per-entry context) lives in an explicit [World] that is
      threaded through the calls. *)

From stdpp Require Import gmap strings list pretty.
From Stdlib Require Import ZArith Lia Ascii.
From Stdlib Require Import Floats.SpecFloat.

Local Open Scope Z_scope.

(** ** Go primitives *)

Module Go.

(** [int] and [uint] are 64 bits wide on the worker's platform. *)
Definition int_wrap (z : Z) : Z := (z + 2 ^ 63) mod 2 ^ 64 - 2 ^ 63.
Definition uint_wrap (z : Z) : Z := z mod 2 ^ 64.
Definition int32_wrap (z : Z) : Z := (z + 2 ^ 31) mod 2 ^ 32 - 2 ^ 31.

(** Error values. Sentinels compared by identity in Go get a constructor of
    their own; [JobError] is a comparable struct, so structural equality is
    Go's [==] on it. *)
Inductive error : Type :=
| errorString (s : string)                 (* errors.New, fmt.Errorf *)
| JobError (ErrorString : string)          (* worker.JobError *)
| ErrJobNotFound                           (* repository.ErrJobNotFound *)
| ErrJobNotUpdated                         (* repository.ErrJobNotUpdated *)
| context_Canceled                         (* context.Canceled *)
| NumError (fn num : string) (range : bool)(* strconv.NumError *)
| PathError (op path : string)             (* os.PathError *)
| withMessage (cause : error) (msg : string) (* errors.Wrap, fmt.Errorf %w *)
| runtimePanic (msg : string).             (* a run-time panic *)

#[global] Instance error_eq_dec : EqDecision error.
Proof. solve_decision. Defined.

Inductive result (A : Type) : Type :=
| Ok (a : A)
| Err (e : error).
Arguments Ok {A} a.
Arguments Err {A} e.

(** [errors.Wrap(err, msg)] of pkg/errors. *)
Definition errors_Wrap (err : error) (msg : string) : error :=
  withMessage err msg.

(** [errors.Is(err, target)]: walk the [Unwrap] chain. *)
Fixpoint chain_Is (err target : error) : bool :=
  if decide (err = target) then true
  else match err with
       | withMessage cause _ => chain_Is cause target
       | _ => false
       end.

Definition errors_Is (err : option error) (target : error) : bool :=
  match err with
  | None => false
  | Some e => chain_Is e target
  end.

(** [strconv.Itoa] and [%d]. *)
Definition Itoa (z : Z) : string := pretty z.

(** Decimal scanning shared by [ParseUint] and [Atoi]: left to right, a
    non-digit is a syntax error, a value above [maxVal] a range error. *)
Definition is_digit (c : ascii) : bool :=
  ((48 <=? N_of_ascii c) && (N_of_ascii c <=? 57))%N.

Definition digit_val (c : ascii) : Z := Z.of_N (N_of_ascii c) - 48.

Inductive scan_result := ScanOk (n : Z) | ScanSyntax | ScanRange.

Fixpoint scan_digits (maxVal : Z) (s : string) (acc : Z) : scan_result :=
  match s with
  | EmptyString => ScanOk acc
  | String c rest =>
      if is_digit c then
        let acc' := acc * 10 + digit_val c in
        if maxVal <? acc' then ScanRange else scan_digits maxVal rest acc'
      else ScanSyntax
  end.

(** [strconv.ParseUint(s, 10, 64)]. *)
Definition ParseUint (s : string) : result Z :=
  match s with
  | EmptyString => Err (NumError "ParseUint" s false)
  | _ =>
      match scan_digits (2 ^ 64 - 1) s 0 with
      | ScanOk n => Ok n
      | ScanSyntax => Err (NumError "ParseUint" s false)
      | ScanRange => Err (NumError "ParseUint" s true)
      end
  end.

(** [strconv.Atoi(s)]: optional sign, at least one digit, value in the
    range of [int]. *)
Definition Atoi (s : string) : result Z :=
  match s with
  | EmptyString => Err (NumError "Atoi" s false)
  | String c rest =>
      let neg := bool_decide (c = "-"%char) in
      let digits := if neg || bool_decide (c = "+"%char) then rest else s in
      match digits with
      | EmptyString => Err (NumError "Atoi" s false)
      | _ =>
          match scan_digits (2 ^ 64 - 1) digits 0 with
          | ScanSyntax => Err (NumError "Atoi" s false)
          | ScanRange => Err (NumError "Atoi" s true)
          | ScanOk un =>
              if neg then
                if 2 ^ 63 <? un then Err (NumError "Atoi" s true)
                else Ok (- un)
              else
                if 2 ^ 63 <=? un then Err (NumError "Atoi" s true)
                else Ok un
          end
      end
  end.

(** IEEE-754 binary64. *)
Definition float64 : Type := spec_float.
Definition prec : Z := 53.
Definition emax : Z := 1024.

(** [float64(n)] for an integer [n]: round to nearest, ties to even. *)
Definition float64_of_int (n : Z) : float64 := binary_normalize prec emax n 0 false.
Definition float64_div (x y : float64) : float64 := SFdiv prec emax x y.
Definition float64_mul (x y : float64) : float64 := SFmul prec emax x y.
(** [x >= y] *)
Definition float64_ge (x y : float64) : bool := SFleb y x.

(** [time.Time], as the seconds and nanoseconds since the zero instant. *)
Record Time := { sec : Z; nsec : Z }.
Definition Time_zero : Time := {| sec := 0; nsec := 0 |}.
Definition IsZero (t : Time) : bool := (sec t =? 0) && (nsec t =? 0).

End Go.
Export Go.

(** ** conf and utils *)

Module conf.

(** The process environment. *)
Abbreviation Env := (gmap string string).

(** Modelled from the spec: [conf.GetEnv] (package [conf] lies outside the
    embedded sources) looks a key up in the environment; an unset key
    reads as the empty string. *)
Definition GetEnv (env : Env) (key : string) : string :=
  default "" (env !! key).

End conf.

Module utils.

(** Modelled from the spec: [utils.GetEnvInt] (not part of the sources at
    hand) reads an integer option and falls back to [defaultVal] when the
    option is unset or not an integer. *)
Definition GetEnvInt (env : conf.Env) (varName : string) (defaultVal : Z) : Z :=
  let v := conf.GetEnv env varName in
  if bool_decide (v = "") then defaultVal
  else match Atoi v with
       | Ok i => i
       | Err _ => defaultVal
       end.

End utils.

(** ** models *)

(** Modelled from the spec: package [models] is not part of the sources at
    hand; the records carry the fields the worker reads and writes, the
    statuses are the five of the data model, and the blank-file sentinel
    is the name the specification gives. *)
Module models.

Inductive JobStatus : Type :=
| JobStatusPending
| JobStatusInProgress
| JobStatusCompleted
| JobStatusFailed
| JobStatusCancelled.

#[global] Instance JobStatus_eq_dec : EqDecision JobStatus.
Proof. solve_decision. Defined.

Record Job : Type := mkJob {
  job_ID : Z;                  (* uint *)
  job_ACOID : string;          (* uuid.UUID *)
  job_Status : JobStatus;
  job_JobCount : Z;            (* int *)
  job_CompletedJobCount : Z    (* int *)
}.

Record JobKey : Type := mkJobKey {
  jk_JobID : Z;                (* uint *)
  jk_FileName : string;
  jk_ResourceType : string
}.

#[global] Instance JobKey_eq_dec : EqDecision JobKey.
Proof. solve_decision. Defined.

Record ACO : Type := mkACO {
  aco_UUID : string;
  aco_CMSID : option string    (* *string *)
}.

Record CCLFBeneficiary : Type := mkCCLFBeneficiary {
  bene_ID : Z;                 (* uint *)
  bene_MBI : string;
  bene_BlueButtonID : string
}.

Record Window : Type := mkWindow {
  LowerBound : Time;
  UpperBound : Time
}.

Record JobEnqueueArgs : Type := mkJobEnqueueArgs {
  args_ID : Z;                 (* int *)
  args_ACOID : string;
  args_BeneficiaryIDs : list string;
  args_ResourceType : string;
  args_Since : string;
  args_TransactionTime : Time;
  args_ServiceDate : Time;
  args_BBBasePath : string;
  args_ClaimsWindow : Window
}.

Definition BlankFileName : string := "blank.ndjson".

Definition with_Status (j : Job) (st : JobStatus) : Job :=
  mkJob (job_ID j) (job_ACOID j) st (job_JobCount j) (job_CompletedJobCount j).

End models.
Export models.

(** ** The per-entry context *)

Record Context : Type := mkContext { canceled : bool }.

Definition context_Background : Context := mkContext false.

(** [ctx.Err()] *)
Definition ctx_Err (ctx : Context) : option error :=
  if canceled ctx then Some context_Canceled else None.

(** ** repository *)

Module repository.

(** The interface [repository.Repository], over an abstract store [S]. A
    read returns a result; a write returns the new store and the error. *)
Class Repository (S : Type) : Type := {
  GetJobByID : S -> Context -> Z -> result Job;
  GetACOByUUID : S -> Context -> string -> result ACO;
  UpdateJobStatus : S -> Context -> Z -> JobStatus -> S * option error;
  UpdateJobStatusCheckStatus :
    S -> Context -> Z -> JobStatus -> JobStatus -> S * option error;
  CreateJobKey : S -> Context -> JobKey -> S * option error;
  GetJobKeyCount : S -> Context -> Z -> result Z;
  IncrementCompletedJobCount : S -> Context -> Z -> S * option error;
  GetCCLFBeneficiaryByID : S -> Context -> Z -> result CCLFBeneficiary
}.

End repository.
Export repository.

(** ** client *)

(** Modelled from the spec: package [client] is not part of the sources at
    hand; the upstream client is the capability set of the external
    interfaces, with the argument lists [worker.go] calls it with. *)
Module client.

Record ClaimsWindow : Type := mkClaimsWindow {
  cw_LowerBound : Time;
  cw_UpperBound : Time
}.

(** The value in the "resource" slot of a bundle entry: either it
    marshals to compact JSON or [json.Marshal] fails on it. *)
Inductive Resource : Type :=
| JSON (compact : string)
| Unmarshalable (e : error).

(** A bundle entry, reduced to its "resource" slot ([None] is [nil]). *)
Definition Entry : Type := option Resource.

Record Bundle : Type := mkBundle { Entries : list Entry }.

Definition json_Marshal (r : Resource) : result string :=
  match r with
  | JSON s => Ok s
  | Unmarshalable e => Err e
  end.

(** The answers of the upstream service. The last field stands for the
    lookup of the upstream id by MBI. *)
Record APIClient : Type := mkAPIClient {
  GetCoverage : string -> string -> string -> string -> Time -> result Bundle;
  GetExplanationOfBenefit :
    string -> string -> string -> string -> Time -> ClaimsWindow -> result Bundle;
  GetPatient : string -> string -> string -> string -> Time -> result Bundle;
  LookupUpstreamIdByMBI : string -> result string
}.

(** A request sent to the upstream service. *)
Inductive UpstreamCall : Type :=
| CallGetCoverage (beneID jobID cmsID since : string) (transactionTime : Time)
| CallGetExplanationOfBenefit (beneID jobID cmsID since : string)
    (transactionTime : Time) (claimsWindow : ClaimsWindow)
| CallGetPatient (beneID jobID cmsID since : string) (transactionTime : Time)
| CallLookupUpstreamIdByMBI (mbi : string).

End client.
Export client.

(** ** responseutils and the FHIR codes the worker uses *)

(** Modelled from the spec: package [responseutils] and the FHIR code
    enumerations are not part of the sources at hand; an OperationOutcome
    is the record of the four values [CreateOpOutcome] is called with. *)
Module responseutils.

Inductive IssueSeverityCode := IssueSeverityCode_ERROR.
Inductive IssueTypeCode := IssueTypeCode_EXCEPTION.
Inductive DetailsCode := BbErr | InternalErr.

Record OperationOutcome : Type := mkOperationOutcome {
  oo_severity : IssueSeverityCode;
  oo_code : IssueTypeCode;
  oo_detailsCode : DetailsCode;
  oo_detailsDisplay : string
}.

Definition CreateOpOutcome (severity : IssueSeverityCode) (code : IssueTypeCode)
    (detailsCode : DetailsCode) (detailsDisplay : string) : OperationOutcome :=
  mkOperationOutcome severity code detailsCode detailsDisplay.

End responseutils.
Export responseutils.

(** ** The file system

    A directory path maps to its files; a file is the sequence of chunks
    written to it so far (its bytes are their concatenation). An operation
    fails only for the reason its state gives: a missing directory, a
    missing file, a directory that is not empty. *)

Module fsys.

Abbreviation File := (list string).
Abbreviation FS := (gmap string (gmap string (list string))).

Definition path_join (dir name : string) : string := dir +:+ "/" +:+ name.

(** [os.Stat(path)] followed by [os.IsNotExist(err)], for a path that
    is a directory or is missing altogether. A path that names a regular
    file, or lies under one, is outside this model. *)
Definition IsNotExist (fs : FS) (path : string) : bool :=
  bool_decide (fs !! path = None).

(** [os.MkdirAll] where it succeeds. Only the directory itself becomes a
    key: its parents are not entries of their own, and the failures of
    the call (a parent that is a regular file, missing permissions) are
    not modelled. *)
Definition MkdirAll (fs : FS) (path : string) : FS * option error :=
  match fs !! path with
  | Some _ => (fs, None)
  | None => (<[path := ∅]> fs, None)
  end.

(** [os.Create]: create or truncate. *)
Definition Create (fs : FS) (dir name : string) : FS * option error :=
  match fs !! dir with
  | None => (fs, Some (PathError "open" (path_join dir name)))
  | Some d => (<[dir := <[name := []]> d]> fs, None)
  end.

(** [os.OpenFile] with [O_APPEND|O_CREATE|O_WRONLY]. *)
Definition OpenAppend (fs : FS) (dir name : string) : FS * option error :=
  match fs !! dir with
  | None => (fs, Some (PathError "open" (path_join dir name)))
  | Some d =>
      match d !! name with
      | Some _ => (fs, None)
      | None => (<[dir := <[name := []]> d]> fs, None)
      end
  end.

(** A write through an open handle appends one chunk. *)
Definition Append (fs : FS) (dir name : string) (chunk : string) : FS :=
  match fs !! dir with
  | None => fs
  | Some d =>
      match d !! name with
      | None => fs
      | Some f => <[dir := <[name := f ++ [chunk]]> d]> fs
      end
  end.

Definition file_size (f : File) : Z :=
  foldr (fun chunk n => Z.of_nat (String.length chunk) + n) 0 f.

(** [f.Stat()] then [Size()] *)
Definition StatSize (fs : FS) (dir name : string) : result Z :=
  match fs !! dir with
  | None => Err (PathError "stat" (path_join dir name))
  | Some d =>
      match d !! name with
      | None => Err (PathError "stat" (path_join dir name))
      | Some f => Ok (file_size f)
      end
  end.

(** [ioutil.ReadDir]: the names of the directory's files (the order of
    the listing does not matter to the caller, which moves every file). *)
Definition ReadDir (fs : FS) (dir : string) : result (list string) :=
  match fs !! dir with
  | None => Err (PathError "open" dir)
  | Some d => Ok ((map_to_list d).*1)
  end.

(** [os.Rename(oldPath, newPath)] *)
Definition Rename (fs : FS) (odir oname ndir nname : string) : FS * option error :=
  match fs !! odir with
  | None => (fs, Some (PathError "rename" (path_join odir oname)))
  | Some od =>
      match od !! oname with
      | None => (fs, Some (PathError "rename" (path_join odir oname)))
      | Some f =>
          let fs' := <[odir := delete oname od]> fs in
          match fs' !! ndir with
          | None => (fs, Some (PathError "rename" (path_join ndir nname)))
          | Some nd => (<[ndir := <[nname := f]> nd]> fs', None)
          end
      end
  end.

(** [os.Remove] of a directory *)
Definition Remove (fs : FS) (dir : string) : FS * option error :=
  match fs !! dir with
  | None => (fs, Some (PathError "remove" dir))
  | Some d =>
      if bool_decide (d = ∅) then (delete dir fs, None)
      else (fs, Some (PathError "remove" dir))
  end.

End fsys.

(** ** The world a queue entry runs in *)

Inductive Level := WarnLevel | ErrorLevel.

Inductive LogArg : Type :=
| LStr (s : string)
| LInt (z : Z)
| LStatus (st : JobStatus)
| LErr (e : option error).

(** A log call: its level, its format (empty for the calls that take no
    format) and its arguments. *)
Record LogEntry : Type := mkLogEntry {
  log_level : Level;
  log_format : string;
  log_args : list LogArg
}.

Record World (S : Type) : Type := mkWorld {
  store : S;
  files : fsys.FS;
  logs : list LogEntry;
  upstream : list UpstreamCall;
  ctx : Context
}.
Arguments mkWorld {S} _ _ _ _ _.
Arguments store {S} _.
Arguments files {S} _.
Arguments logs {S} _.
Arguments upstream {S} _.
Arguments ctx {S} _.

Section WorldOps.
Context {S : Type}.

Definition set_store (w : World S) (s : S) : World S :=
  mkWorld s (files w) (logs w) (upstream w) (ctx w).
Definition set_files (w : World S) (fs : fsys.FS) : World S :=
  mkWorld (store w) fs (logs w) (upstream w) (ctx w).
Definition add_log (w : World S) (l : LogEntry) : World S :=
  mkWorld (store w) (files w) (logs w ++ [l]) (upstream w) (ctx w).
Definition add_call (w : World S) (c : UpstreamCall) : World S :=
  mkWorld (store w) (files w) (logs w) (upstream w ++ [c]) (ctx w).
(** [cancel()] *)
Definition cancel (w : World S) : World S :=
  mkWorld (store w) (files w) (logs w) (upstream w) (mkContext true).

Definition log_Warnf (w : World S) (format : string) (args : list LogArg) : World S :=
  add_log w (mkLogEntry WarnLevel format args).
Definition log_Errorf (w : World S) (format : string) (args : list LogArg) : World S :=
  add_log w (mkLogEntry ErrorLevel format args).
Definition log_Warn (w : World S) (args : list LogArg) : World S :=
  add_log w (mkLogEntry WarnLevel "" args).
Definition log_Error (w : World S) (err : error) : World S :=
  add_log w (mkLogEntry ErrorLevel "" [LErr (Some err)]).
End WorldOps.

(** ** bufio *)

Module bufio.

(** A [bufio.Writer]: the chunks accepted and not yet flushed. A write
    into the buffer of an open file does not fail here. *)
Record Writer : Type := mkWriter { buffered : list string }.

Definition NewWriter : Writer := mkWriter [].

Definition WriteString (w : Writer) (s : string) : Writer * option error :=
  (mkWriter (buffered w ++ [s]), None).

(** [Flush] hands the buffered chunks to the file, in order. *)
Definition Flush (fs : fsys.FS) (dir name : string) (w : Writer)
  : fsys.FS * Writer * option error :=
  (foldl (fun fs chunk => fsys.Append fs dir name chunk) fs (buffered w),
   mkWriter [], None).

End bufio.

Definition newline : string := String (ascii_of_nat 10) EmptyString.

(** ** worker.go *)

Module worker.

Definition ErrNoBasePathSet : error := JobError "empty BBBasePath: Must be set".
Definition ErrParentJobNotFound : error := JobError "parent job not found".
Definition ErrParentJobCancelled : error := JobError "parent job cancelled".

Section Worker.
Context {S : Type} `{Repository S}.

(** The process environment read through [conf.GetEnv]. *)
Variable env : conf.Env.
(** [client.NewBlueButtonClient(client.NewConfig(basePath))] *)
Variable NewBlueButtonClient : string -> result APIClient.
(** The bytes [responseutils.WriteOperationOutcome] writes. *)
Variable WriteOperationOutcome : OperationOutcome -> string.

(** What the rest of the system does to the world between two
    iterations of the beneficiary loop: element [i] runs just before
    iteration [i] reads the cancellation signal. *)
Definition Interference : Type := list (World S -> World S).

Definition ValidateJob (w : World S) (jobArgs : JobEnqueueArgs) : result Job :=
  if (String.length (args_BBBasePath jobArgs) =? 0)%nat then Err ErrNoBasePathSet
  else
    match GetJobByID (store w) (ctx w) (uint_wrap (args_ID jobArgs)) with
    | Err err =>
        if errors_Is (Some err) ErrJobNotFound then Err ErrParentJobNotFound
        else Err (errors_Wrap err "could not retrieve job from database")
    | Ok exportJob =>
        if decide (job_Status exportJob = JobStatusCancelled)
        then Err ErrParentJobCancelled
        else Ok exportJob
    end.

Definition createDir (w : World S) (path : string) : World S * option error :=
  if fsys.IsNotExist (files w) path then
    let '(fs, err) := fsys.MkdirAll (files w) path in
    match err with
    | Some e => (w, Some e)
    | None => (set_files w fs, None)
    end
  else (w, None).

Definition appendErrorToFile (w : World S) (fileUUID : string)
    (code : IssueTypeCode) (detailsCode : DetailsCode) (detailsDisplay : string)
    (jobID : Z) : World S :=
  let oo := CreateOpOutcome IssueSeverityCode_ERROR code detailsCode detailsDisplay in
  let dataDir := conf.GetEnv env "FHIR_STAGING_DIR" in
  let dir := dataDir +:+ "/" +:+ Itoa jobID in
  let name := fileUUID +:+ "-error.ndjson" in
  let '(fs, err) := fsys.OpenAppend (files w) dir name in
  match err with
  | Some e =>
      (* the handle is nil: the open error and both failed writes are logged *)
      let w := log_Error w e in
      let w := log_Error w (errorString "invalid argument") in
      log_Error w (errorString "invalid argument")
  | None =>
      let fs := fsys.Append fs dir name (WriteOperationOutcome oo) in
      (* Separate any subsequent error entries *)
      set_files w (fsys.Append fs dir name newline)
  end.

Fixpoint fhirBundleToResourceNDJSON (w : World S) (wr : bufio.Writer)
    (entries : list Entry) (jsonType beneficiaryID acoID fileUUID : string)
    (jobID : Z) : World S * bufio.Writer :=
  match entries with
  | [] => (w, wr)
  | entry :: rest =>
      match entry with
      | None => fhirBundleToResourceNDJSON w wr rest jsonType beneficiaryID acoID fileUUID jobID
      | Some resource =>
          match json_Marshal resource with
          | Err err =>
              let w := log_Error w err in
              let w := appendErrorToFile w fileUUID IssueTypeCode_EXCEPTION InternalErr
                         ("Error marshaling " +:+ jsonType +:+ " to JSON for beneficiary "
                            +:+ beneficiaryID +:+ " in ACO " +:+ acoID) jobID in
              fhirBundleToResourceNDJSON w wr rest jsonType beneficiaryID acoID fileUUID jobID
          | Ok entryJSON =>
              let '(wr, err) := bufio.WriteString wr (entryJSON +:+ newline) in
              let w :=
                match err with
                | Some e =>
                    let w := log_Error w e in
                    appendErrorToFile w fileUUID IssueTypeCode_EXCEPTION InternalErr
                      ("Error writing " +:+ jsonType +:+ " to file for beneficiary "
                         +:+ beneficiaryID +:+ " in ACO " +:+ acoID) jobID
                | None => w
                end in
              fhirBundleToResourceNDJSON w wr rest jsonType beneficiaryID acoID fileUUID jobID
          end
      end
  end.

(** Modelled from the spec: [getBlueButtonID] (defined in a file of the
    package that is not at hand) resolves the upstream id of an MBI
    through the upstream client. *)
Definition getBlueButtonID (w : World S) (bb : APIClient) (mbi : string)
  : World S * result string :=
  (add_call w (CallLookupUpstreamIdByMBI mbi), LookupUpstreamIdByMBI bb mbi).

(** getBeneficiary returns the beneficiary. The bb ID value is retrieved
    and set in the model. *)
Definition getBeneficiary (w : World S) (beneID : Z) (bb : APIClient)
  : World S * (CCLFBeneficiary * option error) :=
  match GetCCLFBeneficiaryByID (store w) (ctx w) beneID with
  | Err err => (w, (mkCCLFBeneficiary 0 "" "", Some err))
  | Ok bene =>
      let cclfBeneficiary := bene in
      let '(w, r) := getBlueButtonID w bb (bene_MBI cclfBeneficiary) in
      match r with
      | Err err =>
          (w, (cclfBeneficiary,
               Some (withMessage err
                       ("failed to get blue button id for ID " +:+ Itoa beneID))))
      | Ok bbID =>
          (w, (mkCCLFBeneficiary (bene_ID cclfBeneficiary) (bene_MBI cclfBeneficiary) bbID,
               None))
      end
  end.

Definition BundleFunc : Type := string -> World S -> World S * result Bundle.

(** The [switch jobArgs.ResourceType] of [writeBBDataToFile]; [None] is
    its default case. *)
Definition bundleFunc (bb : APIClient) (cmsID : string) (jobArgs : JobEnqueueArgs)
  : option BundleFunc :=
  if decide (args_ResourceType jobArgs = "Coverage") then
    Some (fun bbID w =>
      (add_call w (CallGetCoverage bbID (Itoa (args_ID jobArgs)) cmsID
                     (args_Since jobArgs) (args_TransactionTime jobArgs)),
       GetCoverage bb bbID (Itoa (args_ID jobArgs)) cmsID
         (args_Since jobArgs) (args_TransactionTime jobArgs)))
  else if decide (args_ResourceType jobArgs = "ExplanationOfBenefit") then
    Some (fun bbID w =>
      let claimsWindow :=
        if negb (IsZero (LowerBound (args_ClaimsWindow jobArgs)))
           || negb (IsZero (UpperBound (args_ClaimsWindow jobArgs)))
        then mkClaimsWindow (LowerBound (args_ClaimsWindow jobArgs))
                            (UpperBound (args_ClaimsWindow jobArgs))
        else
          (* Backwards compatibility - old API would set the service date as the upperbound *)
          mkClaimsWindow Time_zero (args_ServiceDate jobArgs) in
      (add_call w (CallGetExplanationOfBenefit bbID (Itoa (args_ID jobArgs)) cmsID
                     (args_Since jobArgs) (args_TransactionTime jobArgs) claimsWindow),
       GetExplanationOfBenefit bb bbID (Itoa (args_ID jobArgs)) cmsID
         (args_Since jobArgs) (args_TransactionTime jobArgs) claimsWindow))
  else if decide (args_ResourceType jobArgs = "Patient") then
    Some (fun bbID w =>
      (add_call w (CallGetPatient bbID (Itoa (args_ID jobArgs)) cmsID
                     (args_Since jobArgs) (args_TransactionTime jobArgs)),
       GetPatient bb bbID (Itoa (args_ID jobArgs)) cmsID
         (args_Since jobArgs) (args_TransactionTime jobArgs)))
  else None.

Definition getFailureThreshold : float64 :=
  let exportFailPctStr := conf.GetEnv env "EXPORT_FAIL_PCT" in
  let exportFailPct :=
    match Atoi exportFailPctStr with
    | Err _ => 50
    | Ok exportFailPct =>
        if exportFailPct <? 0 then 0
        else if 100 <? exportFailPct then 100
        else exportFailPct
    end in
  float64_of_int exportFailPct.

(** The closure run for one beneficiary: the message and the error it
    returns, and the world and the writer it leaves. *)
Definition fetchBeneficiary (bf : BundleFunc) (bb : APIClient) (cmsID : string)
    (jobArgs : JobEnqueueArgs) (fileUUID : string) (beneID : string)
    (w : World S) (wr : bufio.Writer)
  : World S * bufio.Writer * (string * option error) :=
  match ParseUint beneID with
  | Err err => (w, wr, ("Error failed to convert " +:+ beneID +:+ " to uint", Some err))
  | Ok id =>
      let '(w, (bene, err)) := getBeneficiary w (uint_wrap id) bb in
      match err with
      | Some err =>
          (w, wr, ("Error retrieving BlueButton ID for cclfBeneficiary MBI "
                     +:+ bene_MBI bene, Some err))
      | None =>
          let '(w, r) := bf (bene_BlueButtonID bene) w in
          match r with
          | Err err =>
              (w, wr, ("Error retrieving " +:+ args_ResourceType jobArgs
                         +:+ " for beneficiary MBI " +:+ bene_MBI bene
                         +:+ " in ACO " +:+ args_ACOID jobArgs, Some err))
          | Ok b =>
              let '(w, wr) :=
                fhirBundleToResourceNDJSON w wr (Entries b) (args_ResourceType jobArgs)
                  beneID cmsID fileUUID (args_ID jobArgs) in
              (w, wr, ("", None))
          end
      end
  end.

Definition failPct (errorCount : Z) (totalBeneIDs : float64) : float64 :=
  float64_mul (float64_div (float64_of_int errorCount) totalBeneIDs) (float64_of_int 100).

(** The state the beneficiary loop leaves. *)
Record LoopResult : Type := mkLoopResult {
  lr_world : World S;
  lr_writer : bufio.Writer;
  lr_errorCount : Z;
  lr_failed : bool
}.

(** [for _, beneID := range jobArgs.BeneficiaryIDs] *)
Fixpoint beneLoop (bf : BundleFunc) (bb : APIClient) (cmsID : string)
    (jobArgs : JobEnqueueArgs) (fileUUID : string)
    (totalBeneIDs failThreshold : float64)
    (beneIDs : list string) (others : Interference)
    (w : World S) (wr : bufio.Writer) (errorCount : Z) : LoopResult :=
  match beneIDs with
  | [] => mkLoopResult w wr errorCount false
  | beneID :: rest =>
      let w := match others with
               | [] => w
               | step :: _ => step w
               end in
      (* if the parent job was cancelled, stop processing beneIDs and fail the job *)
      if decide (ctx_Err (ctx w) = Some context_Canceled) then
        mkLoopResult w wr errorCount true
      else
        let '(w, wr, (errMsg, err)) :=
          fetchBeneficiary bf bb cmsID jobArgs fileUUID beneID w wr in
        let '(w, errorCount) :=
          match err with
          | Some e =>
              let w := log_Error w e in
              (appendErrorToFile w fileUUID IssueTypeCode_EXCEPTION BbErr errMsg
                 (args_ID jobArgs),
               int_wrap (errorCount + 1))
          | None => (w, errorCount)
          end in
        if float64_ge (failPct errorCount totalBeneIDs) failThreshold then
          mkLoopResult w wr errorCount true
        else
          beneLoop bf bb cmsID jobArgs fileUUID totalBeneIDs failThreshold
            rest (tail others) w wr errorCount
  end.

(** [fileUUID] is the value [uuid.New()] returns in this call. *)
Definition writeBBDataToFile (w : World S) (bb : APIClient) (cmsID : string)
    (jobArgs : JobEnqueueArgs) (fileUUID : string) (others : Interference)
  : World S * (string * Z * option error) :=
  match bundleFunc bb cmsID jobArgs with
  | None =>
      (w, ("", 0, Some (errorString
                          ("unsupported resource type " +:+ args_ResourceType jobArgs))))
  | Some bf =>
      let dataDir := conf.GetEnv env "FHIR_STAGING_DIR" in
      let dir := dataDir +:+ "/" +:+ Itoa (args_ID jobArgs) in
      let name := fileUUID +:+ ".ndjson" in
      let '(fs, err) := fsys.Create (files w) dir name in
      match err with
      | Some e => (log_Error w e, ("", 0, Some e))
      | None =>
          let w := set_files w fs in
          let wr := bufio.NewWriter in
          let errorCount := 0 in
          let totalBeneIDs :=
            float64_of_int (Z.of_nat (length (args_BeneficiaryIDs jobArgs))) in
          let failThreshold := getFailureThreshold in
          let lr := beneLoop bf bb cmsID jobArgs fileUUID totalBeneIDs failThreshold
                      (args_BeneficiaryIDs jobArgs) others w wr errorCount in
          let w := lr_world lr in
          let '(fs, _, err) := bufio.Flush (files w) dir name (lr_writer lr) in
          let w := set_files w fs in
          match err with
          | Some e => (w, ("", 0, Some e))
          | None =>
              if lr_failed lr then
                if decide (ctx_Err (ctx w) = Some context_Canceled) then
                  (w, ("", 0, Some (errorString
                                      ("Parent job " +:+ Itoa (args_ID jobArgs)
                                         +:+ " was cancelled"))))
                else
                  (w, ("", 0, Some (errorString
                                      "number of failed requests has exceeded threshold")))
              else
                match fsys.StatSize (files w) dir name with
                | Err e => (w, ("", 0, Some e))
                | Ok size => (w, (fileUUID, size, None))
                end
          end
      end
  end.

(** The loop of [checkJobCompleteAndCleanup] that moves the staged
    files to the payload directory. *)
Fixpoint renameAll (fs : fsys.FS) (staging payload : string) (names : list string)
  : fsys.FS * option error :=
  match names with
  | [] => (fs, None)
  | f :: rest =>
      let '(fs', err) := fsys.Rename fs staging f payload f in
      match err with
      | Some e => (fs', Some e)
      | None => renameAll fs' staging payload rest
      end
  end.

Definition checkJobCompleteAndCleanup (w : World S) (jobID : Z)
  : World S * (bool * option error) :=
  match GetJobByID (store w) (ctx w) jobID with
  | Err err => (w, (false, Some err))
  | Ok j =>
      match job_Status j with
      | JobStatusCompleted => (w, (true, None))
      | JobStatusCancelled | JobStatusFailed =>
          (* don't update job, Cancelled and Failed are terminal statuses *)
          (log_Warnf w "Failed to mark job as completed (Job %s): %s"
             [LStatus (job_Status j); LErr None],
           (true, None))
      | _ =>
          match GetJobKeyCount (store w) (ctx w) jobID with
          | Err err => (w, (false, Some err))
          | Ok completedCount =>
              if job_JobCount j <=? completedCount then
                let staging :=
                  conf.GetEnv env "FHIR_STAGING_DIR" +:+ "/" +:+ Itoa (job_ID j) in
                let payload :=
                  conf.GetEnv env "FHIR_PAYLOAD_DIR" +:+ "/" +:+ Itoa (job_ID j) in
                match fsys.ReadDir (files w) staging with
                | Err err => (w, (false, Some err))
                | Ok names =>
                    let '(fs, err) := renameAll (files w) staging payload names in
                    let w := set_files w fs in
                    match err with
                    | Some e => (w, (false, Some e))
                    | None =>
                        let '(fs, err) := fsys.Remove (files w) staging in
                        match err with
                        | Some e => (w, (false, Some e))
                        | None =>
                            let w := set_files w fs in
                            let '(s, err) :=
                              UpdateJobStatus (store w) (ctx w) (job_ID j)
                                JobStatusCompleted in
                            let w := set_store w s in
                            match err with
                            | Some e => (w, (false, Some e))
                            | None =>
                                (* Able to mark job as completed *)
                                (w, (true, None))
                            end
                        end
                    end
                end
              else
                (* We still have parts of the job that are not complete *)
                (w, (false, None))
          end
      end
  end.

(** [ProcessJob], in the three phases of its body: [prepareEntry] is
    everything before the fetch-and-stream step, [recordOutcome]
    everything after it, [completeEntry] the tail both outcomes share. *)

(** ACO lookup, promotion [Pending -> InProgress], upstream client,
    staging and payload directories. *)
Definition prepareEntry (w : World S) (job : Job) (jobArgs : JobEnqueueArgs)
  : World S * result (ACO * APIClient) :=
  match GetACOByUUID (store w) (ctx w) (job_ACOID job) with
  | Err err => (w, Err (errors_Wrap err "could not retrieve ACO from database"))
  | Ok aco =>
      let '(s, err) :=
        UpdateJobStatusCheckStatus (store w) (ctx w) (job_ID job)
          JobStatusPending JobStatusInProgress in
      let w := set_store w s in
      let proceed (w : World S) : World S * result (ACO * APIClient) :=
        match NewBlueButtonClient (args_BBBasePath jobArgs) with
        | Err err =>
            let err := errors_Wrap err "could not create Blue Button client" in
            (log_Error w err, Err err)
        | Ok bb =>
            let jobID := Itoa (args_ID jobArgs) in
            let stagingPath := conf.GetEnv env "FHIR_STAGING_DIR" +:+ "/" +:+ jobID in
            let payloadPath := conf.GetEnv env "FHIR_PAYLOAD_DIR" +:+ "/" +:+ jobID in
            let '(w, err) := createDir w stagingPath in
            match err with
            | Some e => (log_Error w e, Err e)
            | None =>
                (* Create directory for job results. *)
                let '(w, err) := createDir w payloadPath in
                match err with
                | Some e => (log_Error w e, Err e)
                | None => (w, Ok (aco, bb))
                end
            end
        end in
      if errors_Is err ErrJobNotUpdated then
        (* could also occur if job was marked as cancelled *)
        proceed (log_Warnf w
                   "Failed to update job. Assume job already updated. Continuing. %s"
                   [LErr err])
      else
        match err with
        | Some e => (w, Err (errors_Wrap e "could not update job status in database"))
        | None => proceed w
        end
  end.

(** Completion check and advisory counter. *)
Definition completeEntry (w : World S) (job : Job) : World S * option error :=
  let '(w, (_, err)) := checkJobCompleteAndCleanup w (job_ID job) in
  match err with
  | Some e => (log_Error w e, Some e)
  | None =>
      (* Not critical since we use the job_keys count as the authoritative
         list of completed jobs. *)
      let '(s, err) := IncrementCompletedJobCount (store w) (ctx w) (job_ID job) in
      let w := set_store w s in
      match err with
      | Some e =>
          (log_Warnf w
             "Failed to update completed job count for job %d. Will continue. %s"
             [LInt (job_ID job); LErr (Some e)], None)
      | None => (w, None)
      end
  end.

(** What [ProcessJob] does with the values [writeBBDataToFile] returned. *)
Definition recordOutcome (w : World S) (job : Job) (jobArgs : JobEnqueueArgs)
    (out : string * Z * option error) : World S * option error :=
  let '(fileUUID, fileSize, err) := out in
  let fileName := fileUUID +:+ ".ndjson" in
  (* This is only run AFTER completion of all the collection *)
  match err with
  | Some _ =>
      (* only inProgress jobs should move to a failed status
         (i.e. don't move a cancelled job to failed) *)
      let '(s, err) :=
        UpdateJobStatusCheckStatus (store w) (ctx w) (job_ID job)
          JobStatusInProgress JobStatusFailed in
      let w := set_store w s in
      if errors_Is err ErrJobNotUpdated then
        (log_Warnf w "Failed to update job (job cancelled): %s" [LErr err], err)
      else
        match err with
        | Some e => (w, Some e)
        | None => completeEntry w job
        end
  | None =>
      let '(w, fileName) :=
        if fileSize =? 0 then
          (log_Warn w [LStr "Empty file found in request: "; LStr fileName],
           BlankFileName)
        else (w, fileName) in
      let jk := mkJobKey (job_ID job) fileName (args_ResourceType jobArgs) in
      let '(s, err) := CreateJobKey (store w) (ctx w) jk in
      let w := set_store w s in
      match err with
      | Some e => (log_Error w e, Some e)
      | None => completeEntry w job
      end
  end.

(** [fileUUID] is the value [uuid.New()] returns inside
    [writeBBDataToFile]. Dereferencing a nil [aco.CMSID] panics: the Go
    function returns nothing there, and the [runtimePanic] value only
    marks that branch. What is stated below of the value [ProcessJob] or
    [processJob] returns is stated for an ACO that has a CMS ID. *)
Definition ProcessJob (w : World S) (job : Job) (jobArgs : JobEnqueueArgs)
    (fileUUID : string) (others : Interference) : World S * option error :=
  let '(w, r) := prepareEntry w job jobArgs in
  match r with
  | Err e => (w, Some e)
  | Ok (aco, bb) =>
      match aco_CMSID aco with
      | None =>
          (w, Some (runtimePanic "invalid memory address or nil pointer dereference"))
      | Some cmsID =>
          let '(w, out) := writeBBDataToFile w bb cmsID jobArgs fileUUID others in
          recordOutcome w job jobArgs out
      end
  end.

End Worker.
End worker.

(** ** que.go *)

Module manager.

(** A [que.Job]: the queue entry. *)
Record QueJob : Type := mkQueJob {
  qj_ID : Z;                   (* int64 *)
  qj_Args : string;            (* []byte *)
  qj_ErrorCount : Z            (* int32 *)
}.

(** What que-go does with the value [processJob] returns: [nil] removes
    the entry from the queue, an error reschedules it. *)
Inductive Disposition : Type :=
| Ack
| Retry (err : error).

Definition disposition (r : option error) : Disposition :=
  match r with
  | None => Ack
  | Some e => Retry e
  end.

(** What happens around a running entry: some other component writes a
    status of a parent job into the store, or the entry's monitor
    goroutine wakes up for one tick. *)
Inductive EnvEvent : Type :=
| ExternalUpdateStatus (jobID : Z) (st : JobStatus)
| MonitorTick.

Section Queue.
Context {S : Type} `{Repository S}.

Variable env : conf.Env.
Variable NewBlueButtonClient : string -> result APIClient.
Variable WriteOperationOutcome : OperationOutcome -> string.
(** [json.Unmarshal(job.Args, &jobArgs)] *)
Variable json_Unmarshal : string -> result JobEnqueueArgs.
(** The queue's [cloudWatchEnv], and the outcome of sampling the queue
    depth into the metrics sink. *)
Variable cloudWatchEnv : string.
Variable PutSample : World S -> option error.

Definition isParentJobCancelled (w : World S) (jobID : Z) : bool * option error :=
  let ctx := context_Background in
  match GetJobByID (store w) ctx (uint_wrap jobID) with
  | Err err => (false, Some err)
  | Ok job => (bool_decide (job_Status job = JobStatusCancelled), None)
  end.

(** One wake-up of the goroutine [processJob] starts: nothing once the
    context is done, otherwise one poll of the parent job. *)
Definition monitorTick (jobID : Z) (w : World S) : World S :=
  if canceled (ctx w) then w
  else
    let '(parentCancelled, err) := isParentJobCancelled w jobID in
    let w :=
      match err with
      | Some e =>
          log_Warnf w "Could not determine parent job %d status: %s"
            [LInt jobID; LErr (Some e)]
      | None => w
      end in
    if parentCancelled then
      (* cancelled context will get picked up by worker.go#writeBBDataToFile *)
      cancel w
    else w.

Definition runEvent (jobID : Z) (w : World S) (ev : EnvEvent) : World S :=
  match ev with
  | ExternalUpdateStatus id st =>
      set_store w (fst (UpdateJobStatus (store w) context_Background id st))
  | MonitorTick => monitorTick jobID w
  end.

(** A schedule lists, for every iteration of the beneficiary loop, the
    events that happen just before it. *)
Definition interference (jobID : Z) (sched : list (list EnvEvent))
  : worker.Interference :=
  map (fun evs w => foldl (runEvent jobID) w evs) sched.

Definition updateJobQueueCountCloudwatchMetric (w : World S) : World S :=
  (* Update the Cloudwatch Metric for job queue count *)
  if bool_decide (cloudWatchEnv = "") then w
  else
    match PutSample w with
    | Some err => log_Error w err
    | None => w
    end.

(** The body of [processJob], before its deferred calls. *)
Definition processJob_body (w : World S) (job : QueJob) (fileUUID : string)
    (sched : list (list EnvEvent)) : World S * option error :=
  match json_Unmarshal (qj_Args job) with
  | Err err =>
      (* ACK the job because retrying it won't help us be able to
         deserialize the data *)
      (log_Warnf w "Failed to deserialize job.Args '%s' %s. Removing queuejob from que."
         [LStr (qj_Args job); LErr (Some err)], None)
  | Ok jobArgs =>
      match worker.ValidateJob w jobArgs with
      | Err err =>
          if errors_Is (Some err) worker.ErrParentJobCancelled then
            (* ACK the job because we do not need to work on queue jobs
               associated with a cancelled parent job *)
            (log_Warnf w
               "queJob %d associated with a cancelled parent Job %d. Removing queuejob from que."
               [LInt (qj_ID job); LInt (args_ID jobArgs)], None)
          else if errors_Is (Some err) worker.ErrNoBasePathSet then
            (* Data is corrupted, we cannot work on this job. *)
            (log_Warnf w
               "Job %d does not contain valid base path. Removing queuejob from que."
               [LInt (args_ID jobArgs)], None)
          else if errors_Is (Some err) worker.ErrParentJobNotFound then
            let maxNotFoundRetries :=
              int32_wrap (utils.GetEnvInt env "BCDA_WORKER_MAX_JOB_NOT_FOUND_RETRIES" 3) in
            if maxNotFoundRetries <=? qj_ErrorCount job then
              (* By returning a nil error response, we're signaling to
                 que-go to remove this job from the jobqueue. *)
              (log_Errorf w
                 "No job found for ID: %d acoID: %s. Retries exhausted. Removing job from queue."
                 [LInt (args_ID jobArgs); LStr (args_ACOID jobArgs)], None)
            else
              (log_Warnf w "No job found for ID: %d acoID: %s. Will retry."
                 [LInt (args_ID jobArgs); LStr (args_ACOID jobArgs)],
               Some (errors_Wrap ErrJobNotFound "could not retrieve job from database"))
          else
            (w, Some (errors_Wrap err "failed to validate job"))
      | Ok exportJob =>
          let '(w, err) :=
            worker.ProcessJob env NewBlueButtonClient WriteOperationOutcome
              w exportJob jobArgs fileUUID (interference (args_ID jobArgs) sched) in
          match err with
          | Some e => (w, Some (errors_Wrap e "failed to process job"))
          | None => (w, None)
          end
      end
  end.

(** [processJob]: a fresh cancellable context, the body, then the
    deferred [cancel()] and metric update. *)
Definition processJob (w : World S) (job : QueJob) (fileUUID : string)
    (sched : list (list EnvEvent)) : World S * option error :=
  let w := mkWorld (store w) (files w) (logs w) (upstream w) (mkContext false) in
  let '(w, r) := processJob_body w job fileUUID sched in
  (updateJobQueueCountCloudwatchMetric (cancel w), r).

End Queue.
End manager.

(** ** An in-memory job store *)

(** Modelled from the spec: the implementation of [repository.Repository]
    (package [postgres]) is not part of the sources at hand. The store
    below follows the JobStore contract of the specification: lookups by
    id, an unconditional and a compare-and-set status update, job keys
    counted per parent, an advisory counter. [uniqueKeys] says whether
    the store enforces a uniqueness key [(parentJobId, fileName)] on job
    keys; the specification leaves both possibilities open. *)
Module memstore.

Record Store : Type := mkStore {
  jobs : gmap Z Job;
  acos : gmap string ACO;
  jobKeys : list JobKey;
  beneficiaries : gmap Z CCLFBeneficiary;
  uniqueKeys : bool
}.

Definition set_jobs (s : Store) (js : gmap Z Job) : Store :=
  mkStore js (acos s) (jobKeys s) (beneficiaries s) (uniqueKeys s).

Definition same_key (a b : JobKey) : bool :=
  bool_decide (jk_JobID a = jk_JobID b) && bool_decide (jk_FileName a = jk_FileName b).

Definition mem_GetJobByID (s : Store) (_ : Context) (id : Z) : result Job :=
  match jobs s !! id with
  | Some j => Ok j
  | None => Err ErrJobNotFound
  end.

Definition mem_GetACOByUUID (s : Store) (_ : Context) (id : string) : result ACO :=
  match acos s !! id with
  | Some a => Ok a
  | None => Err (errorString "no ACO record found")
  end.

Definition mem_UpdateJobStatus (s : Store) (_ : Context) (id : Z) (new : JobStatus)
  : Store * option error :=
  match jobs s !! id with
  | Some j => (set_jobs s (<[id := with_Status j new]> (jobs s)), None)
  | None => (s, Some ErrJobNotUpdated)
  end.

Definition mem_UpdateJobStatusCheckStatus (s : Store) (_ : Context) (id : Z)
    (expected new : JobStatus) : Store * option error :=
  match jobs s !! id with
  | Some j =>
      if decide (job_Status j = expected)
      then (set_jobs s (<[id := with_Status j new]> (jobs s)), None)
      else (s, Some ErrJobNotUpdated)
  | None => (s, Some ErrJobNotUpdated)
  end.

Definition mem_CreateJobKey (s : Store) (_ : Context) (jk : JobKey)
  : Store * option error :=
  if uniqueKeys s && existsb (same_key jk) (jobKeys s)
  then (s, Some (errorString "duplicate key value violates unique constraint"))
  else (mkStore (jobs s) (acos s) (jobKeys s ++ [jk]) (beneficiaries s) (uniqueKeys s),
        None).

Definition mem_GetJobKeyCount (s : Store) (_ : Context) (id : Z) : result Z :=
  Ok (Z.of_nat (length (filter (fun jk => jk_JobID jk = id) (jobKeys s)))).

Definition mem_IncrementCompletedJobCount (s : Store) (_ : Context) (id : Z)
  : Store * option error :=
  match jobs s !! id with
  | Some j =>
      (set_jobs s (<[id := mkJob (job_ID j) (job_ACOID j) (job_Status j) (job_JobCount j)
                                 (int_wrap (job_CompletedJobCount j + 1))]> (jobs s)),
       None)
  | None => (s, Some ErrJobNotUpdated)
  end.

Definition mem_GetCCLFBeneficiaryByID (s : Store) (_ : Context) (id : Z)
  : result CCLFBeneficiary :=
  match beneficiaries s !! id with
  | Some b => Ok b
  | None => Err (errorString "no beneficiary record found")
  end.

#[global] Instance memRepository : Repository Store := {
  GetJobByID := mem_GetJobByID;
  GetACOByUUID := mem_GetACOByUUID;
  UpdateJobStatus := mem_UpdateJobStatus;
  UpdateJobStatusCheckStatus := mem_UpdateJobStatusCheckStatus;
  CreateJobKey := mem_CreateJobKey;
  GetJobKeyCount := mem_GetJobKeyCount;
  IncrementCompletedJobCount := mem_IncrementCompletedJobCount;
  GetCCLFBeneficiaryByID := mem_GetCCLFBeneficiaryByID
}.

End memstore.

(** ** Predicates on binary64 values *)

(** A value that is not NaN and not below zero. *)
Definition f64_nonneg (x : float64) : Prop :=
  match x with
  | S754_zero _ => True
  | S754_finite false _ _ => True
  | S754_infinity false => True
  | _ => False
  end.

(** A value above zero (possibly infinite). *)
Definition f64_pos (x : float64) : Prop :=
  match x with
  | S754_finite false _ _ => True
  | S754_infinity false => True
  | _ => False
  end.

(** ** Concrete worlds

    The entries, stores and upstream answers the examples below run on. *)

Module scenario.
Import memstore manager.

Definition baseEnv : conf.Env :=
  {[ "FHIR_STAGING_DIR" := "/staging"; "FHIR_PAYLOAD_DIR" := "/payload" ]}.

Definition envWithPct (pct : string) : conf.Env :=
  <["EXPORT_FAIL_PCT" := pct]> baseEnv.

Definition encode (oo : OperationOutcome) : string :=
  "{OperationOutcome:" +:+ oo_detailsDisplay oo +:+ "}".

Definition bundleOf (bbID : string) : Bundle :=
  mkBundle [Some (JSON ("{id:" +:+ bbID +:+ "}"))].

Definition answer (failing : list string) (bbID : string) : result Bundle :=
  if bool_decide (bbID ∈ failing) then Err (errorString "upstream unavailable")
  else Ok (bundleOf bbID).

(** An upstream service that fails for the upstream ids in [failing]. *)
Definition upstreamClient (failing : list string) : APIClient :=
  mkAPIClient (fun bbID _ _ _ _ => answer failing bbID)
              (fun bbID _ _ _ _ _ => answer failing bbID)
              (fun bbID _ _ _ _ => answer failing bbID)
              (fun mbi => Ok ("bb" +:+ mbi)).

Definition newClient (failing : list string) (basePath : string) : result APIClient :=
  Ok (upstreamClient failing).

Definition beneficiaryTable (n : nat) : gmap Z CCLFBeneficiary :=
  list_to_map
    (map (fun i => (Z.of_nat i,
                    mkCCLFBeneficiary (Z.of_nat i) ("m" +:+ Itoa (Z.of_nat i)) ""))
         (seq 1 n)).

Definition parent (st : JobStatus) (jobCount : Z) : Job :=
  mkJob 1 "aco-1" st jobCount 0.

Definition jobStore (st : JobStatus) (jobCount : Z) (keys : list JobKey)
    (unique : bool) : Store :=
  mkStore {[ 1 := parent st jobCount ]}
          {[ "aco-1" := mkACO "aco-1" (Some "A0001") ]}
          keys (beneficiaryTable 100) unique.

Definition world (s : Store) : World Store :=
  mkWorld s ∅ [] [] (mkContext false).

Definition entryArgs (resourceType : string) (ids : list string) : JobEnqueueArgs :=
  mkJobEnqueueArgs 1 "A0001" ids resourceType "" Time_zero Time_zero
    "https://upstream.example" (mkWindow Time_zero Time_zero).

Definition idsFromTo (from n : nat) : list string :=
  map (fun i => Itoa (Z.of_nat i)) (seq from n).

(** A decoder that knows one payload. *)
Definition decodeAs (payload : string) (jobArgs : JobEnqueueArgs) (s : string)
  : result JobEnqueueArgs :=
  if bool_decide (s = payload) then Ok jobArgs
  else Err (errorString "invalid character").

Definition noSample (w : World Store) : option error := None.

(** A world whose staging and payload directories for parent 1 exist. *)
Definition staged (s : Store) : World Store :=
  mkWorld s {[ "/staging/1" := ∅; "/payload/1" := ∅ ]} [] [] (mkContext false).

(** The upstream ids of the beneficiaries [1 .. n]. *)
Definition upstreamIdsUpTo (n : nat) : list string :=
  map (fun i => "bbm" +:+ Itoa (Z.of_nat i)) (seq 1 n).

(** The bundle function [writeBBDataToFile] selects for [jobArgs]. *)
Definition bundleFuncOf (failing : list string) (jobArgs : JobEnqueueArgs)
  : worker.BundleFunc (S := Store) :=
  default (fun _ w => (w, Err (errorString "unsupported resource type")))
          (worker.bundleFunc (upstreamClient failing) "A0001" jobArgs).

(** The upstream ids for which a resource bundle was requested. *)
Definition requestedIds (calls : list UpstreamCall) : list string :=
  omap (fun c => match c with
                 | CallGetCoverage b _ _ _ _ => Some b
                 | CallGetExplanationOfBenefit b _ _ _ _ _ => Some b
                 | CallGetPatient b _ _ _ _ => Some b
                 | CallLookupUpstreamIdByMBI _ => None
                 end) calls.


(** A parent that another entry has already failed, split into two
    entries; the entry at hand has two beneficiaries, the first of which
    fails upstream. *)
Definition failedParentWorld : World Store :=
  world (jobStore JobStatusFailed 2 [] false).

(** The payload of the queue entry of the examples. *)
Definition payload : string := "{entry}".

Definition queueEntry (errorCount : Z) : QueJob := mkQueJob 7 payload errorCount.

(** Parent 1 is cancelled by its owner, and the monitor of the running
    entry wakes up, between the first and the second beneficiary. *)
Definition cancelBeforeSecond : list (list EnvEvent) :=
  [[]; [ExternalUpdateStatus 1 JobStatusCancelled; MonitorTick]].

Definition processEntry (env : conf.Env) (failing : list string)
    (jobArgs : JobEnqueueArgs) (w : World Store) (entry : QueJob)
    (fileUUID : string) (sched : list (list EnvEvent)) : World Store * option error :=
  processJob env (newClient failing) encode (decodeAs payload jobArgs) "" noSample
    w entry fileUUID sched.

(** A store that does not know parent 1. *)
Definition orphanStore : Store := mkStore ∅ ∅ [] ∅ false.

End scenario.

(** ** Observations on worlds and runs

    The vocabulary of the statements below. *)

Module observe.

(** The file at a path, if any. *)
Definition read (fs : fsys.FS) (dir name : string) : option fsys.File :=
  match fs !! dir with
  | Some d => d !! name
  | None => None
  end.

(** The number of newline-terminated records an artifact holds: every
    record is written as its bytes followed by one newline chunk. *)
Definition outcomeLines (fs : fsys.FS) (dir name : string) : nat :=
  match read fs dir name with
  | Some f => length (filter (fun chunk => chunk = newline) f)
  | None => 0%nat
  end.

Section Observe.
Context {S : Type} `{Repository S}.
Variable env : conf.Env.
Variable WriteOperationOutcome : OperationOutcome -> string.

(** A step that leaves the store and the context alone, removes no
    directory and no record of an artifact. *)
Definition frame (w w' : World S) : Prop :=
  store w' = store w /\ ctx w' = ctx w /\
  (forall dir, files w !! dir <> None -> files w' !! dir <> None) /\
  (forall dir name, (outcomeLines (files w) dir name
                     <= outcomeLines (files w') dir name)%nat).

(** The error, if any, the per-beneficiary closure returns on a world with
    store [s] and context [c]. *)
Definition fetchError (bf : worker.BundleFunc) (bb : APIClient) (cmsID : string)
    (jobArgs : JobEnqueueArgs) (fileUUID : string) (s : S) (c : Context)
    (beneID : string) : option error :=
  snd (snd (worker.fetchBeneficiary env WriteOperationOutcome
              bf bb cmsID jobArgs fileUUID beneID
              (mkWorld s ∅ [] [] c) bufio.NewWriter)).

Definition beneficiaryFails (bf : worker.BundleFunc) (bb : APIClient) (cmsID : string)
    (jobArgs : JobEnqueueArgs) (fileUUID : string) (s : S) (c : Context)
    (beneID : string) : bool :=
  match fetchError bf bb cmsID jobArgs fileUUID s c beneID with
  | Some _ => true
  | None => false
  end.

(** A bundle function that sends one request and returns its answer, both
    determined by the upstream id alone. *)
Definition oneRequest (bf : worker.BundleFunc) : Prop :=
  exists (call : string -> UpstreamCall) (resp : string -> result Bundle),
    forall (bbID : string) (w : World S), bf bbID w = (add_call w (call bbID), resp bbID).

End Observe.
End observe.

(** ** que_test.go *)

Module quetest.

(** The statuses the end-to-end test stops waiting at. *)
Definition isTerminalStatus (status : JobStatus) : bool :=
  match status with
  | JobStatusCompleted
  | JobStatusCancelled
  | JobStatusFailed => true
  | _ => false
  end.

End quetest.

(** ** Observations on the data artifact and on the store *)

Module stream.

(** The chunk a bundle entry adds to the data artifact: the compact JSON
    of its resource followed by a newline; nothing for an entry without a
    resource or with a resource that does not marshal. *)
Definition chunkOf (entry : Entry) : option string :=
  match entry with
  | Some (JSON entryJSON) => Some (entryJSON +:+ newline)
  | _ => None
  end.

Definition ndjson (entries : list Entry) : list string := omap chunkOf entries.


(** Every job of the store is filed under its own id. *)
Definition keyed (s : memstore.Store) : Prop :=
  forall (k : Z) (j : Job), memstore.jobs s !! k = Some j -> job_ID j = k.

(** A job that has status [st], in a store that files every job under
    its own id. *)
Definition settled (id : Z) (st : JobStatus) (s : memstore.Store) : Prop :=
  keyed s /\ exists j, memstore.jobs s !! id = Some j /\ job_Status j = st.

Section Stream.
Context {S : Type} `{Repository S}.
Variable env : conf.Env.
Variable WriteOperationOutcome : OperationOutcome -> string.

(** The chunks the per-beneficiary closure hands to the writer on a world
    with store [s] and context [c]. *)
Definition fetchChunks (bf : worker.BundleFunc) (bb : APIClient) (cmsID : string)
    (jobArgs : JobEnqueueArgs) (fileUUID : string) (s : S) (c : Context)
    (beneID : string) : list string :=
  bufio.buffered
    (snd (fst (worker.fetchBeneficiary env WriteOperationOutcome
                 bf bb cmsID jobArgs fileUUID beneID
                 (mkWorld s ∅ [] [] c) bufio.NewWriter))).

(** The number of beneficiaries of a list for which the closure returns an
    error. *)
Definition failures (bf : worker.BundleFunc) (bb : APIClient) (cmsID : string)
    (jobArgs : JobEnqueueArgs) (fileUUID : string) (s : S) (c : Context)
    (beneIDs : list string) : Z :=
  Z.of_nat (length (filter
    (fun b => observe.beneficiaryFails env WriteOperationOutcome bf bb cmsID jobArgs
                fileUUID s c b = true) beneIDs)).

End Stream.
End stream.

(** ** More concrete worlds *)

Module cases.
Import memstore manager.

(** A job store that cannot be reached: every call fails. *)
Definition unreachable : error := errorString "connection refused".

Definition downRepository : Repository unit := {|
  GetJobByID := fun _ _ _ => Err unreachable;
  GetACOByUUID := fun _ _ _ => Err unreachable;
  UpdateJobStatus := fun s _ _ _ => (s, Some unreachable);
  UpdateJobStatusCheckStatus := fun s _ _ _ _ => (s, Some unreachable);
  CreateJobKey := fun s _ _ => (s, Some unreachable);
  GetJobKeyCount := fun _ _ _ => Err unreachable;
  IncrementCompletedJobCount := fun s _ _ => (s, Some unreachable);
  GetCCLFBeneficiaryByID := fun _ _ _ => Err unreachable
|}.

Definition downWorld : World unit := mkWorld tt ∅ [] [] (mkContext false).

(** A bundle with a resource that marshals, an entry without a resource,
    a resource that does not marshal, and a second resource that marshals. *)
Definition mixedEntries : list Entry :=
  [Some (JSON "{a}"); None; Some (Unmarshalable (errorString "unsupported value"));
   Some (JSON "{b}")].

(** Staging and payload of parent 1 with one staged artifact each way. *)
Definition stagedFiles : fsys.FS :=
  {[ "/staging/1" := {[ "u1.ndjson" := ["{a}"; "{b}"]; "u2.ndjson" := [] ]};
     "/payload/1" := {[ "u0.ndjson" := ["{z}"] ]} ]}.

Definition stagedWorld (s : Store) : World Store :=
  mkWorld s stagedFiles [] [] (mkContext false).

(** An environment whose staging and payload directories coincide. *)
Definition sharedDirEnv : conf.Env :=
  {[ "FHIR_STAGING_DIR" := "/data"; "FHIR_PAYLOAD_DIR" := "/data" ]}.

Definition sharedDirWorld (s : Store) : World Store :=
  mkWorld s {[ "/data/1" := {[ "u1.ndjson" := ["{a}"] ]} ]} [] [] (mkContext false).

End cases.

(** * Verification *)

(** ** Facts about binary64 rounding *)

Section Float64Facts.

Lemma Zdigits2_pos_iff (m : Z) : 0 <= m -> (0 < Zdigits2 m <-> 0 < m).
Proof. destruct m; simpl; lia. Qed.

Lemma shr_1_digits (r : shr_record) :
  0 <= shr_m r ->
  0 <= shr_m (shr_1 r) /\
  Zdigits2 (shr_m (shr_1 r)) = Z.max 0 (Zdigits2 (shr_m r) - 1).
Proof.
  destruct r as [m rb sb]; simpl; intros Hm.
  destruct m as [|p|p]; [simpl; lia| |lia].
  destruct p; simpl; lia.
Qed.

Lemma iter_shr_1_digits (n : positive) : forall r : shr_record,
  0 <= shr_m r ->
  0 <= shr_m (iter_pos shr_1 n r) /\
  Zdigits2 (shr_m (iter_pos shr_1 n r)) = Z.max 0 (Zdigits2 (shr_m r) - Z.pos n).
Proof.
  induction n as [n IH|n IH|]; intros r Hr; simpl.
  - destruct (shr_1_digits r Hr) as [H0 E0].
    destruct (IH _ H0) as [H1 E1].
    destruct (IH _ H1) as [H2 E2].
    split; [exact H2|]. rewrite E2, E1, E0. lia.
  - destruct (IH _ Hr) as [H1 E1].
    destruct (IH _ H1) as [H2 E2].
    split; [exact H2|]. rewrite E2, E1. lia.
  - apply shr_1_digits, Hr.
Qed.

Lemma shr_m_of_loc (m : Z) (l : location) : shr_m (shr_record_of_loc m l) = m.
Proof. destruct l as [|[]]; reflexivity. Qed.

Lemma shr_fexp_nonneg (m e : Z) (l : location) :
  0 <= m -> 0 <= shr_m (fst (shr_fexp prec emax m e l)).
Proof.
  intros Hm. unfold shr_fexp, shr.
  destruct (fexp prec emax (Zdigits2 m + e) - e) as [|n|n]; simpl;
    rewrite ?shr_m_of_loc; try exact Hm.
  apply iter_shr_1_digits. rewrite shr_m_of_loc. exact Hm.
Qed.

Lemma shr_fexp_pos (m e : Z) (l : location) :
  0 < m -> SpecFloat.emin prec emax < Zdigits2 m + e ->
  0 < shr_m (fst (shr_fexp prec emax m e l)) /\
  SpecFloat.emin prec emax <= snd (shr_fexp prec emax m e l).
Proof.
  intros Hm Hd. unfold shr_fexp, shr.
  assert (Hf : SpecFloat.emin prec emax <= fexp prec emax (Zdigits2 m + e))
    by (unfold fexp; lia).
  destruct (fexp prec emax (Zdigits2 m + e) - e) as [|n|n] eqn:En; simpl;
    rewrite ?shr_m_of_loc; try (split; lia).
  destruct (iter_shr_1_digits n (shr_record_of_loc m l)) as [H0 E0];
    [rewrite shr_m_of_loc; lia|].
  rewrite shr_m_of_loc in E0.
  split; [|lia].
  apply Zdigits2_pos_iff; [exact H0|].
  rewrite E0. unfold fexp, Go.prec in *. lia.
Qed.

Lemma round_nearest_even_ge (m : Z) (l : location) :
  m <= round_nearest_even m l.
Proof.
  unfold round_nearest_even. destruct l as [|[]]; try lia.
  destruct (Z.even m); lia.
Qed.

Lemma binary_round_aux_nonneg (m e : Z) (l : location) :
  0 <= m -> f64_nonneg (binary_round_aux prec emax false m e l).
Proof.
  intros Hm. unfold binary_round_aux.
  pose proof (shr_fexp_nonneg m e l Hm) as H1.
  destruct (shr_fexp prec emax m e l) as [r1 e1]; simpl in H1.
  pose proof (round_nearest_even_ge (shr_m r1) (loc_of_shr_record r1)) as H2.
  pose proof (shr_fexp_nonneg (round_nearest_even (shr_m r1) (loc_of_shr_record r1))
                e1 loc_Exact ltac:(lia)) as H3.
  destruct (shr_fexp prec emax _ e1 loc_Exact) as [r2 e2]; simpl in H3.
  destruct (shr_m r2) as [|q|q]; [exact I| |lia].
  destruct (e2 <=? emax - prec); exact I.
Qed.

Lemma binary_round_aux_pos (m e : Z) (l : location) :
  0 < m -> SpecFloat.emin prec emax < Zdigits2 m + e ->
  f64_pos (binary_round_aux prec emax false m e l).
Proof.
  intros Hm Hd. unfold binary_round_aux.
  destruct (shr_fexp_pos m e l Hm Hd) as [H1 He1].
  destruct (shr_fexp prec emax m e l) as [r1 e1]; simpl in H1, He1.
  pose proof (round_nearest_even_ge (shr_m r1) (loc_of_shr_record r1)) as H2.
  set (m2 := round_nearest_even (shr_m r1) (loc_of_shr_record r1)) in *.
  assert (Hm2 : 0 < m2) by lia.
  assert (Hd2 : SpecFloat.emin prec emax < Zdigits2 m2 + e1).
  { pose proof (proj2 (Zdigits2_pos_iff m2 ltac:(lia)) Hm2). lia. }
  destruct (shr_fexp_pos m2 e1 loc_Exact Hm2 Hd2) as [H3 _].
  destruct (shr_fexp prec emax m2 e1 loc_Exact) as [r2 e2]; simpl in H3.
  destruct (shr_m r2) as [|q|q]; [lia| |lia].
  destruct (e2 <=? emax - prec); exact I.
Qed.

(** [float64(n)] of a positive integer is above zero. *)
Lemma float64_of_int_pos (p : positive) : f64_pos (float64_of_int (Z.pos p)).
Proof.
  unfold float64_of_int, binary_normalize, binary_round, shl_align.
  set (ex' := fexp prec emax (Z.pos (digits2_pos p) + 0)).
  assert (Hex : SpecFloat.emin prec emax <= ex') by (unfold ex', fexp; lia).
  destruct (ex' - 0) as [|d|d] eqn:Ed.
  - apply binary_round_aux_pos; [lia|]. simpl. unfold SpecFloat.emin, Go.prec, Go.emax. lia.
  - apply binary_round_aux_pos; [lia|]. simpl. unfold SpecFloat.emin, Go.prec, Go.emax. lia.
  - apply binary_round_aux_pos; [lia|]. simpl. lia.
Qed.

(** Zero or a finite value above zero, over a value above zero, is not
    below zero. *)
Lemma float64_div_nonneg (c x : float64) :
  match c with S754_zero false | S754_finite false _ _ => True | _ => False end ->
  f64_pos x -> f64_nonneg (float64_div c x).
Proof.
  unfold float64_div.
  destruct c as [[]| | |[] mc ec]; simpl; try tauto; intros _;
    destruct x as [| [] | | [] mx ex]; simpl; try tauto; intros _.
  unfold SFdiv_core_binary.
  match goal with |- context [Z.div_eucl ?a ?b] =>
    pose proof (Z_div_mod a b ltac:(lia)) as Hdm;
    assert (Ha : 0 <= a);
    [| destruct (Z.div_eucl a b) as [q r] ]
  end.
  { destruct (ec - ex - _) as [|s|s]; simpl; try lia.
    apply Z.shiftl_nonneg. lia. }
  apply binary_round_aux_nonneg.
  destruct Hdm as [Hq Hr]. nia.
Qed.

Lemma float64_mul_100_nonneg (x : float64) :
  f64_nonneg x -> f64_nonneg (float64_mul x (float64_of_int 100)).
Proof.
  intros Hx.
  change (float64_of_int 100) with (S754_finite false 7036874417766400 (-46)).
  unfold float64_mul.
  destruct x as [[]| [] | | [] mx ex]; simpl in *; try tauto.
  apply binary_round_aux_nonneg. lia.
Qed.

Lemma float64_ge_zero (x : float64) :
  f64_nonneg x -> float64_ge x (float64_of_int 0) = true.
Proof.
  destruct x as [[]| [] | | [] mx ex]; simpl; intros Hx; try tauto; reflexivity.
Qed.

End Float64Facts.

(** ** The claims window passed for ExplanationOfBenefit *)

Section ClaimsWindowFacts.
Context {S : Type}.

(** C6. For resourceType ExplanationOfBenefit the upstream call receives the
    claims window of the job arguments whenever at least one of its two
    bounds is set (not the zero time); otherwise it receives a window whose
    upper bound is the service date and whose lower bound is left unset. *)
Theorem C6_eob_claims_window (bb : APIClient) (cmsID : string)
    (jobArgs : JobEnqueueArgs) (bbID : string) (w : World S) :
  args_ResourceType jobArgs = "ExplanationOfBenefit" ->
  exists (bf : worker.BundleFunc) (claimsWindow : ClaimsWindow),
    worker.bundleFunc bb cmsID jobArgs = Some bf /\
    bf bbID w =
      (add_call w (CallGetExplanationOfBenefit bbID (Itoa (args_ID jobArgs)) cmsID
                     (args_Since jobArgs) (args_TransactionTime jobArgs) claimsWindow),
       GetExplanationOfBenefit bb bbID (Itoa (args_ID jobArgs)) cmsID
         (args_Since jobArgs) (args_TransactionTime jobArgs) claimsWindow) /\
    (IsZero (LowerBound (args_ClaimsWindow jobArgs)) = false \/
     IsZero (UpperBound (args_ClaimsWindow jobArgs)) = false ->
     cw_LowerBound claimsWindow = LowerBound (args_ClaimsWindow jobArgs) /\
     cw_UpperBound claimsWindow = UpperBound (args_ClaimsWindow jobArgs)) /\
    (IsZero (LowerBound (args_ClaimsWindow jobArgs)) = true /\
     IsZero (UpperBound (args_ClaimsWindow jobArgs)) = true ->
     claimsWindow = mkClaimsWindow Time_zero (args_ServiceDate jobArgs)).
Proof.
  intros Hrt. unfold worker.bundleFunc. rewrite Hrt.
  destruct (decide ("ExplanationOfBenefit" = "Coverage")) as [Hc|_]; [discriminate Hc|].
  destruct (decide ("ExplanationOfBenefit" = "ExplanationOfBenefit")) as [_|Hn];
    [|contradiction].
  eexists; eexists; split; [reflexivity|]. split; [reflexivity|].
  destruct (IsZero (LowerBound (args_ClaimsWindow jobArgs)));
    destruct (IsZero (UpperBound (args_ClaimsWindow jobArgs))); simpl;
    split; intros Hb; try (split; reflexivity); try reflexivity;
    destruct Hb as [Hb|Hb] || destruct Hb as [Hb Hb']; discriminate.
Qed.

End ClaimsWindowFacts.

(** An entry enqueued by an older enqueuer: no bounds, a service date. *)
Lemma C6_eob_claims_window_witness :
  exists (bf : worker.BundleFunc) (claimsWindow : ClaimsWindow),
    worker.bundleFunc (scenario.upstreamClient []) "A0001"
      (mkJobEnqueueArgs 1 "A0001" ["1"] "ExplanationOfBenefit" "" Time_zero
         (Build_Time 1600000000 0) "https://upstream.example"
         (mkWindow Time_zero Time_zero)) = Some bf /\
    bf "bbm1" (scenario.world (scenario.jobStore JobStatusInProgress 1 [] false)) =
      (add_call (scenario.world (scenario.jobStore JobStatusInProgress 1 [] false))
         (CallGetExplanationOfBenefit "bbm1" "1" "A0001" "" Time_zero claimsWindow),
       Ok (scenario.bundleOf "bbm1")) /\
    claimsWindow = mkClaimsWindow Time_zero (Build_Time 1600000000 0).
Proof.
  destruct (C6_eob_claims_window (scenario.upstreamClient []) "A0001"
              (mkJobEnqueueArgs 1 "A0001" ["1"] "ExplanationOfBenefit" "" Time_zero
                 (Build_Time 1600000000 0) "https://upstream.example"
                 (mkWindow Time_zero Time_zero))
              "bbm1" (scenario.world (scenario.jobStore JobStatusInProgress 1 [] false))
              eq_refl)
    as (bf & cw & Hbf & Hcall & _ & Hfallback).
  exists bf, cw. split; [exact Hbf|].
  rewrite (Hfallback (conj eq_refl eq_refl)) in Hcall |- *.
  split; [exact Hcall | reflexivity].
Defined.

(** ** The completion check on a terminal parent *)

Section CompletionFacts.
Context {S : Type} `{Repository S}.
Variable env : conf.Env.

(** C5. On a parent whose status is already Completed the completion check
    reports done and leaves the whole world as it was: no status update, no
    rename, no removal of the staging directory. On a Cancelled or Failed
    parent it reports done and leaves store and files as they were (it only
    writes a warning to the log). *)
Theorem C5_completion_check_terminal_noop (w : World S) (jobID : Z) (j : Job) :
  GetJobByID (store w) (ctx w) jobID = Ok j ->
  (job_Status j = JobStatusCompleted ->
   worker.checkJobCompleteAndCleanup env w jobID = (w, (true, None))) /\
  (job_Status j = JobStatusCancelled \/ job_Status j = JobStatusFailed ->
   exists w' : World S,
     worker.checkJobCompleteAndCleanup env w jobID = (w', (true, None)) /\
     store w' = store w /\ files w' = files w /\
     upstream w' = upstream w /\ ctx w' = ctx w).
Proof.
  intros Hget. unfold worker.checkJobCompleteAndCleanup. rewrite Hget.
  split.
  - intros ->. reflexivity.
  - intros [-> | ->]; eexists; (split; [reflexivity|]); repeat split.
Qed.

End CompletionFacts.

(** A Completed parent and a Cancelled parent. *)
Lemma C5_completion_check_terminal_noop_witness :
  worker.checkJobCompleteAndCleanup scenario.baseEnv
    (scenario.world (scenario.jobStore JobStatusCompleted 1 [] false)) 1
  = (scenario.world (scenario.jobStore JobStatusCompleted 1 [] false), (true, None)) /\
  exists w' : World memstore.Store,
    worker.checkJobCompleteAndCleanup scenario.baseEnv
      (scenario.world (scenario.jobStore JobStatusCancelled 1 [] false)) 1
    = (w', (true, None)) /\
    store w' = scenario.jobStore JobStatusCancelled 1 [] false /\
    files w' = ∅ /\ upstream w' = [] /\ ctx w' = mkContext false.
Proof.
  split.
  - apply (C5_completion_check_terminal_noop scenario.baseEnv
             (scenario.world (scenario.jobStore JobStatusCompleted 1 [] false)) 1
             (scenario.parent JobStatusCompleted 1)); reflexivity.
  - apply (C5_completion_check_terminal_noop scenario.baseEnv
             (scenario.world (scenario.jobStore JobStatusCancelled 1 [] false)) 1
             (scenario.parent JobStatusCancelled 1)); [reflexivity | left; reflexivity].
Defined.

(** ** The deferred metric update *)

Section MetricFacts.
Context {S : Type}.
Variable cloudWatchEnv : string.
Variable PutSample : World S -> option error.

Lemma metric_update_keeps (w : World S) :
  store (manager.updateJobQueueCountCloudwatchMetric cloudWatchEnv PutSample w) = store w /\
  files (manager.updateJobQueueCountCloudwatchMetric cloudWatchEnv PutSample w) = files w /\
  forall l : LogEntry,
    In l (logs w) ->
    In l (logs (manager.updateJobQueueCountCloudwatchMetric cloudWatchEnv PutSample w)).
Proof.
  unfold manager.updateJobQueueCountCloudwatchMetric.
  destruct (bool_decide (cloudWatchEnv = "")); [repeat split; intros l Hl; exact Hl|].
  destruct (PutSample w); simpl; [|repeat split; intros l Hl; exact Hl].
  repeat split. intros l Hl. apply in_or_app. left. exact Hl.
Qed.

End MetricFacts.

(** ** Validation of an entry whose parent is missing *)

Section NotFoundFacts.
Context {S : Type} `{Repository S}.
Variable env : conf.Env.
Variable NewBlueButtonClient : string -> result APIClient.
Variable WriteOperationOutcome : OperationOutcome -> string.
Variable json_Unmarshal : string -> result JobEnqueueArgs.
Variable cloudWatchEnv : string.
Variable PutSample : World S -> option error.

Lemma ValidateJob_not_found (w : World S) (jobArgs : JobEnqueueArgs) (e : error) :
  args_BBBasePath jobArgs <> "" ->
  GetJobByID (store w) (ctx w) (uint_wrap (args_ID jobArgs)) = Err e ->
  errors_Is (Some e) ErrJobNotFound = true ->
  worker.ValidateJob w jobArgs = Err worker.ErrParentJobNotFound.
Proof.
  intros Hbase Hget His. unfold worker.ValidateJob.
  destruct (args_BBBasePath jobArgs) as [|c p]; [contradiction|].
  cbn [String.length Nat.eqb]. rewrite Hget, His. reflexivity.
Qed.

(** C8. When the parent job is not found in the JobStore: with an error
    count at or above the configured maximum of not-found retries (3 when
    the option is unset) processing returns Ack and writes an error to the
    log; under that budget it returns Retry with the not-found error
    wrapped. The JobStore is left as it was. *)
Theorem C8_parent_not_found (w : World S) (job : manager.QueJob)
    (jobArgs : JobEnqueueArgs) (e : error) (fileUUID : string)
    (sched : list (list manager.EnvEvent)) :
  json_Unmarshal (manager.qj_Args job) = Ok jobArgs ->
  args_BBBasePath jobArgs <> "" ->
  GetJobByID (store w) (mkContext false) (uint_wrap (args_ID jobArgs)) = Err e ->
  errors_Is (Some e) ErrJobNotFound = true ->
  let maxNotFoundRetries :=
    int32_wrap (utils.GetEnvInt env "BCDA_WORKER_MAX_JOB_NOT_FOUND_RETRIES" 3) in
  let r := manager.processJob env NewBlueButtonClient WriteOperationOutcome
             json_Unmarshal cloudWatchEnv PutSample w job fileUUID sched in
  (env !! "BCDA_WORKER_MAX_JOB_NOT_FOUND_RETRIES" = None -> maxNotFoundRetries = 3) /\
  (maxNotFoundRetries <= manager.qj_ErrorCount job ->
   manager.disposition (snd r) = manager.Ack /\
   In (mkLogEntry ErrorLevel
         "No job found for ID: %d acoID: %s. Retries exhausted. Removing job from queue."
         [LInt (args_ID jobArgs); LStr (args_ACOID jobArgs)])
      (logs (fst r)) /\
   store (fst r) = store w) /\
  (manager.qj_ErrorCount job < maxNotFoundRetries ->
   manager.disposition (snd r) =
     manager.Retry (errors_Wrap ErrJobNotFound "could not retrieve job from database") /\
   store (fst r) = store w).
Proof.
  intros Hdec Hbase Hget His maxNotFoundRetries r.
  split.
  { intros Hunset. unfold maxNotFoundRetries, utils.GetEnvInt, conf.GetEnv.
    rewrite Hunset. reflexivity. }
  assert (Hval : worker.ValidateJob
                   (mkWorld (store w) (files w) (logs w) (upstream w) (mkContext false))
                   jobArgs = Err worker.ErrParentJobNotFound)
    by (apply (ValidateJob_not_found _ jobArgs e); assumption).
  unfold r, manager.processJob, manager.processJob_body.
  rewrite Hdec, Hval.
  change (errors_Is (Some worker.ErrParentJobNotFound) worker.ErrParentJobCancelled)
    with false.
  change (errors_Is (Some worker.ErrParentJobNotFound) worker.ErrNoBasePathSet)
    with false.
  change (errors_Is (Some worker.ErrParentJobNotFound) worker.ErrParentJobNotFound)
    with true.
  cbv iota. fold maxNotFoundRetries.
  split; intros Hcount.
  - rewrite (proj2 (Z.leb_le _ _) Hcount). cbn [fst snd manager.disposition].
    split; [reflexivity|].
    match goal with |- context [manager.updateJobQueueCountCloudwatchMetric _ _ ?w0] =>
      destruct (metric_update_keeps cloudWatchEnv PutSample w0) as (Hs & _ & Hl) end.
    split; [|rewrite Hs; reflexivity].
    apply Hl. simpl. apply in_or_app. right. left. reflexivity.
  - rewrite (proj2 (Z.leb_gt _ _) Hcount). cbn [fst snd manager.disposition].
    split; [reflexivity|].
    match goal with |- context [manager.updateJobQueueCountCloudwatchMetric _ _ ?w0] =>
      destruct (metric_update_keeps cloudWatchEnv PutSample w0) as (Hs & _ & _) end.
    rewrite Hs. reflexivity.
Qed.

End NotFoundFacts.

(** ** Frames: what the beneficiary loop leaves alone *)

Section FrameFacts.
Context {S : Type} `{Repository S}.
Variable env : conf.Env.
Variable WriteOperationOutcome : OperationOutcome -> string.
Import observe.

Lemma frame_refl (w : World S) : frame w w.
Proof. unfold frame. repeat split; auto. Qed.

Lemma frame_trans (w1 w2 w3 : World S) : frame w1 w2 -> frame w2 w3 -> frame w1 w3.
Proof.
  intros (Hs1 & Hc1 & Hd1 & Hl1) (Hs2 & Hc2 & Hd2 & Hl2).
  unfold frame. repeat split.
  - congruence.
  - congruence.
  - intros dir Hdir. apply Hd2, Hd1, Hdir.
  - intros dir name. etransitivity; [apply Hl1 | apply Hl2].
Qed.

Lemma frame_same_files (w w' : World S) :
  store w' = store w -> ctx w' = ctx w -> files w' = files w -> frame w w'.
Proof.
  intros Hs Hc Hf. unfold frame. rewrite Hs, Hc, Hf. repeat split; auto.
Qed.

Lemma frame_log (w : World S) (l : LogEntry) : frame w (add_log w l).
Proof. apply frame_same_files; reflexivity. Qed.

Lemma frame_call (w : World S) (c : UpstreamCall) : frame w (add_call w c).
Proof. apply frame_same_files; reflexivity. Qed.

Lemma read_Append (fs : fsys.FS) (d n c d' n' : string) :
  read (fsys.Append fs d n c) d' n' =
    if decide (d = d' /\ n = n') then (fun f => f ++ [c]) <$> read fs d n
    else read fs d' n'.
Proof.
  unfold fsys.Append, read.
  destruct (fs !! d) as [dm|] eqn:Ed.
  - destruct (dm !! n) as [f|] eqn:En.
    + destruct (decide (d = d')) as [<-|Hd].
      * rewrite lookup_insert_eq.
        destruct (decide (n = n')) as [<-|Hn].
        -- rewrite lookup_insert_eq. rewrite decide_True by auto. reflexivity.
        -- rewrite lookup_insert_ne by auto. rewrite decide_False by tauto.
           rewrite Ed. reflexivity.
      * rewrite lookup_insert_ne by auto. rewrite decide_False by tauto. reflexivity.
    + destruct (decide (d = d' /\ n = n')) as [[<- <-]|Hne]; [|reflexivity].
      rewrite Ed, En. reflexivity.
  - destruct (decide (d = d' /\ n = n')) as [[<- <-]|Hne]; [|reflexivity].
    rewrite Ed. reflexivity.
Qed.

Lemma Append_dir (fs : fsys.FS) (d n c d' : string) :
  fs !! d' <> None -> fsys.Append fs d n c !! d' <> None.
Proof.
  unfold fsys.Append. intros Hd.
  destruct (fs !! d) as [dm|] eqn:Ed; [|exact Hd].
  destruct (dm !! n) as [f|]; [|exact Hd].
  destruct (decide (d = d')) as [<-|Hne].
  - rewrite lookup_insert_eq. discriminate.
  - rewrite lookup_insert_ne by auto. exact Hd.
Qed.

Lemma outcomeLines_Append_le (fs : fsys.FS) (d n c d' n' : string) :
  (outcomeLines fs d' n' <= outcomeLines (fsys.Append fs d n c) d' n')%nat.
Proof.
  unfold outcomeLines. rewrite read_Append.
  destruct (decide (d = d' /\ n = n')) as [[<- <-]|Hne]; [|lia].
  destruct (read fs d n) as [f|]; simpl; [|lia].
  rewrite filter_app, length_app. lia.
Qed.

Lemma outcomeLines_Append_newline (fs : fsys.FS) (d n : string) :
  read fs d n <> None ->
  outcomeLines (fsys.Append fs d n newline) d n = Datatypes.S (outcomeLines fs d n).
Proof.
  intros Hr. unfold outcomeLines. rewrite read_Append.
  rewrite decide_True by auto.
  destruct (read fs d n) as [f|]; [|contradiction]. simpl.
  rewrite filter_app, length_app.
  rewrite filter_cons_True by reflexivity. simpl. lia.
Qed.

Lemma OpenAppend_ok (fs : fsys.FS) (d n : string) :
  fs !! d <> None ->
  exists fs' : fsys.FS,
    fsys.OpenAppend fs d n = (fs', None) /\
    read fs' d n <> None /\
    (forall d' n', outcomeLines fs' d' n' = outcomeLines fs d' n') /\
    (forall d', fs !! d' <> None -> fs' !! d' <> None).
Proof.
  intros Hd. unfold fsys.OpenAppend.
  destruct (fs !! d) as [dm|] eqn:Ed; [|contradiction].
  destruct (dm !! n) as [f|] eqn:En.
  - exists fs. split; [reflexivity|]. split.
    + unfold read. rewrite Ed, En. discriminate.
    + split; auto.
  - eexists. split; [reflexivity|]. split; [|split].
    + unfold read. rewrite lookup_insert_eq, lookup_insert_eq. discriminate.
    + intros d' n'. unfold outcomeLines, read.
      destruct (decide (d = d')) as [<-|Hne].
      * rewrite lookup_insert_eq, Ed.
        destruct (decide (n = n')) as [<-|Hnn].
        -- rewrite lookup_insert_eq, En. reflexivity.
        -- rewrite lookup_insert_ne by auto. reflexivity.
      * rewrite lookup_insert_ne by auto. reflexivity.
    + intros d' Hd'. destruct (decide (d = d')) as [<-|Hne].
      * rewrite lookup_insert_eq. discriminate.
      * rewrite lookup_insert_ne by auto. exact Hd'.
Qed.

Lemma OpenAppend_missing (fs : fsys.FS) (d n : string) :
  fs !! d = None ->
  fsys.OpenAppend fs d n = (fs, Some (PathError "open" (fsys.path_join d n))).
Proof. intros Hd. unfold fsys.OpenAppend. rewrite Hd. reflexivity. Qed.

Lemma appendErrorToFile_frame (w : World S) (fileUUID : string) (code : IssueTypeCode)
    (detailsCode : DetailsCode) (detailsDisplay : string) (jobID : Z) :
  frame w (worker.appendErrorToFile env WriteOperationOutcome w fileUUID code
             detailsCode detailsDisplay jobID).
Proof.
  unfold worker.appendErrorToFile.
  set (dir := conf.GetEnv env "FHIR_STAGING_DIR" +:+ "/" +:+ Itoa jobID).
  set (name := fileUUID +:+ "-error.ndjson").
  destruct (files w !! dir) as [dm|] eqn:Ed.
  - destruct (OpenAppend_ok (files w) dir name) as (fs' & -> & _ & Hl & Hdirs);
      [rewrite Ed; discriminate|].
    unfold frame. simpl. repeat split.
    + intros d' Hd'. apply Append_dir, Append_dir, Hdirs, Hd'.
    + intros d' n'. rewrite <- (Hl d' n').
      etransitivity; [|apply outcomeLines_Append_le]. apply outcomeLines_Append_le.
  - rewrite (OpenAppend_missing _ _ _ Ed).
    eapply frame_trans; [|apply frame_log].
    eapply frame_trans; [|apply frame_log]. apply frame_log.
Qed.

(** With its directory in place, an appended error adds a record to the
    error artifact. *)
Lemma appendErrorToFile_line (w : World S) (fileUUID : string) (code : IssueTypeCode)
    (detailsCode : DetailsCode) (detailsDisplay : string) (jobID : Z) :
  files w !! (conf.GetEnv env "FHIR_STAGING_DIR" +:+ "/" +:+ Itoa jobID) <> None ->
  (Datatypes.S (outcomeLines (files w)
        (conf.GetEnv env "FHIR_STAGING_DIR" +:+ "/" +:+ Itoa jobID)
        (fileUUID +:+ "-error.ndjson"))
   <= outcomeLines
        (files (worker.appendErrorToFile env WriteOperationOutcome w fileUUID code
                  detailsCode detailsDisplay jobID))
        (conf.GetEnv env "FHIR_STAGING_DIR" +:+ "/" +:+ Itoa jobID)
        (fileUUID +:+ "-error.ndjson"))%nat.
Proof.
  intros Hdir. unfold worker.appendErrorToFile.
  set (dir := conf.GetEnv env "FHIR_STAGING_DIR" +:+ "/" +:+ Itoa jobID) in *.
  set (name := fileUUID +:+ "-error.ndjson").
  destruct (OpenAppend_ok (files w) dir name Hdir) as (fs' & -> & Hr & Hl & _).
  simpl. rewrite outcomeLines_Append_newline.
  - rewrite <- (Hl dir name). apply le_n_S, outcomeLines_Append_le.
  - rewrite read_Append, decide_True by auto.
    destruct (read fs' dir name); [discriminate|contradiction].
Qed.

Lemma fhirBundle_frame (entries : list Entry) :
  forall (w : World S) (wr : bufio.Writer)
         (jsonType beneficiaryID acoID fileUUID : string) (jobID : Z),
    frame w (fst (worker.fhirBundleToResourceNDJSON env WriteOperationOutcome w wr
                    entries jsonType beneficiaryID acoID fileUUID jobID)).
Proof.
  induction entries as [|entry rest IH]; intros w wr jt bid aco u jid; simpl.
  - apply frame_refl.
  - destruct entry as [resource|]; [|apply IH].
    destruct (json_Marshal resource) as [entryJSON|err].
    + apply IH.
    + eapply frame_trans; [|apply IH].
      eapply frame_trans; [apply frame_log | apply appendErrorToFile_frame].
Qed.

Lemma getBeneficiary_frame (w : World S) (beneID : Z) (bb : APIClient) :
  frame w (fst (worker.getBeneficiary w beneID bb)).
Proof.
  unfold worker.getBeneficiary, worker.getBlueButtonID.
  destruct (GetCCLFBeneficiaryByID (store w) (ctx w) beneID) as [bene|err]; simpl.
  - destruct (LookupUpstreamIdByMBI bb (bene_MBI bene)); apply frame_call.
  - apply frame_refl.
Qed.

(** The value [getBeneficiary] returns is decided by store and context. *)
Lemma getBeneficiary_result (w w0 : World S) (beneID : Z) (bb : APIClient) :
  store w = store w0 -> ctx w = ctx w0 ->
  snd (worker.getBeneficiary w beneID bb) = snd (worker.getBeneficiary w0 beneID bb).
Proof.
  intros Hs Hc. unfold worker.getBeneficiary, worker.getBlueButtonID.
  rewrite Hs, Hc.
  destruct (GetCCLFBeneficiaryByID (store w0) (ctx w0) beneID) as [bene|err]; simpl;
    [|reflexivity].
  destruct (LookupUpstreamIdByMBI bb (bene_MBI bene)); reflexivity.
Qed.

Lemma fetch_frame (bf : worker.BundleFunc) (bb : APIClient) (cmsID : string)
    (jobArgs : JobEnqueueArgs) (fileUUID beneID : string) (w : World S)
    (wr : bufio.Writer) :
  oneRequest bf ->
  frame w (fst (fst (worker.fetchBeneficiary env WriteOperationOutcome bf bb cmsID
                       jobArgs fileUUID beneID w wr))).
Proof.
  intros (call & resp & Hbf). unfold worker.fetchBeneficiary.
  destruct (ParseUint beneID) as [id|err]; [|apply frame_refl].
  pose proof (getBeneficiary_frame w (uint_wrap id) bb) as Hg.
  destruct (worker.getBeneficiary w (uint_wrap id) bb) as [w1 [bene err]]; simpl in Hg.
  destruct err as [err|]; [exact Hg|].
  rewrite Hbf.
  destruct (resp (bene_BlueButtonID bene)) as [b|err]; simpl.
  - pose proof (fhirBundle_frame (Entries b) (add_call w1 (call (bene_BlueButtonID bene)))
                  wr (args_ResourceType jobArgs) beneID cmsID fileUUID (args_ID jobArgs))
      as Hf.
    destruct (worker.fhirBundleToResourceNDJSON _ _ _ _ _ _ _ _ _ _) as [w2 wr2];
      simpl in *.
    eapply frame_trans; [exact Hg|]. eapply frame_trans; [apply frame_call | exact Hf].
  - eapply frame_trans; [exact Hg | apply frame_call].
Qed.

(** The error the closure returns is decided by store and context. *)
Lemma fetch_error (bf : worker.BundleFunc) (bb : APIClient) (cmsID : string)
    (jobArgs : JobEnqueueArgs) (fileUUID beneID : string) (w : World S)
    (wr : bufio.Writer) :
  oneRequest bf ->
  snd (snd (worker.fetchBeneficiary env WriteOperationOutcome bf bb cmsID
              jobArgs fileUUID beneID w wr))
  = fetchError env WriteOperationOutcome bf bb cmsID jobArgs fileUUID
      (store w) (ctx w) beneID.
Proof.
  intros (call & resp & Hbf). unfold fetchError, worker.fetchBeneficiary.
  destruct (ParseUint beneID) as [id|err]; [|reflexivity].
  pose proof (getBeneficiary_result w (mkWorld (store w) ∅ [] [] (ctx w))
                (uint_wrap id) bb eq_refl eq_refl) as Hg.
  destruct (worker.getBeneficiary w (uint_wrap id) bb) as [w1 [bene err]].
  destruct (worker.getBeneficiary (mkWorld (store w) ∅ [] [] (ctx w)) (uint_wrap id) bb)
    as [w1' [bene' err']].
  simpl in Hg. injection Hg as <- <-.
  destruct err as [err|]; [reflexivity|].
  rewrite !Hbf.
  destruct (resp (bene_BlueButtonID bene)) as [b|err]; simpl; [|reflexivity].
  destruct (worker.fhirBundleToResourceNDJSON _ _ (add_call w1 _) _ _ _ _ _ _ _).
  destruct (worker.fhirBundleToResourceNDJSON _ _ (add_call w1' _) _ _ _ _ _ _ _).
  reflexivity.
Qed.

Lemma bundleFunc_oneRequest (bb : APIClient) (cmsID : string) (jobArgs : JobEnqueueArgs)
    (bf : worker.BundleFunc) :
  worker.bundleFunc (S := S) bb cmsID jobArgs = Some bf -> oneRequest bf.
Proof.
  unfold worker.bundleFunc, oneRequest. intros Hbf.
  destruct (decide (args_ResourceType jobArgs = "Coverage")).
  { injection Hbf as <-. eexists; eexists; intros; reflexivity. }
  destruct (decide (args_ResourceType jobArgs = "ExplanationOfBenefit")).
  { injection Hbf as <-.
    eexists (fun bbID => CallGetExplanationOfBenefit bbID _ _ _ _ _);
      eexists (fun bbID => GetExplanationOfBenefit bb bbID _ _ _ _ _);
      intros; reflexivity. }
  destruct (decide (args_ResourceType jobArgs = "Patient")); [|discriminate].
  injection Hbf as <-. eexists; eexists; intros; reflexivity.
Qed.

End FrameFacts.

(** ** The failure threshold and the beneficiary loop *)

Section LoopFacts.
Context {S : Type} `{Repository S}.
Variable env : conf.Env.
Variable WriteOperationOutcome : OperationOutcome -> string.
Import observe.

Lemma getFailureThreshold_cases :
  exists n : Z,
    0 <= n <= 100 /\
    worker.getFailureThreshold env = float64_of_int n /\
    (env !! "EXPORT_FAIL_PCT" = None -> n = 50) /\
    (forall e, Atoi (conf.GetEnv env "EXPORT_FAIL_PCT") = Err e -> n = 50) /\
    (forall v, Atoi (conf.GetEnv env "EXPORT_FAIL_PCT") = Ok v ->
               n = Z.max 0 (Z.min 100 v)).
Proof.
  unfold worker.getFailureThreshold.
  destruct (Atoi (conf.GetEnv env "EXPORT_FAIL_PCT")) as [v|e] eqn:Ea.
  - exists (if v <? 0 then 0 else if 100 <? v then 100 else v).
    split; [|split; [reflexivity|split; [|split]]].
    + destruct (Z.ltb_spec v 0); [lia|]. destruct (Z.ltb_spec 100 v); lia.
    + intros Hunset. unfold conf.GetEnv in Ea. rewrite Hunset in Ea. discriminate Ea.
    + intros e He. discriminate He.
    + intros v' Hv. injection Hv as <-.
      destruct (Z.ltb_spec v 0); [lia|]. destruct (Z.ltb_spec 100 v); lia.
  - exists 50. split; [lia|]. split; [reflexivity|].
    split; [reflexivity|]. split; [reflexivity|]. intros v Hv. discriminate Hv.
Qed.

(** One iteration of the loop, for a beneficiary reached with the context
    still live. *)
Lemma beneLoop_step (bf : worker.BundleFunc) (bb : APIClient) (cmsID : string)
    (jobArgs : JobEnqueueArgs) (fileUUID : string) (totalBeneIDs failThreshold : float64)
    (beneID : string) (rest : list string) (others : worker.Interference)
    (w : World S) (wr : bufio.Writer) (errorCount : Z)
    (w1 : World S) (wr1 : bufio.Writer) (errMsg : string) (err : option error) :
  let w0 := match others with [] => w | step :: _ => step w end in
  canceled (ctx w0) = false ->
  worker.fetchBeneficiary env WriteOperationOutcome bf bb cmsID jobArgs fileUUID
    beneID w0 wr = (w1, wr1, (errMsg, err)) ->
  let errorCount' := match err with Some _ => int_wrap (errorCount + 1) | None => errorCount end in
  let w2 := match err with
            | Some e =>
                worker.appendErrorToFile env WriteOperationOutcome (log_Error w1 e)
                  fileUUID IssueTypeCode_EXCEPTION BbErr errMsg (args_ID jobArgs)
            | None => w1
            end in
  worker.beneLoop env WriteOperationOutcome bf bb cmsID jobArgs fileUUID totalBeneIDs
    failThreshold (beneID :: rest) others w wr errorCount
  = if float64_ge
         (float64_mul (float64_div (float64_of_int errorCount') totalBeneIDs)
            (float64_of_int 100))
         failThreshold
    then worker.mkLoopResult w2 wr1 errorCount' true
    else worker.beneLoop env WriteOperationOutcome bf bb cmsID jobArgs fileUUID
           totalBeneIDs failThreshold rest (tail others) w2 wr1 errorCount'.
Proof.
  intros w0 Hlive Hfetch errorCount' w2.
  cbn [worker.beneLoop]. fold w0.
  unfold ctx_Err. rewrite Hlive.
  destruct (decide (None = Some context_Canceled)) as [Hc|_]; [discriminate Hc|].
  rewrite Hfetch. unfold errorCount', w2, worker.failPct.
  destruct err as [e|]; reflexivity.
Qed.

(** An iteration that finds the context cancelled. *)
Lemma beneLoop_cancelled (bf : worker.BundleFunc) (bb : APIClient) (cmsID : string)
    (jobArgs : JobEnqueueArgs) (fileUUID : string) (totalBeneIDs failThreshold : float64)
    (beneID : string) (rest : list string) (others : worker.Interference)
    (w : World S) (wr : bufio.Writer) (errorCount : Z) :
  let w0 := match others with [] => w | step :: _ => step w end in
  canceled (ctx w0) = true ->
  worker.beneLoop env WriteOperationOutcome bf bb cmsID jobArgs fileUUID totalBeneIDs
    failThreshold (beneID :: rest) others w wr errorCount
  = worker.mkLoopResult w0 wr errorCount true.
Proof.
  intros w0 Hdone. cbn [worker.beneLoop]. fold w0.
  unfold ctx_Err. rewrite Hdone.
  destruct (decide (Some context_Canceled = Some context_Canceled)) as [_|Hc];
    [reflexivity | contradiction].
Qed.

(** With a threshold of zero every percentage reaches it. *)
Lemma failPct_reaches_zero (n : nat) (errorCount : Z) :
  errorCount = 0 \/ errorCount = 1 ->
  float64_ge
    (float64_mul (float64_div (float64_of_int errorCount)
                    (float64_of_int (Z.of_nat (Datatypes.S n))))
       (float64_of_int 100))
    (float64_of_int 0) = true.
Proof.
  intros Hec. apply float64_ge_zero, float64_mul_100_nonneg, float64_div_nonneg.
  - destruct Hec as [-> | ->]; exact I.
  - rewrite Nat2Z.inj_succ, <- Z.add_1_r.
    destruct (Z.of_nat n + 1) as [|p|p] eqn:Ep; [lia| |lia].
    apply float64_of_int_pos.
Qed.

(** A non-positive option makes the threshold zero. *)
Lemma getFailureThreshold_nonpositive (v : Z) :
  Atoi (conf.GetEnv env "EXPORT_FAIL_PCT") = Ok v -> v <= 0 ->
  worker.getFailureThreshold env = float64_of_int 0.
Proof.
  intros Ha Hv. unfold worker.getFailureThreshold. rewrite Ha.
  destruct (Z.ltb_spec v 0); [reflexivity|].
  destruct (Z.ltb_spec 100 v); [lia|].
  replace v with 0 by lia. reflexivity.
Qed.

End LoopFacts.

Section ThresholdClaims.
Context {S : Type} `{Repository S}.
Variable env : conf.Env.
Variable WriteOperationOutcome : OperationOutcome -> string.

(** The threshold check as the loop runs it. After each beneficiary
    processed, whether or not it erred, the worker computes failPct as
    (errorCount / totalBeneficiaries) * 100 in binary64 arithmetic, the
    quotient being rounded before it is multiplied; if that value is at
    least the threshold it marks the entry failed and leaves the loop,
    otherwise it goes on with the next beneficiary. The threshold read from
    EXPORT_FAIL_PCT is 50 when the option is unset or does not parse, and
    is clamped to [0,100]. *)
Lemma threshold_check_after_each_beneficiary
    (bf : worker.BundleFunc) (bb : APIClient) (cmsID : string)
    (jobArgs : JobEnqueueArgs) (fileUUID : string) (totalBeneIDs : float64)
    (beneID : string) (rest : list string) (others : worker.Interference)
    (w : World S) (wr : bufio.Writer) (errorCount : Z)
    (w1 : World S) (wr1 : bufio.Writer) (errMsg : string) (err : option error) :
  let w0 := match others with [] => w | step :: _ => step w end in
  canceled (ctx w0) = false ->
  worker.fetchBeneficiary env WriteOperationOutcome bf bb cmsID jobArgs fileUUID
    beneID w0 wr = (w1, wr1, (errMsg, err)) ->
  let errorCount' := match err with Some _ => int_wrap (errorCount + 1) | None => errorCount end in
  let w2 := match err with
            | Some e =>
                worker.appendErrorToFile env WriteOperationOutcome (log_Error w1 e)
                  fileUUID IssueTypeCode_EXCEPTION BbErr errMsg (args_ID jobArgs)
            | None => w1
            end in
  let failPct :=
    float64_mul (float64_div (float64_of_int errorCount') totalBeneIDs)
      (float64_of_int 100) in
  let failThreshold := worker.getFailureThreshold env in
  let run := worker.beneLoop env WriteOperationOutcome bf bb cmsID jobArgs fileUUID
               totalBeneIDs failThreshold in
  (float64_ge failPct failThreshold = true ->
   run (beneID :: rest) others w wr errorCount
   = worker.mkLoopResult w2 wr1 errorCount' true) /\
  (float64_ge failPct failThreshold = false ->
   run (beneID :: rest) others w wr errorCount
   = run rest (tail others) w2 wr1 errorCount') /\
  exists n : Z,
    0 <= n <= 100 /\ failThreshold = float64_of_int n /\
    (env !! "EXPORT_FAIL_PCT" = None -> n = 50) /\
    (forall e, Atoi (conf.GetEnv env "EXPORT_FAIL_PCT") = Err e -> n = 50) /\
    (forall v, Atoi (conf.GetEnv env "EXPORT_FAIL_PCT") = Ok v ->
               n = Z.max 0 (Z.min 100 v)).
Proof.
  intros w0 Hlive Hfetch errorCount' w2 failPct failThreshold run.
  pose proof (beneLoop_step env WriteOperationOutcome bf bb cmsID jobArgs fileUUID
                totalBeneIDs failThreshold beneID rest others w wr errorCount
                w1 wr1 errMsg err Hlive Hfetch) as Hstep.
  cbv zeta in Hstep. fold errorCount' w2 failPct in Hstep.
  split; [|split].
  - intros Hge. unfold run. rewrite Hstep, Hge. reflexivity.
  - intros Hlt. unfold run. rewrite Hstep, Hlt. reflexivity.
  - apply getFailureThreshold_cases.
Qed.

(** C10. With EXPORT_FAIL_PCT set to 0 or to a negative value the threshold
    is 0, and an entry with a non-empty beneficiary list is marked failed
    at its first beneficiary, also when that beneficiary produced no
    error. Once its resource type is supported and its data artifact is
    created, [writeBBDataToFile] does exactly this: if the context is
    cancelled when the first beneficiary is reached it returns the
    cancelled-parent error with nothing fetched; otherwise it runs the
    closure on the first beneficiary, records its error if it has one,
    flushes what was buffered and returns the threshold error. The rest of
    the list is never looked at. The loop inside gives what it gives on
    the first beneficiary alone, and in every case [writeBBDataToFile]
    returns an error. *)
Theorem C10_zero_threshold_fails_at_first_beneficiary
    (jobArgs : JobEnqueueArgs) (beneID : string) (rest : list string) (v : Z) :
  Atoi (conf.GetEnv env "EXPORT_FAIL_PCT") = Ok v -> v <= 0 ->
  args_BeneficiaryIDs jobArgs = beneID :: rest ->
  let totalBeneIDs := float64_of_int (Z.of_nat (length (args_BeneficiaryIDs jobArgs))) in
  let failThreshold := worker.getFailureThreshold env in
  failThreshold = float64_of_int 0 /\
  (forall (bb : APIClient) (cmsID fileUUID : string) (others : worker.Interference)
          (w : World S) (bf : worker.BundleFunc) (fs : fsys.FS),
     let dir := conf.GetEnv env "FHIR_STAGING_DIR" +:+ "/" +:+ Itoa (args_ID jobArgs) in
     let name := fileUUID +:+ ".ndjson" in
     worker.bundleFunc bb cmsID jobArgs = Some bf ->
     fsys.Create (files w) dir name = (fs, None) ->
     let w0 := match others with
               | [] => set_files w fs
               | step :: _ => step (set_files w fs)
               end in
     worker.writeBBDataToFile env WriteOperationOutcome w bb cmsID jobArgs fileUUID others
     = if canceled (ctx w0) then
         (w0, ("", 0, Some (errorString ("Parent job " +:+ Itoa (args_ID jobArgs)
                                           +:+ " was cancelled"))))
       else
         let '(w1, wr1, (errMsg, err)) :=
           worker.fetchBeneficiary env WriteOperationOutcome bf bb cmsID jobArgs fileUUID
             beneID w0 bufio.NewWriter in
         let w2 := match err with
                   | Some e =>
                       worker.appendErrorToFile env WriteOperationOutcome (log_Error w1 e)
                         fileUUID IssueTypeCode_EXCEPTION BbErr errMsg (args_ID jobArgs)
                   | None => w1
                   end in
         (set_files w2
            (foldl (fun fs chunk => fsys.Append fs dir name chunk) (files w2)
               (bufio.buffered wr1)),
          ("", 0, Some (errorString "number of failed requests has exceeded threshold")))) /\
  (forall (bf : worker.BundleFunc) (bb : APIClient) (cmsID fileUUID : string)
          (others : worker.Interference) (w : World S) (wr : bufio.Writer),
     let run := worker.beneLoop env WriteOperationOutcome bf bb cmsID jobArgs fileUUID
                  totalBeneIDs failThreshold in
     let w0 := match others with [] => w | step :: _ => step w end in
     worker.lr_failed (run (beneID :: rest) others w wr 0) = true /\
     run (beneID :: rest) others w wr 0 = run [beneID] others w wr 0 /\
     (forall (w1 : World S) (wr1 : bufio.Writer) (errMsg : string),
        canceled (ctx w0) = false ->
        worker.fetchBeneficiary env WriteOperationOutcome bf bb cmsID jobArgs fileUUID
          beneID w0 wr = (w1, wr1, (errMsg, None)) ->
        run (beneID :: rest) others w wr 0 = worker.mkLoopResult w1 wr1 0 true)) /\
  (forall (bb : APIClient) (cmsID fileUUID : string) (others : worker.Interference)
          (w : World S),
     exists e : error,
       snd (worker.writeBBDataToFile env WriteOperationOutcome w bb cmsID jobArgs
              fileUUID others) = ("", 0, Some e)).
Proof.
  intros Hatoi Hv Hids totalBeneIDs failThreshold.
  assert (Hthr : failThreshold = float64_of_int 0)
    by (apply (getFailureThreshold_nonpositive env v); assumption).
  assert (Hge : forall ec, ec = 0 \/ ec = 1 ->
            float64_ge
              (float64_mul (float64_div (float64_of_int ec) totalBeneIDs)
                 (float64_of_int 100)) failThreshold = true).
  { intros ec Hec. rewrite Hthr. unfold totalBeneIDs. rewrite Hids.
    cbn [length]. apply failPct_reaches_zero, Hec. }
  assert (Hloop :
    forall (bf : worker.BundleFunc) (bb : APIClient) (cmsID fileUUID : string)
           (others : worker.Interference) (w : World S) (wr : bufio.Writer),
      let run := worker.beneLoop env WriteOperationOutcome bf bb cmsID jobArgs fileUUID
                   totalBeneIDs failThreshold in
      let w0 := match others with [] => w | step :: _ => step w end in
      worker.lr_failed (run (beneID :: rest) others w wr 0) = true /\
      run (beneID :: rest) others w wr 0 = run [beneID] others w wr 0 /\
      (forall (w1 : World S) (wr1 : bufio.Writer) (errMsg : string),
         canceled (ctx w0) = false ->
         worker.fetchBeneficiary env WriteOperationOutcome bf bb cmsID jobArgs fileUUID
           beneID w0 wr = (w1, wr1, (errMsg, None)) ->
         run (beneID :: rest) others w wr 0 = worker.mkLoopResult w1 wr1 0 true)).
  { intros bf bb cmsID fileUUID others w wr run w0.
    destruct (canceled (ctx w0)) eqn:Hctx.
    - unfold run. rewrite !beneLoop_cancelled by exact Hctx.
      split; [reflexivity|]. split; [reflexivity|]. intros ? ? ? Hc. discriminate Hc.
    - destruct (worker.fetchBeneficiary env WriteOperationOutcome bf bb cmsID jobArgs
                  fileUUID beneID w0 wr) as [[w1 wr1] [errMsg err]] eqn:Hfetch.
      unfold run.
      rewrite !(beneLoop_step env WriteOperationOutcome bf bb cmsID jobArgs fileUUID
                  totalBeneIDs failThreshold beneID _ others w wr 0 w1 wr1 errMsg err
                  Hctx Hfetch).
      rewrite Hge by (destruct err; [right|left]; reflexivity).
      split; [reflexivity|]. split; [reflexivity|].
      intros w1' wr1' errMsg' _ Heq. injection Heq as -> -> -> ->. reflexivity. }
  assert (Hwrite :
    forall (bb : APIClient) (cmsID fileUUID : string) (others : worker.Interference)
           (w : World S) (bf : worker.BundleFunc) (fs : fsys.FS),
      let dir := conf.GetEnv env "FHIR_STAGING_DIR" +:+ "/" +:+ Itoa (args_ID jobArgs) in
      let name := fileUUID +:+ ".ndjson" in
      worker.bundleFunc bb cmsID jobArgs = Some bf ->
      fsys.Create (files w) dir name = (fs, None) ->
      let w0 := match others with
                | [] => set_files w fs
                | step :: _ => step (set_files w fs)
                end in
      worker.writeBBDataToFile env WriteOperationOutcome w bb cmsID jobArgs fileUUID others
      = if canceled (ctx w0) then
          (w0, ("", 0, Some (errorString ("Parent job " +:+ Itoa (args_ID jobArgs)
                                            +:+ " was cancelled"))))
        else
          let '(w1, wr1, (errMsg, err)) :=
            worker.fetchBeneficiary env WriteOperationOutcome bf bb cmsID jobArgs fileUUID
              beneID w0 bufio.NewWriter in
          let w2 := match err with
                    | Some e =>
                        worker.appendErrorToFile env WriteOperationOutcome (log_Error w1 e)
                          fileUUID IssueTypeCode_EXCEPTION BbErr errMsg (args_ID jobArgs)
                    | None => w1
                    end in
          (set_files w2
             (foldl (fun fs chunk => fsys.Append fs dir name chunk) (files w2)
                (bufio.buffered wr1)),
           ("", 0, Some (errorString "number of failed requests has exceeded threshold")))).
  { intros bb cmsID fileUUID others w bf fs dir name Hbf Hcreate w0.
    unfold worker.writeBBDataToFile. rewrite Hbf. fold dir name. rewrite Hcreate.
    cbv zeta. fold totalBeneIDs failThreshold. rewrite Hids.
    destruct (canceled (ctx w0)) eqn:Hctx.
    - rewrite (beneLoop_cancelled env WriteOperationOutcome bf bb cmsID jobArgs fileUUID
                 totalBeneIDs failThreshold beneID rest others (set_files w fs)
                 bufio.NewWriter 0 Hctx).
      fold w0. unfold bufio.Flush.
      cbn [worker.lr_world worker.lr_writer worker.lr_failed bufio.NewWriter
           bufio.buffered foldl].
      unfold ctx_Err. cbn [ctx set_files]. rewrite Hctx.
      rewrite decide_True by reflexivity. destruct w0; reflexivity.
    - pose proof (fetch_frame env WriteOperationOutcome bf bb cmsID jobArgs fileUUID
                    beneID w0 bufio.NewWriter
                    (bundleFunc_oneRequest bb cmsID jobArgs bf Hbf)) as Hframe.
      destruct (worker.fetchBeneficiary env WriteOperationOutcome bf bb cmsID jobArgs
                  fileUUID beneID w0 bufio.NewWriter) as [[w1 wr1] [errMsg err]] eqn:Hfetch.
      cbn [fst] in Hframe. destruct Hframe as (_ & Hc1 & _).
      rewrite (beneLoop_step env WriteOperationOutcome bf bb cmsID jobArgs fileUUID
                 totalBeneIDs failThreshold beneID rest others (set_files w fs)
                 bufio.NewWriter 0 w1 wr1 errMsg err Hctx Hfetch).
      rewrite Hge by (destruct err; [right|left]; reflexivity).
      unfold bufio.Flush. cbn [worker.lr_world worker.lr_writer worker.lr_failed].
      unfold ctx_Err. cbn [ctx set_files].
      assert (Hc2 : canceled (ctx match err with
                      | Some e =>
                          worker.appendErrorToFile env WriteOperationOutcome
                            (log_Error w1 e) fileUUID IssueTypeCode_EXCEPTION BbErr errMsg
                            (args_ID jobArgs)
                      | None => w1
                      end) = false).
      { destruct err as [e|]; [|rewrite Hc1; exact Hctx].
        destruct (appendErrorToFile_frame env WriteOperationOutcome (log_Error w1 e)
                    fileUUID IssueTypeCode_EXCEPTION BbErr errMsg (args_ID jobArgs))
          as (_ & Hc & _).
        rewrite Hc. cbn [ctx log_Error add_log]. rewrite Hc1. exact Hctx. }
      rewrite Hc2. rewrite decide_False by discriminate. reflexivity. }
  split; [exact Hthr|]. split; [exact Hwrite|]. split; [exact Hloop|].
  intros bb cmsID fileUUID others w. unfold worker.writeBBDataToFile.
  destruct (worker.bundleFunc bb cmsID jobArgs) as [bf|]; [|eexists; reflexivity].
  destruct (fsys.Create (files w) _ _) as [fs [e|]]; [eexists; reflexivity|].
  destruct (Hloop bf bb cmsID fileUUID others (set_files w fs) bufio.NewWriter)
    as (Hfailed & _ & _).
  rewrite Hids. fold totalBeneIDs failThreshold. cbv zeta.
  unfold totalBeneIDs in Hfailed at 1. rewrite Hids in Hfailed.
  set (lr := worker.beneLoop _ _ _ _ _ _ _ _ _ _ _ _ _ _) in *.
  unfold bufio.Flush. rewrite Hfailed.
  destruct (decide _); eexists; reflexivity.
Qed.

End ThresholdClaims.

(** Two beneficiaries, the first fails upstream, threshold 50: one error
    out of two reaches the threshold. *)
Lemma threshold_check_after_each_beneficiary_run :
  let jobArgs := scenario.entryArgs "Patient" ["1"; "2"] in
  let env := scenario.envWithPct "50" in
  worker.lr_failed
    (worker.beneLoop env scenario.encode (scenario.bundleFuncOf ["bbm1"] jobArgs)
       (scenario.upstreamClient ["bbm1"]) "A0001" jobArgs "u1" (float64_of_int 2)
       (worker.getFailureThreshold env) ["1"; "2"] []
       (scenario.staged (scenario.jobStore JobStatusInProgress 1 [] false))
       bufio.NewWriter 0) = true /\
  worker.lr_errorCount
    (worker.beneLoop env scenario.encode (scenario.bundleFuncOf ["bbm1"] jobArgs)
       (scenario.upstreamClient ["bbm1"]) "A0001" jobArgs "u1" (float64_of_int 2)
       (worker.getFailureThreshold env) ["1"; "2"] []
       (scenario.staged (scenario.jobStore JobStatusInProgress 1 [] false))
       bufio.NewWriter 0) = 1.
Proof.
  intros jobArgs env.
  set (w := scenario.staged (scenario.jobStore JobStatusInProgress 1 [] false)).
  set (bf := scenario.bundleFuncOf ["bbm1"] jobArgs).
  set (bb := scenario.upstreamClient ["bbm1"]).
  set (f := worker.fetchBeneficiary env scenario.encode bf bb "A0001" jobArgs "u1" "1"
              w bufio.NewWriter).
  assert (Hf : f = (fst (fst f), snd (fst f), (fst (snd f), snd (snd f))))
    by (destruct f as [[? ?] [? ?]]; reflexivity).
  destruct (threshold_check_after_each_beneficiary env scenario.encode bf bb "A0001"
              jobArgs "u1" (float64_of_int 2) "1" ["2"] [] w bufio.NewWriter 0
              (fst (fst f)) (snd (fst f)) (fst (snd f)) (snd (snd f)) eq_refl Hf)
    as (Hfail & _ & _).
  rewrite Hfail by (vm_compute; reflexivity).
  split; vm_compute; reflexivity.
Defined.

(** C7 at the boundary. EXPORT_FAIL_PCT=57, one hundred beneficiaries, the
    first 57 fail upstream. The threshold is 57 and after the 57th
    beneficiary the exact percentage 100 * 57 / 100 reaches it, so the
    entry is to be marked failed there. The worker divides before it
    multiplies: (57 / 100) * 100 is rounded to a binary64 value below 57
    (multiplying first gives 57 exactly), the comparison fails, the loop
    goes on through all hundred beneficiaries and [writeBBDataToFile]
    returns the artifact of the 43 that succeeded and no error. The same
    rounding occurs at 29 and at 58 errors of 100. *)
Theorem C7_exact_boundary_is_missed :
  let jobArgs := scenario.entryArgs "Patient" (scenario.idsFromTo 1 100) in
  let failing := scenario.upstreamIdsUpTo 57 in
  let env := scenario.envWithPct "57" in
  let w := scenario.staged (scenario.jobStore JobStatusInProgress 1 [] false) in
  let r := worker.beneLoop env scenario.encode (scenario.bundleFuncOf failing jobArgs)
             (scenario.upstreamClient failing) "A0001" jobArgs "u1"
             (float64_of_int (Z.of_nat (length (args_BeneficiaryIDs jobArgs))))
             (worker.getFailureThreshold env) (args_BeneficiaryIDs jobArgs) []
             w bufio.NewWriter 0 in
  let out := worker.writeBBDataToFile env scenario.encode w
               (scenario.upstreamClient failing) "A0001" jobArgs "u1" [] in
  worker.bundleFunc (scenario.upstreamClient failing) "A0001" jobArgs
    = Some (scenario.bundleFuncOf failing jobArgs) /\
  worker.getFailureThreshold env = float64_of_int 57 /\
  Z.of_nat (length (args_BeneficiaryIDs jobArgs)) = 100 /\
  worker.lr_errorCount r = 57 /\
  57 <= 100 * worker.lr_errorCount r / 100 /\
  float64_ge (worker.failPct 57 (float64_of_int 100)) (float64_of_int 57) = false /\
  float64_ge (float64_div (float64_mul (float64_of_int 57) (float64_of_int 100))
                (float64_of_int 100)) (float64_of_int 57) = true /\
  worker.lr_failed r = false /\
  snd out = ("u1", 474, None) /\
  length (scenario.requestedIds (upstream (fst out))) = 100%nat /\
  float64_ge (worker.failPct 29 (float64_of_int 100)) (float64_of_int 29) = false /\
  float64_ge (worker.failPct 58 (float64_of_int 100)) (float64_of_int 58) = false.
Proof.
  vm_compute. repeat split; try reflexivity. intros Hc; discriminate Hc.
Qed.

(** EXPORT_FAIL_PCT=-5, three beneficiaries, an upstream that never fails:
    the entry fails on the threshold after the first beneficiary, whose
    resource is the only one requested and the only one written. *)
Lemma C10_zero_threshold_fails_at_first_beneficiary_witness :
  let env := scenario.envWithPct "-5" in
  let jobArgs := scenario.entryArgs "Patient" ["1"; "2"; "3"] in
  let r := worker.writeBBDataToFile env scenario.encode
             (scenario.staged (scenario.jobStore JobStatusInProgress 1 [] false))
             (scenario.upstreamClient []) "A0001" jobArgs "u1" [] in
  worker.getFailureThreshold env = float64_of_int 0 /\
  snd r = ("", 0, Some (errorString "number of failed requests has exceeded threshold")) /\
  scenario.requestedIds (upstream (fst r)) = ["bbm1"] /\
  observe.read (files (fst r)) "/staging/1" "u1.ndjson"
  = Some ["{id:bbm1}" +:+ newline].
Proof.
  intros env jobArgs r.
  destruct (C10_zero_threshold_fails_at_first_beneficiary
              (H := memstore.memRepository) env scenario.encode jobArgs "1" ["2"; "3"] (-5)
              ltac:(vm_compute; reflexivity) ltac:(lia) eq_refl)
    as (Hthr & Hwrite & _ & _).
  split; [exact Hthr|].
  pose proof (Hwrite (scenario.upstreamClient []) "A0001" "u1" []
                (scenario.staged (scenario.jobStore JobStatusInProgress 1 [] false))
                (scenario.bundleFuncOf [] jobArgs)
                (fst (fsys.Create
                        (files (scenario.staged
                                  (scenario.jobStore JobStatusInProgress 1 [] false)))
                        "/staging/1" "u1.ndjson"))
                ltac:(vm_compute; reflexivity) ltac:(vm_compute; reflexivity)) as Hrun.
  unfold r. rewrite Hrun. vm_compute. repeat split.
Defined.

(** ** Threshold 50 on ten beneficiaries *)

Section BreachFacts.
Context {S : Type} `{Repository S}.
Variable env : conf.Env.
Variable NewBlueButtonClient : string -> result APIClient.
Variable WriteOperationOutcome : OperationOutcome -> string.
Import observe.

Lemma int_wrap_small (z : Z) : - 2 ^ 63 <= z < 2 ^ 63 -> int_wrap z = z.
Proof. intros Hz. unfold int_wrap. rewrite Z.mod_small; lia. Qed.



Lemma Flush_keeps (chunks : list string) :
  forall (fs : fsys.FS) (dir name : string),
    (forall d, fs !! d <> None ->
               foldl (fun fs chunk => fsys.Append fs dir name chunk) fs chunks !! d <> None) /\
    (forall d n, (outcomeLines fs d n
                  <= outcomeLines
                       (foldl (fun fs chunk => fsys.Append fs dir name chunk) fs chunks)
                       d n)%nat).
Proof.
  induction chunks as [|c rest IH]; intros fs dir name; simpl.
  - split; auto.
  - destruct (IH (fsys.Append fs dir name c) dir name) as [Hd Hl]. split.
    + intros d Hfs. apply Hd, Append_dir, Hfs.
    + intros d n. etransitivity; [apply outcomeLines_Append_le | apply Hl].
Qed.

Lemma createDir_ok (w : World S) (path : string) :
  exists w' : World S,
    worker.createDir w path = (w', None) /\
    store w' = store w /\ ctx w' = ctx w /\ logs w' = logs w /\
    upstream w' = upstream w /\
    files w' !! path <> None /\
    (forall p, files w !! p <> None -> files w' !! p <> None).
Proof.
  unfold worker.createDir, fsys.IsNotExist, fsys.MkdirAll.
  destruct (files w !! path) as [d|] eqn:Ed.
  - rewrite bool_decide_eq_false_2 by discriminate.
    exists w. rewrite Ed. repeat split; auto; discriminate.
  - rewrite bool_decide_eq_true_2 by reflexivity.
    eexists. split; [reflexivity|]. simpl. repeat split.
    + rewrite lookup_insert_eq. discriminate.
    + intros p Hp. destruct (decide (path = p)) as [<-|Hne].
      * rewrite lookup_insert_eq. discriminate.
      * rewrite lookup_insert_ne by auto. exact Hp.
Qed.

(** What a successful [prepareEntry] leaves. *)
Lemma prepareEntry_ok (w : World S) (job : Job) (jobArgs : JobEnqueueArgs)
    (w1 : World S) (aco : ACO) (bb : APIClient) :
  worker.prepareEntry env NewBlueButtonClient w job jobArgs = (w1, Ok (aco, bb)) ->
  ctx w1 = ctx w /\ upstream w1 = upstream w /\
  store w1 = fst (UpdateJobStatusCheckStatus (store w) (ctx w) (job_ID job)
                    JobStatusPending JobStatusInProgress) /\
  files w1 !! (conf.GetEnv env "FHIR_STAGING_DIR" +:+ "/" +:+ Itoa (args_ID jobArgs))
    <> None /\
  files w1 !! (conf.GetEnv env "FHIR_PAYLOAD_DIR" +:+ "/" +:+ Itoa (args_ID jobArgs))
    <> None.
Proof.
  unfold worker.prepareEntry.
  destruct (GetACOByUUID (store w) (ctx w) (job_ACOID job)) as [aco'|e];
    [|intros Hp; discriminate Hp].
  destruct (UpdateJobStatusCheckStatus (store w) (ctx w) (job_ID job)
              JobStatusPending JobStatusInProgress) as [s err] eqn:Hup.
  assert (Hproceed : forall w0 : World S,
    store w0 = s -> ctx w0 = ctx w -> upstream w0 = upstream w ->
    match NewBlueButtonClient (args_BBBasePath jobArgs) with
    | Ok bb0 =>
        let '(w2, err0) :=
          worker.createDir w0
            (conf.GetEnv env "FHIR_STAGING_DIR" +:+ "/" +:+ Itoa (args_ID jobArgs)) in
        match err0 with
        | Some e => (log_Error w2 e, Err e)
        | None =>
            let '(w3, err1) :=
              worker.createDir w2
                (conf.GetEnv env "FHIR_PAYLOAD_DIR" +:+ "/" +:+ Itoa (args_ID jobArgs)) in
            match err1 with
            | Some e => (log_Error w3 e, Err e)
            | None => (w3, Ok (aco', bb0))
            end
        end
    | Err err0 =>
        (log_Error w0 (errors_Wrap err0 "could not create Blue Button client"),
         Err (errors_Wrap err0 "could not create Blue Button client"))
    end = (w1, Ok (aco, bb)) ->
    ctx w1 = ctx w /\ upstream w1 = upstream w /\ store w1 = s /\
    files w1 !! (conf.GetEnv env "FHIR_STAGING_DIR" +:+ "/" +:+ Itoa (args_ID jobArgs))
      <> None /\
    files w1 !! (conf.GetEnv env "FHIR_PAYLOAD_DIR" +:+ "/" +:+ Itoa (args_ID jobArgs))
      <> None).
  { intros w0 Hs0 Hc0 Hu0.
    destruct (NewBlueButtonClient (args_BBBasePath jobArgs)) as [bb0|e0];
      [|intros Hp; discriminate Hp].
    destruct (createDir_ok w0
                (conf.GetEnv env "FHIR_STAGING_DIR" +:+ "/" +:+ Itoa (args_ID jobArgs)))
      as (w2 & -> & Hs2 & Hc2 & _ & Hu2 & Hd2 & Hk2).
    destruct (createDir_ok w2
                (conf.GetEnv env "FHIR_PAYLOAD_DIR" +:+ "/" +:+ Itoa (args_ID jobArgs)))
      as (w3 & -> & Hs3 & Hc3 & _ & Hu3 & Hd3 & Hk3).
    intros Hp. injection Hp as <- _ _.
    repeat split; try congruence; auto. }
  simpl.
  destruct (errors_Is err ErrJobNotUpdated).
  - apply Hproceed; reflexivity.
  - destruct err as [e|]; [intros Hp; discriminate Hp|]. apply Hproceed; reflexivity.
Qed.

End BreachFacts.

Section BreachRun.
Context {S : Type} `{Repository S}.
Variable env : conf.Env.
Variable WriteOperationOutcome : OperationOutcome -> string.
Import observe.


End BreachRun.

(** ** Runs on the in-memory store *)

Section MemFacts.
Import memstore observe.
Variable env : conf.Env.
Variable NewBlueButtonClient : string -> result APIClient.
Variable WriteOperationOutcome : OperationOutcome -> string.

(** A failed fetch-and-stream step on an InProgress parent: the parent
    becomes Failed, nothing else of the store changes but the advisory
    counter, and the entry returns no error. *)
Lemma recordOutcome_failed_InProgress (w : World Store) (job : Job)
    (jobArgs : JobEnqueueArgs) (fileUUID : string) (size : Z) (e : error) (j : Job) :
  jobs (store w) !! job_ID job = Some j ->
  job_Status j = JobStatusInProgress ->
  exists (w' : World Store) (j' : Job),
    worker.recordOutcome env w job jobArgs (fileUUID, size, Some e) = (w', None) /\
    jobs (store w') !! job_ID job = Some j' /\ job_Status j' = JobStatusFailed /\
    jobKeys (store w') = jobKeys (store w) /\ files w' = files w.
Proof.
  intros Hj Hst. eexists; eexists. split.
  { unfold worker.recordOutcome.
    cbn [UpdateJobStatusCheckStatus memRepository].
    unfold mem_UpdateJobStatusCheckStatus. rewrite Hj.
    rewrite decide_True by exact Hst.
    cbn [errors_Is]. unfold worker.completeEntry, worker.checkJobCompleteAndCleanup.
    cbn [GetJobByID IncrementCompletedJobCount memRepository store set_store ctx].
    unfold mem_GetJobByID. cbn [jobs set_jobs]. rewrite lookup_insert_eq.
    cbn [job_Status with_Status].
    unfold mem_IncrementCompletedJobCount.
    cbn [store set_store log_Warnf add_log jobs set_jobs ctx]. rewrite lookup_insert_eq.
    reflexivity. }
  cbn [store set_store jobs set_jobs jobKeys files log_Warnf add_log].
  rewrite lookup_insert_eq. repeat split; reflexivity.
Qed.


End MemFacts.



(** ** Promotion of the staged files *)

Section PromotionFacts.

Lemma lookup_foldl_delete (names : list string) :
  forall (m : gmap string (list string)) (k : string),
    foldl (fun d n => delete n d) m names !! k
    = if decide (k ∈ names) then None else m !! k.
Proof.
  induction names as [|n rest IH]; intros m k; cbn [foldl].
  - destruct (decide (k ∈ [])) as [Hin|_]; [|reflexivity].
    apply elem_of_nil in Hin. contradiction.
  - rewrite IH.
    destruct (decide (k ∈ rest)) as [Hin|Hout];
      destruct (decide (k ∈ n :: rest)) as [Hin'|Hout']; try reflexivity.
    + exfalso. apply Hout'. apply elem_of_cons. auto.
    + apply elem_of_cons in Hin' as [->|Hin']; [apply lookup_delete_eq | contradiction].
    + apply lookup_delete_ne. intros ->. apply Hout'. apply elem_of_cons. auto.
Qed.

Lemma delete_all_keys (m : gmap string (list string)) :
  foldl (fun d n => delete n d) m ((map_to_list m).*1) = ∅.
Proof.
  apply map_empty. intros k. rewrite lookup_foldl_delete.
  destruct (decide (k ∈ (map_to_list m).*1)) as [_|Hout]; [reflexivity|].
  destruct (m !! k) as [f|] eqn:Ek; [|reflexivity].
  exfalso. apply Hout. apply list_elem_of_fmap. exists (k, f).
  split; [reflexivity|]. apply elem_of_map_to_list. exact Ek.
Qed.

(** Moving every listed file of the staging directory to a different
    payload directory succeeds. *)
Lemma renameAll_ok (staging payload : string) :
  staging <> payload ->
  forall (names : list string) (fs : fsys.FS) (sd pd : gmap string (list string)),
    NoDup names ->
    (forall n, n ∈ names -> sd !! n <> None) ->
    fs !! staging = Some sd ->
    fs !! payload = Some pd ->
    exists (fs' : fsys.FS) (pd' : gmap string (list string)),
      worker.renameAll fs staging payload names = (fs', None) /\
      fs' !! staging = Some (foldl (fun d n => delete n d) sd names) /\
      fs' !! payload = Some pd'.
Proof.
  intros Hne. induction names as [|n rest IH]; intros fs sd pd Hnd Hin Hs Hp.
  - exists fs, pd. repeat split; assumption.
  - apply NoDup_cons in Hnd as [Hn Hnd]. simpl.
    unfold fsys.Rename. rewrite Hs.
    destruct (sd !! n) as [f|] eqn:Ef;
      [|exfalso; apply (Hin n); [apply elem_of_cons; auto | exact Ef]].
    rewrite lookup_insert_ne by exact Hne. rewrite Hp.
    apply (IH _ (delete n sd) (<[n := f]> pd)).
    + exact Hnd.
    + intros m Hm. rewrite lookup_delete_ne by (intros ->; contradiction).
      apply Hin. apply elem_of_cons. auto.
    + rewrite lookup_insert_ne by auto. apply lookup_insert_eq.
    + apply lookup_insert_eq.
Qed.

End PromotionFacts.

Section BlankFacts.
Import memstore observe.
Variable env : conf.Env.
Variable NewBlueButtonClient : string -> result APIClient.
Variable WriteOperationOutcome : OperationOutcome -> string.

(** The completion check and the advisory counter for a parent that is
    Pending or InProgress, its two directories in place. *)
Lemma completeEntry_open_parent (w : World Store) (job j : Job)
    (sd pd : gmap string (list string)) :
  jobs (store w) !! job_ID job = Some j ->
  job_ID j = job_ID job ->
  job_Status j = JobStatusPending \/ job_Status j = JobStatusInProgress ->
  let staging := conf.GetEnv env "FHIR_STAGING_DIR" +:+ "/" +:+ Itoa (job_ID j) in
  let payload := conf.GetEnv env "FHIR_PAYLOAD_DIR" +:+ "/" +:+ Itoa (job_ID j) in
  staging <> payload ->
  files w !! staging = Some sd ->
  files w !! payload = Some pd ->
  let count :=
    Z.of_nat (length (filter (fun jk => jk_JobID jk = job_ID job) (jobKeys (store w)))) in
  exists (w' : World Store) (j' : Job),
    worker.completeEntry env w job = (w', None) /\
    jobKeys (store w') = jobKeys (store w) /\
    jobs (store w') !! job_ID job = Some j' /\
    (job_JobCount j <= count ->
     job_Status j' = JobStatusCompleted /\ files w' !! staging = None /\
     files w' !! payload <> None) /\
    (count < job_JobCount j ->
     job_Status j' = job_Status j /\ files w' = files w).
Proof.
  intros Hj Hid Hst staging payload Hne Hsd Hpd count.
  unfold worker.completeEntry, worker.checkJobCompleteAndCleanup.
  cbn [GetJobByID GetJobKeyCount memRepository]. unfold mem_GetJobByID, mem_GetJobKeyCount.
  rewrite Hj. fold count. fold staging payload.
  assert (Hopen : forall (A : Type) (a b : A),
             match job_Status j with
             | JobStatusPending | JobStatusInProgress => a
             | _ => b
             end = a) by (intros A a b; destruct Hst as [-> | ->]; reflexivity).
  destruct (Z.leb_spec (job_JobCount j) count) as [Hdone|Hopen'].
  - (* every entry of the parent has a key: promote *)
    destruct (renameAll_ok staging payload Hne ((map_to_list sd).*1) (files w) sd pd
                (NoDup_fst_map_to_list sd)) as (fs' & pd' & Hren & Hs' & Hp');
      [ | exact Hsd | exact Hpd | ].
    { intros n Hn. apply list_elem_of_fmap in Hn as ([k f] & -> & Hkf).
      apply elem_of_map_to_list in Hkf. simpl. rewrite Hkf. discriminate. }
    rewrite delete_all_keys in Hs'.
    eexists; eexists. split.
    { destruct Hst as [Hs|Hs]; rewrite Hs; unfold fsys.ReadDir; rewrite Hsd;
        rewrite Hren; cbn [files set_files]; unfold fsys.Remove; rewrite Hs';
        rewrite bool_decide_eq_true_2 by reflexivity;
        cbn [UpdateJobStatus IncrementCompletedJobCount memRepository store set_store
             set_files ctx];
        unfold mem_UpdateJobStatus, mem_IncrementCompletedJobCount;
        rewrite Hid, Hj;
        cbn [jobs set_jobs store set_store set_files ctx];
        rewrite lookup_insert_eq; reflexivity. }
    cbn [store set_store jobs set_jobs jobKeys files set_files].
    split; [reflexivity|]. split; [apply lookup_insert_eq|]. split; [|lia].
    intros _. split; [reflexivity|]. split.
    + apply lookup_delete_eq.
    + rewrite lookup_delete_ne by exact Hne. rewrite Hp'. discriminate.
  - eexists; eexists. split.
    { destruct Hst as [Hs|Hs]; rewrite Hs;
        cbn [IncrementCompletedJobCount memRepository store set_store ctx];
        unfold mem_IncrementCompletedJobCount; rewrite Hj; reflexivity. }
    cbn [store set_store jobs set_jobs jobKeys files].
    split; [reflexivity|]. split; [apply lookup_insert_eq|]. split; [lia|].
    intros _. split; reflexivity.
Qed.

(** C9. When the fetch-and-stream step succeeds with zero bytes written,
    the worker inserts a job key named blank.ndjson (the store accepting
    it) and the entry succeeds; the key counts towards jobCount, so a
    parent whose key count thereby reaches jobCount becomes Completed and
    its staging directory is promoted, and otherwise stays as it was. *)
Theorem C9_blank_output_counts (w : World Store) (job : Job) (jobArgs : JobEnqueueArgs)
    (fileUUID : string) (others : worker.Interference)
    (w1 : World Store) (aco : ACO) (bb : APIClient) (cmsID : string)
    (w2 : World Store) (u : string) (j2 : Job) (sd pd : gmap string (list string)) :
  let blankKey := mkJobKey (job_ID job) "blank.ndjson" (args_ResourceType jobArgs) in
  let staging := conf.GetEnv env "FHIR_STAGING_DIR" +:+ "/" +:+ Itoa (job_ID j2) in
  let payload := conf.GetEnv env "FHIR_PAYLOAD_DIR" +:+ "/" +:+ Itoa (job_ID j2) in
  let count :=
    Z.of_nat (length (filter (fun jk => jk_JobID jk = job_ID job)
                        (jobKeys (store w2) ++ [blankKey]))) in
  worker.prepareEntry env NewBlueButtonClient w job jobArgs = (w1, Ok (aco, bb)) ->
  aco_CMSID aco = Some cmsID ->
  worker.writeBBDataToFile env WriteOperationOutcome w1 bb cmsID jobArgs fileUUID others
    = (w2, (u, 0, None)) ->
  uniqueKeys (store w2) && existsb (same_key blankKey) (jobKeys (store w2)) = false ->
  jobs (store w2) !! job_ID job = Some j2 ->
  job_ID j2 = job_ID job ->
  job_Status j2 = JobStatusPending \/ job_Status j2 = JobStatusInProgress ->
  staging <> payload ->
  files w2 !! staging = Some sd ->
  files w2 !! payload = Some pd ->
  exists (w' : World Store) (j' : Job),
    worker.ProcessJob env NewBlueButtonClient WriteOperationOutcome w job jobArgs
      fileUUID others = (w', None) /\
    jobKeys (store w') = jobKeys (store w2) ++ [blankKey] /\
    jobs (store w') !! job_ID job = Some j' /\
    (job_JobCount j2 <= count ->
     job_Status j' = JobStatusCompleted /\ files w' !! staging = None /\
     files w' !! payload <> None) /\
    (count < job_JobCount j2 ->
     job_Status j' = job_Status j2 /\ files w' = files w2).
Proof.
  intros blankKey staging payload count Hprep Hcms Hwrite Hfree Hj Hid Hst Hne Hsd Hpd.
  unfold worker.ProcessJob. rewrite Hprep, Hcms, Hwrite.
  unfold worker.recordOutcome. cbn [Z.eqb].
  cbn [CreateJobKey memRepository store log_Warn add_log ctx].
  unfold mem_CreateJobKey. fold blankKey.
  change BlankFileName with "blank.ndjson". fold blankKey. rewrite Hfree.
  match goal with |- context [worker.completeEntry env ?w0 job] =>
    destruct (completeEntry_open_parent w0 job j2 sd pd Hj Hid Hst Hne Hsd Hpd)
      as (w' & j' & Hrun & Hkeys & Hj' & Hdone & Hopen)
  end.
  exists w', j'. split; [exact Hrun|]. split; [exact Hkeys|]. split; [exact Hj'|].
  split; [exact Hdone | exact Hopen].
Qed.

(** An empty beneficiary list: nothing is requested upstream and nothing
    is written. *)
Lemma writeBBDataToFile_empty (w : World Store) (bb : APIClient) (cmsID : string)
    (jobArgs : JobEnqueueArgs) (fileUUID : string)
    (others : worker.Interference (S := Store)) (bf : worker.BundleFunc (S := Store)) :
  args_BeneficiaryIDs jobArgs = [] ->
  worker.bundleFunc bb cmsID jobArgs = Some bf ->
  files w !! (conf.GetEnv env "FHIR_STAGING_DIR" +:+ "/" +:+ Itoa (args_ID jobArgs))
    <> None ->
  exists w2 : World Store,
    worker.writeBBDataToFile env WriteOperationOutcome w bb cmsID jobArgs fileUUID others
    = (w2, (fileUUID, 0, None)) /\
    upstream w2 = upstream w /\ store w2 = store w.
Proof.
  intros Hids Hbf Hdir. unfold worker.writeBBDataToFile. rewrite Hbf, Hids.
  unfold fsys.Create.
  destruct (files w !! _) as [d|] eqn:Ed; [|contradiction].
  cbn [worker.beneLoop worker.lr_world worker.lr_writer worker.lr_failed bufio.Flush
       bufio.NewWriter bufio.buffered foldl files set_files].
  unfold fsys.StatSize. rewrite lookup_insert_eq, lookup_insert_eq.
  eexists. split; [reflexivity|]. split; reflexivity.
Qed.

End BlankFacts.

(** Parent 1 split into one entry whose beneficiary list is empty. *)
Lemma C9_blank_output_counts_witness :
  exists (w' : World memstore.Store) (j' : Job),
    worker.ProcessJob scenario.baseEnv (scenario.newClient []) scenario.encode
      (scenario.world (scenario.jobStore JobStatusPending 1 [] true))
      (scenario.parent JobStatusPending 1) (scenario.entryArgs "Patient" []) "u1" []
    = (w', None) /\
    memstore.jobKeys (store w') = [mkJobKey 1 "blank.ndjson" "Patient"] /\
    memstore.jobs (store w') !! 1 = Some j' /\
    job_Status j' = JobStatusCompleted /\
    upstream w' = [].
Proof.
  set (w := scenario.world (scenario.jobStore JobStatusPending 1 [] true)).
  set (job := scenario.parent JobStatusPending 1).
  set (jobArgs := scenario.entryArgs "Patient" []).
  set (w1 := fst (worker.prepareEntry scenario.baseEnv (scenario.newClient []) w job jobArgs)).
  set (w2 := fst (worker.writeBBDataToFile scenario.baseEnv scenario.encode w1
                    (scenario.upstreamClient []) "A0001" jobArgs "u1" [])).
  destruct (C9_blank_output_counts scenario.baseEnv (scenario.newClient [])
              scenario.encode w job jobArgs "u1" [] w1 (mkACO "aco-1" (Some "A0001"))
              (scenario.upstreamClient []) "A0001" w2 "u1"
              (scenario.parent JobStatusInProgress 1)
              (default ∅ (files w2 !! "/staging/1")) (default ∅ (files w2 !! "/payload/1"))
              ltac:(vm_compute; reflexivity) eq_refl ltac:(vm_compute; reflexivity)
              ltac:(vm_compute; reflexivity) ltac:(vm_compute; reflexivity) eq_refl
              ltac:(right; reflexivity) ltac:(vm_compute; discriminate)
              ltac:(vm_compute; reflexivity) ltac:(vm_compute; reflexivity))
    as (w' & j' & Hrun & Hkeys & Hj & Hdone & _).
  exists w', j'. split; [exact Hrun|]. split; [exact Hkeys|]. split; [exact Hj|].
  split; [apply Hdone; vm_compute; discriminate|].
  revert Hrun. vm_compute. intros Hrun. injection Hrun as <-. reflexivity.
Defined.

(** ** A failed fetch-and-stream step whose status update is rejected *)

Section RejectedUpdate.
Context {S : Type} `{Repository S}.
Variable env : conf.Env.
Variable NewBlueButtonClient : string -> result APIClient.
Variable WriteOperationOutcome : OperationOutcome -> string.

Lemma recordOutcome_rejected (w : World S) (job : Job) (jobArgs : JobEnqueueArgs)
    (u : string) (size : Z) (e0 : error) (s' : S) (e1 : error) :
  UpdateJobStatusCheckStatus (store w) (ctx w) (job_ID job)
    JobStatusInProgress JobStatusFailed = (s', Some e1) ->
  errors_Is (Some e1) ErrJobNotUpdated = true ->
  worker.recordOutcome env w job jobArgs (u, size, Some e0)
  = (log_Warnf (set_store w s') "Failed to update job (job cancelled): %s"
       [LErr (Some e1)], Some e1).
Proof.
  intros Hup His. unfold worker.recordOutcome. rewrite Hup, His. reflexivity.
Qed.

(** C3 (as amended). When the fetch-and-stream step fails and the
    conditional update InProgress -> Failed is rejected, ProcessJob logs
    the rejection and returns the error of the rejected update, whatever
    the error of the fetch-and-stream step was. *)
Theorem C3_rejected_update_error_is_returned (w : World S) (job : Job)
    (jobArgs : JobEnqueueArgs) (fileUUID : string) (others : worker.Interference)
    (w1 : World S) (aco : ACO) (bb : APIClient) (cmsID : string)
    (w2 : World S) (u : string) (size : Z) (e0 : error) (s' : S) (e1 : error) :
  worker.prepareEntry env NewBlueButtonClient w job jobArgs = (w1, Ok (aco, bb)) ->
  aco_CMSID aco = Some cmsID ->
  worker.writeBBDataToFile env WriteOperationOutcome w1 bb cmsID jobArgs fileUUID others
    = (w2, (u, size, Some e0)) ->
  UpdateJobStatusCheckStatus (store w2) (ctx w2) (job_ID job)
    JobStatusInProgress JobStatusFailed = (s', Some e1) ->
  errors_Is (Some e1) ErrJobNotUpdated = true ->
  worker.ProcessJob env NewBlueButtonClient WriteOperationOutcome w job jobArgs
    fileUUID others
  = (log_Warnf (set_store w2 s') "Failed to update job (job cancelled): %s"
       [LErr (Some e1)], Some e1).
Proof.
  intros Hprep Hcms Hwrite Hup His.
  unfold worker.ProcessJob. rewrite Hprep, Hcms, Hwrite.
  apply recordOutcome_rejected; assumption.
Qed.

End RejectedUpdate.

(** A second entry of a parent that is already Failed breaches the
    threshold in its turn. *)
Lemma C3_rejected_update_error_is_returned_witness :
  exists w' : World memstore.Store,
    worker.ProcessJob (scenario.envWithPct "50") (scenario.newClient ["bbm1"])
      scenario.encode scenario.failedParentWorld (scenario.parent JobStatusFailed 2)
      (scenario.entryArgs "Patient" ["1"; "2"]) "u1" []
    = (w', Some ErrJobNotUpdated) /\
    In (mkLogEntry WarnLevel "Failed to update job (job cancelled): %s"
          [LErr (Some ErrJobNotUpdated)]) (logs w').
Proof.
  set (env := scenario.envWithPct "50").
  set (w := scenario.failedParentWorld).
  set (job := scenario.parent JobStatusFailed 2).
  set (jobArgs := scenario.entryArgs "Patient" ["1"; "2"]).
  set (w1 := fst (worker.prepareEntry env (scenario.newClient ["bbm1"]) w job jobArgs)).
  set (w2 := fst (worker.writeBBDataToFile env scenario.encode w1
                    (scenario.upstreamClient ["bbm1"]) "A0001" jobArgs "u1" [])).
  eexists. split.
  - apply (C3_rejected_update_error_is_returned env (scenario.newClient ["bbm1"])
             scenario.encode w job jobArgs "u1" [] w1 (mkACO "aco-1" (Some "A0001"))
             (scenario.upstreamClient ["bbm1"]) "A0001" w2 "" 0
             (errorString "number of failed requests has exceeded threshold")
             (store w2) ErrJobNotUpdated);
      vm_compute; reflexivity.
  - cbn [logs log_Warnf add_log]. apply in_or_app. right. left. reflexivity.
Defined.

(** The same run: the fetch-and-stream step fails with the threshold
    error, the parent is Failed already, and ProcessJob returns the error
    of the rejected update, which is another error. *)
Lemma C3_counterexample :
  let env := scenario.envWithPct "50" in
  let job := scenario.parent JobStatusFailed 2 in
  let jobArgs := scenario.entryArgs "Patient" ["1"; "2"] in
  let w1 := fst (worker.prepareEntry env (scenario.newClient ["bbm1"])
                   scenario.failedParentWorld job jobArgs) in
  snd (worker.writeBBDataToFile env scenario.encode w1 (scenario.upstreamClient ["bbm1"])
         "A0001" jobArgs "u1" [])
  = ("", 0, Some (errorString "number of failed requests has exceeded threshold")) /\
  memstore.jobs (store w1) !! 1 = Some job /\
  snd (worker.ProcessJob env (scenario.newClient ["bbm1"]) scenario.encode
         scenario.failedParentWorld job jobArgs "u1" [])
  = Some ErrJobNotUpdated /\
  snd (worker.ProcessJob env (scenario.newClient ["bbm1"]) scenario.encode
         scenario.failedParentWorld job jobArgs "u1" [])
  <> Some (errorString "number of failed requests has exceeded threshold").
Proof.
  vm_compute. repeat split; try reflexivity. intros Hc; discriminate Hc.
Qed.

(** ** Job keys on redelivery *)

Section KeyFacts.
Import memstore observe.
Variable env : conf.Env.
Variable NewBlueButtonClient : string -> result APIClient.
Variable WriteOperationOutcome : OperationOutcome -> string.

Lemma mem_UpdateJobStatus_keys (s : Store) (c : Context) (id : Z) (st : JobStatus) :
  jobKeys (fst (mem_UpdateJobStatus s c id st)) = jobKeys s.
Proof. unfold mem_UpdateJobStatus. destruct (jobs s !! id); reflexivity. Qed.

Lemma mem_UpdateJobStatusCheckStatus_keys (s : Store) (c : Context) (id : Z)
    (expected st : JobStatus) :
  jobKeys (fst (mem_UpdateJobStatusCheckStatus s c id expected st)) = jobKeys s.
Proof.
  unfold mem_UpdateJobStatusCheckStatus.
  destruct (jobs s !! id) as [j|]; [|reflexivity].
  destruct (decide (job_Status j = expected)); reflexivity.
Qed.

Lemma mem_IncrementCompletedJobCount_keys (s : Store) (c : Context) (id : Z) :
  jobKeys (fst (mem_IncrementCompletedJobCount s c id)) = jobKeys s.
Proof. unfold mem_IncrementCompletedJobCount. destruct (jobs s !! id); reflexivity. Qed.

Lemma checkJobCompleteAndCleanup_keys (w : World Store) (jobID : Z) :
  jobKeys (store (fst (worker.checkJobCompleteAndCleanup env w jobID)))
  = jobKeys (store w).
Proof.
  unfold worker.checkJobCompleteAndCleanup.
  destruct (GetJobByID (store w) (ctx w) jobID) as [j|e]; [|reflexivity].
  destruct (job_Status j); try reflexivity;
    (destruct (GetJobKeyCount (store w) (ctx w) jobID) as [n|e]; [|reflexivity];
     destruct (job_JobCount j <=? n); [|reflexivity];
     destruct (fsys.ReadDir _ _) as [names|e]; [|reflexivity];
     destruct (worker.renameAll _ _ _ _) as [fs [e|]]; [reflexivity|];
     destruct (fsys.Remove _ _) as [fs' [e|]]; [reflexivity|];
     cbn [UpdateJobStatus memRepository store set_files];
     pose proof (mem_UpdateJobStatus_keys (store w) (ctx (set_files (set_files w fs) fs'))
                   (job_ID j) JobStatusCompleted) as Hk;
     destruct (mem_UpdateJobStatus _ _ _ _) as [s [e|]]; exact Hk).
Qed.

Lemma completeEntry_keys (w : World Store) (job : Job) :
  jobKeys (store (fst (worker.completeEntry env w job))) = jobKeys (store w).
Proof.
  unfold worker.completeEntry.
  pose proof (checkJobCompleteAndCleanup_keys w (job_ID job)) as Hk.
  destruct (worker.checkJobCompleteAndCleanup env w (job_ID job)) as [w1 [b [e|]]];
    simpl in Hk; [exact Hk|].
  cbn [IncrementCompletedJobCount memRepository].
  pose proof (mem_IncrementCompletedJobCount_keys (store w1) (ctx w1) (job_ID job)) as Hi.
  destruct (mem_IncrementCompletedJobCount _ _ _) as [s [e|]]; simpl in *; congruence.
Qed.

(** C2 (as amended). Reprocessing an entry whose fetch-and-stream step
    succeeds inserts a job key without looking for an existing one. Its
    file name is the artifact id drawn in this delivery followed by
    .ndjson, or blank.ndjson when zero bytes were written. The insert is
    refused, and the entry returns an error with the keys as they were,
    only when the store enforces the uniqueness key (parentJobId,
    fileName) and a key of that parent and that file name exists; in every
    other case the parent has one more job key afterwards. *)
Theorem C2_redelivery_inserts_a_key (w : World Store) (job : Job)
    (jobArgs : JobEnqueueArgs) (fileUUID : string) (fileSize : Z) :
  let fileName := if fileSize =? 0 then "blank.ndjson" else fileUUID +:+ ".ndjson" in
  let jk := mkJobKey (job_ID job) fileName (args_ResourceType jobArgs) in
  let r := worker.recordOutcome env w job jobArgs (fileUUID, fileSize, None) in
  (uniqueKeys (store w) = true /\ existsb (same_key jk) (jobKeys (store w)) = true ->
   (exists e, snd r = Some e) /\ jobKeys (store (fst r)) = jobKeys (store w)) /\
  (uniqueKeys (store w) = false \/ existsb (same_key jk) (jobKeys (store w)) = false ->
   jobKeys (store (fst r)) = jobKeys (store w) ++ [jk]).
Proof.
  intros fileName jk r. unfold r, worker.recordOutcome.
  assert (Hname : (if fileSize =? 0
                   then (log_Warn w [LStr "Empty file found in request: ";
                                     LStr (fileUUID +:+ ".ndjson")], BlankFileName)
                   else (w, fileUUID +:+ ".ndjson"))
                  = (if fileSize =? 0
                     then log_Warn w [LStr "Empty file found in request: ";
                                      LStr (fileUUID +:+ ".ndjson")]
                     else w, fileName))
    by (unfold fileName; destruct (fileSize =? 0); reflexivity).
  rewrite Hname. clear Hname.
  set (w0 := if fileSize =? 0 then _ else w).
  assert (Hs0 : store w0 = store w) by (unfold w0; destruct (fileSize =? 0); reflexivity).
  cbn [CreateJobKey memRepository]. unfold mem_CreateJobKey. fold jk. rewrite Hs0.
  split.
  - intros [Hu Hex]. rewrite Hu, Hex. cbn [andb fst snd store set_store log_Error add_log].
    split; [eexists; reflexivity | reflexivity].
  - intros Hfree.
    assert (Hcond : uniqueKeys (store w) && existsb (same_key jk) (jobKeys (store w))
                    = false)
      by (destruct Hfree as [-> | ->]; [reflexivity | apply andb_false_r]).
    rewrite Hcond. rewrite completeEntry_keys. reflexivity.
Qed.

End KeyFacts.

(** ** Cancellation observed by the beneficiary loop *)

Section CancellationFacts.
Import memstore observe manager.
Variable env : conf.Env.
Variable NewBlueButtonClient : string -> result APIClient.
Variable WriteOperationOutcome : OperationOutcome -> string.
Variable json_Unmarshal : string -> result JobEnqueueArgs.
Variable cloudWatchEnv : string.
Variable PutSample : World Store -> option error.

Lemma monitorTick_store (jobID : Z) (w : World Store) :
  store (monitorTick jobID w) = store w.
Proof.
  unfold monitorTick. destruct (canceled (ctx w)); [reflexivity|].
  destruct (isParentJobCancelled w jobID) as [[] [e|]]; reflexivity.
Qed.

Lemma runEvents_keys (jobID : Z) (evs : list EnvEvent) :
  forall w : World Store,
    jobKeys (store (foldl (runEvent jobID) w evs)) = jobKeys (store w).
Proof.
  induction evs as [|ev rest IH]; intros w; [reflexivity|].
  cbn [foldl]. rewrite IH. destruct ev as [id st|]; cbn [runEvent].
  - cbn [store set_store UpdateJobStatus memRepository]. apply mem_UpdateJobStatus_keys.
  - rewrite monitorTick_store. reflexivity.
Qed.

Lemma beneLoop_keys (bf : worker.BundleFunc) (bb : APIClient) (cmsID : string)
    (jobArgs : JobEnqueueArgs) (fileUUID : string) (totalBeneIDs failThreshold : float64) :
  oneRequest bf ->
  forall (beneIDs : list string) (others : worker.Interference)
         (w : World Store) (wr : bufio.Writer) (errorCount : Z),
    Forall (fun step => forall w0 : World Store,
                          jobKeys (store (step w0)) = jobKeys (store w0)) others ->
    jobKeys (store (worker.lr_world
              (worker.beneLoop env WriteOperationOutcome bf bb cmsID jobArgs fileUUID
                 totalBeneIDs failThreshold beneIDs others w wr errorCount)))
    = jobKeys (store w).
Proof.
  intros Hbf. induction beneIDs as [|beneID rest IH]; intros others w wr errorCount Hall.
  - reflexivity.
  - set (w0 := match others with [] => w | step :: _ => step w end).
    assert (Hw0 : jobKeys (store w0) = jobKeys (store w)).
    { unfold w0. destruct others as [|step others']; [reflexivity|].
      apply (Forall_inv Hall). }
    assert (Htail : Forall (fun step => forall w0 : World Store,
                       jobKeys (store (step w0)) = jobKeys (store w0)) (tail others)).
    { destruct others as [|step others']; [constructor|]. exact (Forall_inv_tail Hall). }
    destruct (canceled (ctx w0)) eqn:Hctx.
    + rewrite beneLoop_cancelled by exact Hctx. exact Hw0.
    + destruct (worker.fetchBeneficiary env WriteOperationOutcome bf bb cmsID jobArgs
                  fileUUID beneID w0 wr) as [[w1 wr1] [errMsg err]] eqn:Hfetch.
      pose proof (fetch_frame env WriteOperationOutcome bf bb cmsID jobArgs fileUUID
                    beneID w0 wr Hbf) as (Hs1 & _).
      rewrite Hfetch in Hs1. simpl in Hs1.
      rewrite (beneLoop_step env WriteOperationOutcome bf bb cmsID jobArgs fileUUID
                 totalBeneIDs failThreshold beneID rest others w wr errorCount
                 w1 wr1 errMsg err Hctx Hfetch).
      set (w2 := match err with
                 | Some e => worker.appendErrorToFile env WriteOperationOutcome
                               (log_Error w1 e) fileUUID IssueTypeCode_EXCEPTION BbErr
                               errMsg (args_ID jobArgs)
                 | None => w1
                 end).
      assert (Hs2 : store w2 = store w0).
      { unfold w2. destruct err as [e|]; [|exact Hs1].
        destruct (appendErrorToFile_frame env WriteOperationOutcome (log_Error w1 e)
                    fileUUID IssueTypeCode_EXCEPTION BbErr errMsg (args_ID jobArgs))
          as (Hs & _).
        rewrite Hs. exact Hs1. }
      destruct (float64_ge _ _).
      * cbn [worker.lr_world]. rewrite Hs2. exact Hw0.
      * rewrite IH by exact Htail. rewrite Hs2. exact Hw0.
Qed.

Lemma writeBBDataToFile_keys (w : World Store) (bb : APIClient) (cmsID : string)
    (jobArgs : JobEnqueueArgs) (fileUUID : string) (others : worker.Interference) :
  Forall (fun step => forall w0 : World Store,
                        jobKeys (store (step w0)) = jobKeys (store w0)) others ->
  jobKeys (store (fst (worker.writeBBDataToFile env WriteOperationOutcome w bb cmsID
                         jobArgs fileUUID others)))
  = jobKeys (store w).
Proof.
  intros Hall. unfold worker.writeBBDataToFile.
  destruct (worker.bundleFunc bb cmsID jobArgs) as [bf|] eqn:Hbf; [|reflexivity].
  destruct (fsys.Create (files w) _ _) as [fs [e|]]; [reflexivity|].
  pose proof (beneLoop_keys bf bb cmsID jobArgs fileUUID
                (float64_of_int (Z.of_nat (length (args_BeneficiaryIDs jobArgs))))
                (worker.getFailureThreshold env)
                (bundleFunc_oneRequest bb cmsID jobArgs bf Hbf)
                (args_BeneficiaryIDs jobArgs) others (set_files w fs) bufio.NewWriter 0
                Hall) as Hk.
  cbv zeta. set (lr := worker.beneLoop _ _ _ _ _ _ _ _ _ _ _ _ _ _) in *.
  unfold bufio.Flush.
  destruct (worker.lr_failed lr).
  - destruct (decide _); exact Hk.
  - destruct (fsys.StatSize _ _ _); exact Hk.
Qed.

Lemma interference_keys (jobID : Z) (sched : list (list EnvEvent)) :
  Forall (fun step => forall w0 : World Store,
                        jobKeys (store (step w0)) = jobKeys (store w0))
         (interference jobID sched).
Proof.
  unfold interference. apply Forall_forall. intros step Hin.
  apply list_elem_of_fmap in Hin as (evs & -> & _).
  intros w0. apply runEvents_keys.
Qed.

(** C1 (as amended). When the beneficiary loop observes the fired
    cancellation signal and the parent job is Cancelled in the JobStore,
    no job key is created, the conditional update InProgress -> Failed is
    rejected, and processing the entry returns Retry with the error of the
    rejected update wrapped. Any later delivery of the entry is answered
    with Ack by validation, the JobStore left as it is. *)
Theorem C1_cancelled_entry_retries_then_acks (w : World Store) (entry : QueJob)
    (fileUUID : string) (sched : list (list EnvEvent)) (jobArgs : JobEnqueueArgs)
    (job : Job) (w1 : World Store) (aco : ACO) (bb : APIClient) (cmsID : string)
    (w2 : World Store) (j2 : Job) :
  let w0 := mkWorld (store w) (files w) (logs w) (upstream w) (mkContext false) in
  let run := processJob env NewBlueButtonClient WriteOperationOutcome json_Unmarshal
               cloudWatchEnv PutSample in
  json_Unmarshal (qj_Args entry) = Ok jobArgs ->
  worker.ValidateJob w0 jobArgs = Ok job ->
  job_ID job = uint_wrap (args_ID jobArgs) ->
  worker.prepareEntry env NewBlueButtonClient w0 job jobArgs = (w1, Ok (aco, bb)) ->
  aco_CMSID aco = Some cmsID ->
  worker.writeBBDataToFile env WriteOperationOutcome w1 bb cmsID jobArgs fileUUID
    (interference (args_ID jobArgs) sched)
  = (w2, ("", 0, Some (errorString ("Parent job " +:+ Itoa (args_ID jobArgs)
                                      +:+ " was cancelled")))) ->
  jobs (store w2) !! job_ID job = Some j2 ->
  job_Status j2 = JobStatusCancelled ->
  disposition (snd (run w entry fileUUID sched))
    = Retry (errors_Wrap ErrJobNotUpdated "failed to process job") /\
  store (fst (run w entry fileUUID sched)) = store w2 /\
  jobKeys (store w2) = jobKeys (store w) /\
  forall (fileUUID' : string) (sched' : list (list EnvEvent)),
    disposition (snd (run (fst (run w entry fileUUID sched)) entry fileUUID' sched')) = Ack /\
    store (fst (run (fst (run w entry fileUUID sched)) entry fileUUID' sched')) = store w2.
Proof.
  intros w0 run Hdec Hval Hid Hprep Hcms Hwrite Hj Hst.
  assert (Hup : UpdateJobStatusCheckStatus (store w2) (ctx w2) (job_ID job)
                  JobStatusInProgress JobStatusFailed = (store w2, Some ErrJobNotUpdated)).
  { cbn [UpdateJobStatusCheckStatus memRepository]. unfold mem_UpdateJobStatusCheckStatus.
    rewrite Hj. rewrite decide_False by (rewrite Hst; discriminate). reflexivity. }
  assert (Hrun : processJob_body env NewBlueButtonClient WriteOperationOutcome
                   json_Unmarshal w0 entry fileUUID sched
                 = (log_Warnf (set_store w2 (store w2))
                      "Failed to update job (job cancelled): %s"
                      [LErr (Some ErrJobNotUpdated)],
                    Some (errors_Wrap ErrJobNotUpdated "failed to process job"))).
  { unfold processJob_body. rewrite Hdec, Hval.
    unfold worker.ProcessJob. rewrite Hprep, Hcms, Hwrite.
    rewrite (recordOutcome_rejected env w2 job jobArgs "" 0 _ (store w2) ErrJobNotUpdated
               Hup eq_refl).
    reflexivity. }
  assert (Hfst : store (fst (run w entry fileUUID sched)) = store w2).
  { unfold run, processJob. fold w0. rewrite Hrun.
    cbn [fst]. destruct (metric_update_keeps cloudWatchEnv PutSample
                           (cancel (log_Warnf (set_store w2 (store w2))
                                      "Failed to update job (job cancelled): %s"
                                      [LErr (Some ErrJobNotUpdated)]))) as (Hs & _).
    rewrite Hs. reflexivity. }
  split; [|split; [exact Hfst|split]].
  - unfold run, processJob. fold w0. rewrite Hrun. reflexivity.
  - destruct (prepareEntry_ok env NewBlueButtonClient w0 job jobArgs w1 aco bb Hprep)
      as (_ & _ & Hs1 & _).
    pose proof (writeBBDataToFile_keys w1 bb cmsID jobArgs fileUUID
                  (interference (args_ID jobArgs) sched)
                  (interference_keys (args_ID jobArgs) sched)) as Hk.
    rewrite Hwrite in Hk. cbn [fst] in Hk. rewrite Hk, Hs1.
    cbn [UpdateJobStatusCheckStatus memRepository].
    rewrite mem_UpdateJobStatusCheckStatus_keys. reflexivity.
  - intros fileUUID' sched'.
    set (wr := fst (run w entry fileUUID sched)) in *.
    assert (Hbase : (String.length (args_BBBasePath jobArgs) =? 0)%nat = false).
    { unfold worker.ValidateJob in Hval.
      destruct (String.length (args_BBBasePath jobArgs) =? 0)%nat; [discriminate Hval|].
      reflexivity. }
    assert (Hval' : worker.ValidateJob
                      (mkWorld (store wr) (files wr) (logs wr) (upstream wr)
                         (mkContext false)) jobArgs
                    = Err worker.ErrParentJobCancelled).
    { unfold worker.ValidateJob. rewrite Hbase.
      cbn [store ctx GetJobByID memRepository]. unfold mem_GetJobByID.
      rewrite Hfst, <- Hid, Hj. rewrite decide_True by exact Hst. reflexivity. }
    unfold run, processJob, processJob_body. rewrite Hdec, Hval'.
    change (errors_Is (Some worker.ErrParentJobCancelled) worker.ErrParentJobCancelled)
      with true.
    cbv iota. cbn [fst snd disposition]. split; [reflexivity|].
    match goal with |- context [updateJobQueueCountCloudwatchMetric _ _ ?x] =>
      destruct (metric_update_keeps cloudWatchEnv PutSample x) as (Hs & _) end.
    rewrite Hs. cbn [store cancel log_Warnf add_log]. exact Hfst.
Qed.

End CancellationFacts.

(** ** Runs of whole queue entries *)

(** An entry whose parent is unknown, at error count 3 and at error count 0. *)
Lemma C8_parent_not_found_witness :
  manager.disposition
    (snd (scenario.processEntry scenario.baseEnv [] (scenario.entryArgs "Patient" ["1"])
            (scenario.world scenario.orphanStore) (scenario.queueEntry 3) "u1" []))
  = manager.Ack /\
  manager.disposition
    (snd (scenario.processEntry scenario.baseEnv [] (scenario.entryArgs "Patient" ["1"])
            (scenario.world scenario.orphanStore) (scenario.queueEntry 0) "u1" []))
  = manager.Retry (errors_Wrap ErrJobNotFound "could not retrieve job from database").
Proof.
  split.
  - apply (C8_parent_not_found scenario.baseEnv (scenario.newClient []) scenario.encode
             (scenario.decodeAs scenario.payload (scenario.entryArgs "Patient" ["1"]))
             "" scenario.noSample (scenario.world scenario.orphanStore)
             (scenario.queueEntry 3) (scenario.entryArgs "Patient" ["1"]) ErrJobNotFound
             "u1" [] eq_refl ltac:(discriminate) eq_refl eq_refl).
    vm_compute. discriminate.
  - apply (C8_parent_not_found scenario.baseEnv (scenario.newClient []) scenario.encode
             (scenario.decodeAs scenario.payload (scenario.entryArgs "Patient" ["1"]))
             "" scenario.noSample (scenario.world scenario.orphanStore)
             (scenario.queueEntry 0) (scenario.entryArgs "Patient" ["1"]) ErrJobNotFound
             "u1" [] eq_refl ltac:(discriminate) eq_refl eq_refl).
    vm_compute. reflexivity.
Defined.

(** A store with the uniqueness key: a second blank.ndjson key of parent 1
    is refused, a key named after a new artifact id is added to the one
    the first delivery left. *)
Lemma C2_redelivery_inserts_a_key_witness :
  ((exists e,
      snd (worker.recordOutcome scenario.baseEnv
             (scenario.staged (scenario.jobStore JobStatusInProgress 2
                                 [mkJobKey 1 "blank.ndjson" "Patient"] true))
             (scenario.parent JobStatusInProgress 2) (scenario.entryArgs "Patient" [])
             ("u2", 0, None)) = Some e) /\
   memstore.jobKeys
     (store (fst (worker.recordOutcome scenario.baseEnv
                    (scenario.staged (scenario.jobStore JobStatusInProgress 2
                                        [mkJobKey 1 "blank.ndjson" "Patient"] true))
                    (scenario.parent JobStatusInProgress 2)
                    (scenario.entryArgs "Patient" []) ("u2", 0, None))))
   = [mkJobKey 1 "blank.ndjson" "Patient"]) /\
  memstore.jobKeys
    (store (fst (worker.recordOutcome scenario.baseEnv
                   (scenario.staged (scenario.jobStore JobStatusInProgress 2
                                       [mkJobKey 1 "u1.ndjson" "Patient"] true))
                   (scenario.parent JobStatusInProgress 2)
                   (scenario.entryArgs "Patient" ["1"]) ("u2", 12, None))))
  = [mkJobKey 1 "u1.ndjson" "Patient"; mkJobKey 1 "u2.ndjson" "Patient"].
Proof.
  split.
  - apply (C2_redelivery_inserts_a_key scenario.baseEnv
             (scenario.staged (scenario.jobStore JobStatusInProgress 2
                                 [mkJobKey 1 "blank.ndjson" "Patient"] true))
             (scenario.parent JobStatusInProgress 2) (scenario.entryArgs "Patient" [])
             "u2" 0).
    split; reflexivity.
  - apply (C2_redelivery_inserts_a_key scenario.baseEnv
             (scenario.staged (scenario.jobStore JobStatusInProgress 2
                                 [mkJobKey 1 "u1.ndjson" "Patient"] true))
             (scenario.parent JobStatusInProgress 2) (scenario.entryArgs "Patient" ["1"])
             "u2" 12).
    right. reflexivity.
Defined.

(** Parent 1 is split into two entries; the store enforces the uniqueness
    key. The first entry is processed (artifact id u1), the worker stops
    before the acknowledgement, and the entry is delivered again (artifact
    id u2): the parent has two job keys for that one entry, and is marked
    Completed although its second entry was never processed. *)
Lemma C2_counterexample :
  let jobArgs := scenario.entryArgs "Patient" ["1"] in
  let first := scenario.processEntry scenario.baseEnv [] jobArgs
                 (scenario.world (scenario.jobStore JobStatusPending 2 [] true))
                 (scenario.queueEntry 0) "u1" [] in
  let second := scenario.processEntry scenario.baseEnv [] jobArgs (fst first)
                  (scenario.queueEntry 0) "u2" [] in
  snd first = None /\
  memstore.jobKeys (store (fst first)) = [mkJobKey 1 "u1.ndjson" "Patient"] /\
  job_Status <$> memstore.jobs (store (fst first)) !! 1 = Some JobStatusInProgress /\
  snd second = None /\
  memstore.jobKeys (store (fst second))
  = [mkJobKey 1 "u1.ndjson" "Patient"; mkJobKey 1 "u2.ndjson" "Patient"] /\
  job_Status <$> memstore.jobs (store (fst second)) !! 1 = Some JobStatusCompleted.
Proof.
  vm_compute. repeat split; reflexivity.
Qed.

(** Parent 1, three beneficiaries; the parent is cancelled and the monitor
    fires before the second beneficiary. *)
Lemma C1_cancelled_entry_retries_then_acks_witness :
  let jobArgs := scenario.entryArgs "Patient" (scenario.idsFromTo 1 3) in
  let w := scenario.world (scenario.jobStore JobStatusInProgress 1 [] false) in
  let first := scenario.processEntry scenario.baseEnv [] jobArgs w
                 (scenario.queueEntry 0) "u1" scenario.cancelBeforeSecond in
  manager.disposition (snd first)
  = manager.Retry (errors_Wrap ErrJobNotUpdated "failed to process job") /\
  manager.disposition
    (snd (scenario.processEntry scenario.baseEnv [] jobArgs (fst first)
            (scenario.queueEntry 1) "u2" []))
  = manager.Ack.
Proof.
  intros jobArgs w first.
  set (w0 := mkWorld (store w) (files w) (logs w) (upstream w) (mkContext false)).
  set (job := scenario.parent JobStatusInProgress 1).
  set (w1 := fst (worker.prepareEntry scenario.baseEnv (scenario.newClient []) w0 job
                    jobArgs)).
  set (w2 := fst (worker.writeBBDataToFile scenario.baseEnv scenario.encode w1
                    (scenario.upstreamClient []) "A0001" jobArgs "u1"
                    (manager.interference 1 scenario.cancelBeforeSecond))).
  destruct (C1_cancelled_entry_retries_then_acks scenario.baseEnv (scenario.newClient [])
              scenario.encode (scenario.decodeAs scenario.payload jobArgs) ""
              scenario.noSample w (scenario.queueEntry 0) "u1" scenario.cancelBeforeSecond
              jobArgs job w1 (mkACO "aco-1" (Some "A0001")) (scenario.upstreamClient [])
              "A0001" w2 (scenario.parent JobStatusCancelled 1)
              ltac:(vm_compute; reflexivity) ltac:(vm_compute; reflexivity)
              ltac:(vm_compute; reflexivity) ltac:(vm_compute; reflexivity) eq_refl
              ltac:(vm_compute; reflexivity) ltac:(vm_compute; reflexivity) eq_refl)
    as (Hretry & _ & _ & Hagain).
  split; [exact Hretry|].
  destruct (Hagain "u2" []) as [Hack _].
  revert Hack. vm_compute. intros _. reflexivity.
Defined.

(** The same run: the monitor fired the signal on seeing the parent
    Cancelled, the loop observed it before the second beneficiary, and
    processing the entry returns Retry, not Ack. *)
Lemma C1_counterexample :
  let jobArgs := scenario.entryArgs "Patient" (scenario.idsFromTo 1 3) in
  let w := scenario.world (scenario.jobStore JobStatusInProgress 1 [] false) in
  let r := scenario.processEntry scenario.baseEnv [] jobArgs w
             (scenario.queueEntry 0) "u1" scenario.cancelBeforeSecond in
  manager.disposition (snd r)
  = manager.Retry (errors_Wrap ErrJobNotUpdated "failed to process job") /\
  manager.disposition (snd r) <> manager.Ack /\
  job_Status <$> memstore.jobs (store (fst r)) !! 1 = Some JobStatusCancelled /\
  scenario.requestedIds (upstream (fst r)) = ["bbm1"] /\
  memstore.jobKeys (store (fst r)) = [].
Proof.
  vm_compute. repeat split; try reflexivity. intros Hc; discriminate Hc.
Qed.

(** * Further properties of the worker and the queue manager *)

(** ** Entries acknowledged without work *)

Section MetricFrame.
Context {S : Type}.
Variable cloudWatchEnv : string.
Variable PutSample : World S -> option error.

Lemma metric_update_calls (w : World S) :
  upstream (manager.updateJobQueueCountCloudwatchMetric cloudWatchEnv PutSample w)
  = upstream w /\
  ctx (manager.updateJobQueueCountCloudwatchMetric cloudWatchEnv PutSample w) = ctx w.
Proof.
  unfold manager.updateJobQueueCountCloudwatchMetric.
  destruct (bool_decide (cloudWatchEnv = "")); [split; reflexivity|].
  destruct (PutSample w); split; reflexivity.
Qed.

End MetricFrame.

Section QueueEdges.
Context {S : Type} `{Repository S}.
Variable env : conf.Env.
Variable NewBlueButtonClient : string -> result APIClient.
Variable WriteOperationOutcome : OperationOutcome -> string.
Variable json_Unmarshal : string -> result JobEnqueueArgs.
Variable cloudWatchEnv : string.
Variable PutSample : World S -> option error.

(** What [processJob] leaves when its body only wrote one log entry. *)
Lemma processJob_logged_only (w0 : World S) (l : LogEntry) (r : option error) :
  let w' := manager.updateJobQueueCountCloudwatchMetric cloudWatchEnv PutSample
              (cancel (add_log w0 l)) in
  store w' = store w0 /\ files w' = files w0 /\ upstream w' = upstream w0 /\
  canceled (ctx w') = true /\ In l (logs w').
Proof.
  intros w'.
  destruct (metric_update_keeps cloudWatchEnv PutSample (cancel (add_log w0 l)))
    as (Hs & Hf & Hl).
  destruct (metric_update_calls cloudWatchEnv PutSample (cancel (add_log w0 l)))
    as (Hu & Hc).
  unfold w'. rewrite Hs, Hf, Hu, Hc. repeat split.
  apply Hl. simpl. apply in_or_app. right. left. reflexivity.
Qed.

Lemma ValidateJob_empty_base_path (w : World S) (jobArgs : JobEnqueueArgs) :
  args_BBBasePath jobArgs = "" ->
  worker.ValidateJob w jobArgs = Err worker.ErrNoBasePathSet.
Proof. intros Hbase. unfold worker.ValidateJob. rewrite Hbase. reflexivity. Qed.

Lemma ValidateJob_with_base_path (w : World S) (jobArgs : JobEnqueueArgs) :
  args_BBBasePath jobArgs <> "" ->
  worker.ValidateJob w jobArgs =
    match GetJobByID (store w) (ctx w) (uint_wrap (args_ID jobArgs)) with
    | Err err =>
        if errors_Is (Some err) ErrJobNotFound then Err worker.ErrParentJobNotFound
        else Err (errors_Wrap err "could not retrieve job from database")
    | Ok exportJob =>
        if decide (job_Status exportJob = JobStatusCancelled)
        then Err worker.ErrParentJobCancelled
        else Ok exportJob
    end.
Proof.
  intros Hbase. unfold worker.ValidateJob.
  destruct (args_BBBasePath jobArgs) as [|c p]; [contradiction|]. reflexivity.
Qed.

(** X1. A queue entry whose payload does not decode is acknowledged: the
    decoding failure is logged as a warning, and neither the job store, the
    files nor the upstream service are touched. *)
Theorem X1_undecodable_payload_is_acked (w : World S) (job : manager.QueJob)
    (fileUUID : string) (sched : list (list manager.EnvEvent)) (err : error) :
  json_Unmarshal (manager.qj_Args job) = Err err ->
  let r := manager.processJob env NewBlueButtonClient WriteOperationOutcome
             json_Unmarshal cloudWatchEnv PutSample w job fileUUID sched in
  manager.disposition (snd r) = manager.Ack /\
  store (fst r) = store w /\ files (fst r) = files w /\ upstream (fst r) = upstream w /\
  In (mkLogEntry WarnLevel
        "Failed to deserialize job.Args '%s' %s. Removing queuejob from que."
        [LStr (manager.qj_Args job); LErr (Some err)])
     (logs (fst r)).
Proof.
  intros Hdec r. unfold r, manager.processJob, manager.processJob_body.
  rewrite Hdec. cbn [fst snd manager.disposition]. split; [reflexivity|].
  match goal with |- context [cancel (log_Warnf ?w0 ?f ?a)] =>
    destruct (processJob_logged_only w0 (mkLogEntry WarnLevel f a) None)
      as (Hs & Hf & Hu & _ & Hl)
  end.
  repeat split; assumption.
Qed.

(** X2. An entry whose arguments carry an empty base path is acknowledged
    with a warning, whatever the job store holds: the parent job is not
    even looked up, and store, files and upstream are left alone. *)
Theorem X2_empty_base_path_is_acked (w : World S) (job : manager.QueJob)
    (jobArgs : JobEnqueueArgs) (fileUUID : string)
    (sched : list (list manager.EnvEvent)) :
  json_Unmarshal (manager.qj_Args job) = Ok jobArgs ->
  args_BBBasePath jobArgs = "" ->
  let r := manager.processJob env NewBlueButtonClient WriteOperationOutcome
             json_Unmarshal cloudWatchEnv PutSample w job fileUUID sched in
  manager.disposition (snd r) = manager.Ack /\
  store (fst r) = store w /\ files (fst r) = files w /\ upstream (fst r) = upstream w /\
  In (mkLogEntry WarnLevel
        "Job %d does not contain valid base path. Removing queuejob from que."
        [LInt (args_ID jobArgs)])
     (logs (fst r)).
Proof.
  intros Hdec Hbase r. unfold r, manager.processJob, manager.processJob_body.
  rewrite Hdec, (ValidateJob_empty_base_path _ jobArgs Hbase).
  change (errors_Is (Some worker.ErrNoBasePathSet) worker.ErrParentJobCancelled)
    with false.
  change (errors_Is (Some worker.ErrNoBasePathSet) worker.ErrNoBasePathSet) with true.
  cbv iota. cbn [fst snd manager.disposition]. split; [reflexivity|].
  match goal with |- context [cancel (log_Warnf ?w0 ?f ?a)] =>
    destruct (processJob_logged_only w0 (mkLogEntry WarnLevel f a) None)
      as (Hs & Hf & Hu & _ & Hl)
  end.
  repeat split; assumption.
Qed.

(** X3. An entry whose parent job is read as Cancelled at validation is
    acknowledged with a warning, at any error count; nothing is fetched,
    written or updated. *)
Theorem X3_cancelled_parent_is_acked (w : World S) (job : manager.QueJob)
    (jobArgs : JobEnqueueArgs) (j : Job) (fileUUID : string)
    (sched : list (list manager.EnvEvent)) :
  json_Unmarshal (manager.qj_Args job) = Ok jobArgs ->
  args_BBBasePath jobArgs <> "" ->
  GetJobByID (store w) (mkContext false) (uint_wrap (args_ID jobArgs)) = Ok j ->
  job_Status j = JobStatusCancelled ->
  let r := manager.processJob env NewBlueButtonClient WriteOperationOutcome
             json_Unmarshal cloudWatchEnv PutSample w job fileUUID sched in
  manager.disposition (snd r) = manager.Ack /\
  store (fst r) = store w /\ files (fst r) = files w /\ upstream (fst r) = upstream w /\
  In (mkLogEntry WarnLevel
        "queJob %d associated with a cancelled parent Job %d. Removing queuejob from que."
        [LInt (manager.qj_ID job); LInt (args_ID jobArgs)])
     (logs (fst r)).
Proof.
  intros Hdec Hbase Hget Hst r. unfold r, manager.processJob, manager.processJob_body.
  rewrite Hdec, (ValidateJob_with_base_path _ jobArgs Hbase).
  cbn [store ctx]. rewrite Hget. rewrite decide_True by exact Hst.
  change (errors_Is (Some worker.ErrParentJobCancelled) worker.ErrParentJobCancelled)
    with true.
  cbv iota. cbn [fst snd manager.disposition]. split; [reflexivity|].
  match goal with |- context [cancel (log_Warnf ?w0 ?f ?a)] =>
    destruct (processJob_logged_only w0 (mkLogEntry WarnLevel f a) None)
      as (Hs & Hf & Hu & _ & Hl)
  end.
  repeat split; assumption.
Qed.

(** X4. When the lookup of the parent job fails with an error that is
    neither the not-found sentinel nor one of the worker's validation
    errors, the entry is rescheduled: [processJob] returns the store's
    error wrapped twice, the cause can still be found in the chain, and
    store, files and upstream are left alone. *)
Theorem X4_store_failure_is_retried (w : World S) (job : manager.QueJob)
    (jobArgs : JobEnqueueArgs) (e : error) (fileUUID : string)
    (sched : list (list manager.EnvEvent)) :
  json_Unmarshal (manager.qj_Args job) = Ok jobArgs ->
  args_BBBasePath jobArgs <> "" ->
  GetJobByID (store w) (mkContext false) (uint_wrap (args_ID jobArgs)) = Err e ->
  errors_Is (Some e) ErrJobNotFound = false ->
  errors_Is (Some e) worker.ErrParentJobCancelled = false ->
  errors_Is (Some e) worker.ErrNoBasePathSet = false ->
  errors_Is (Some e) worker.ErrParentJobNotFound = false ->
  let r := manager.processJob env NewBlueButtonClient WriteOperationOutcome
             json_Unmarshal cloudWatchEnv PutSample w job fileUUID sched in
  manager.disposition (snd r)
  = manager.Retry
      (errors_Wrap (errors_Wrap e "could not retrieve job from database")
         "failed to validate job") /\
  errors_Is (snd r) e = true /\
  store (fst r) = store w /\ files (fst r) = files w /\ upstream (fst r) = upstream w.
Proof.
  intros Hdec Hbase Hget Hnf Hc Hb Hp r.
  unfold r, manager.processJob, manager.processJob_body.
  rewrite Hdec, (ValidateJob_with_base_path _ jobArgs Hbase).
  cbn [store ctx]. rewrite Hget, Hnf.
  assert (Hwrap : forall msg : string,
            errors_Is (Some (errors_Wrap e "could not retrieve job from database"))
              (JobError msg) = errors_Is (Some e) (JobError msg)).
  { intros msg. cbn [errors_Is errors_Wrap chain_Is].
    destruct (decide (withMessage e "could not retrieve job from database" = JobError msg))
      as [Heq|_]; [discriminate Heq | reflexivity]. }
  unfold worker.ErrParentJobCancelled, worker.ErrNoBasePathSet,
    worker.ErrParentJobNotFound in *.
  rewrite !Hwrap, Hc, Hb, Hp.
  cbn [fst snd manager.disposition]. split; [reflexivity|]. split.
  - cbn [errors_Is errors_Wrap chain_Is].
    destruct (decide _) as [_|_]; [reflexivity|].
    destruct (decide _) as [_|_]; [reflexivity|].
    destruct e; cbn [chain_Is]; rewrite decide_True by reflexivity; reflexivity.
  - match goal with |- context [manager.updateJobQueueCountCloudwatchMetric _ _ ?w0] =>
      destruct (metric_update_keeps cloudWatchEnv PutSample w0) as (Hs & Hf & _);
      destruct (metric_update_calls cloudWatchEnv PutSample w0) as (Hu & _)
    end.
    rewrite Hs, Hf, Hu. repeat split.
Qed.

(** X5. One wake-up of the cancellation monitor never writes to the job
    store, the files or the upstream service. It fires the signal exactly
    when the signal was not fired yet and the parent job is read as
    Cancelled; a failed poll is logged and does not fire it, and a wake-up
    after the signal fired changes nothing. *)
Theorem X5_monitor_fires_only_on_cancelled_parent (jobID : Z) (w : World S) :
  let w' := manager.monitorTick jobID w in
  store w' = store w /\ files w' = files w /\ upstream w' = upstream w /\
  canceled (ctx w')
  = canceled (ctx w)
    || match GetJobByID (store w) context_Background (uint_wrap jobID) with
       | Ok job => bool_decide (job_Status job = JobStatusCancelled)
       | Err _ => false
       end /\
  (canceled (ctx w) = true -> w' = w) /\
  (forall e, canceled (ctx w) = false ->
     GetJobByID (store w) context_Background (uint_wrap jobID) = Err e ->
     w' = log_Warnf w "Could not determine parent job %d status: %s"
            [LInt jobID; LErr (Some e)]).
Proof.
  intros w'. unfold w', manager.monitorTick, manager.isParentJobCancelled.
  destruct (canceled (ctx w)) eqn:Hc.
  - repeat (split; [reflexivity|]). split; [exact Hc|].
    split; [reflexivity|]. intros e Hx. discriminate Hx.
  - destruct (GetJobByID (store w) context_Background (uint_wrap jobID)) as [j|e].
    + destruct (bool_decide (job_Status j = JobStatusCancelled)); cbn;
        repeat (split; [reflexivity|]); try (split; [exact Hc|]);
        (split; [intros Hx; discriminate Hx | intros e _ Hx; discriminate Hx]).
    + cbn. repeat (split; [reflexivity|]). split; [exact Hc|].
      split; [intros Hx; discriminate Hx|].
      intros e0 _ He. injection He as <-. reflexivity.
Qed.

End QueueEdges.

(** ** The data artifact *)

Section StreamFacts.
Context {S : Type} `{Repository S}.
Variable env : conf.Env.
Variable WriteOperationOutcome : OperationOutcome -> string.
Import observe stream.


Lemma read_OpenAppend_other (fs : fsys.FS) (d n d' n' : string) :
  n <> n' -> read (fst (fsys.OpenAppend fs d n)) d' n' = read fs d' n'.
Proof.
  intros Hn. unfold fsys.OpenAppend, read.
  destruct (fs !! d) as [dm|] eqn:Ed; [|reflexivity].
  destruct (dm !! n) as [f|] eqn:En; [reflexivity|]. cbn [fst].
  destruct (decide (d = d')) as [<-|Hd].
  - rewrite lookup_insert_eq, Ed. rewrite lookup_insert_ne by exact Hn. reflexivity.
  - rewrite lookup_insert_ne by exact Hd. reflexivity.
Qed.

(** An appended error leaves every file but the error artifact as it is. *)
Lemma appendErrorToFile_keeps (w : World S) (fileUUID : string) (code : IssueTypeCode)
    (detailsCode : DetailsCode) (detailsDisplay : string) (jobID : Z) (d n : string) :
  n <> fileUUID +:+ "-error.ndjson" ->
  read (files (worker.appendErrorToFile env WriteOperationOutcome w fileUUID code
                 detailsCode detailsDisplay jobID)) d n
  = read (files w) d n.
Proof.
  intros Hn. unfold worker.appendErrorToFile.
  set (dir := conf.GetEnv env "FHIR_STAGING_DIR" +:+ "/" +:+ Itoa jobID).
  set (name := fileUUID +:+ "-error.ndjson") in *.
  pose proof (read_OpenAppend_other (files w) dir name d n ltac:(congruence)) as Ho.
  destruct (fsys.OpenAppend (files w) dir name) as [fs [e|]]; cbn [fst] in Ho.
  - reflexivity.
  - cbn [files set_files]. rewrite !read_Append.
    repeat rewrite decide_False by (intros [_ Hx]; congruence). exact Ho.
Qed.

Lemma fhirBundle_buffered (entries : list Entry) :
  forall (w : World S) (wr : bufio.Writer)
         (jsonType beneficiaryID acoID fileUUID : string) (jobID : Z),
    bufio.buffered (snd (worker.fhirBundleToResourceNDJSON env WriteOperationOutcome w wr
                           entries jsonType beneficiaryID acoID fileUUID jobID))
    = bufio.buffered wr ++ ndjson entries.
Proof.
  induction entries as [|entry rest IH]; intros w wr jt bid aco u jid;
    cbn [worker.fhirBundleToResourceNDJSON].
  - symmetry. apply app_nil_r.
  - destruct entry as [[entryJSON|err]|]; cbn [json_Marshal bufio.WriteString].
    + rewrite IH. cbn [bufio.buffered]. rewrite <- app_assoc. reflexivity.
    + apply IH.
    + apply IH.
Qed.



Lemma fhirBundle_keeps (entries : list Entry) (d n fileUUID : string) :
  n <> fileUUID +:+ "-error.ndjson" ->
  forall (w : World S) (wr : bufio.Writer) (jsonType beneficiaryID acoID : string)
         (jobID : Z),
    read (files (fst (worker.fhirBundleToResourceNDJSON env WriteOperationOutcome w wr
                        entries jsonType beneficiaryID acoID fileUUID jobID))) d n
    = read (files w) d n.
Proof.
  intros Hn.
  induction entries as [|entry rest IH]; intros w wr jt bid aco jid;
    cbn [worker.fhirBundleToResourceNDJSON].
  - reflexivity.
  - destruct entry as [[entryJSON|err]|]; cbn [json_Marshal bufio.WriteString].
    + apply IH.
    + rewrite IH. rewrite appendErrorToFile_keeps by exact Hn. reflexivity.
    + apply IH.
Qed.


(** The chunks the closure hands to the writer are decided by store and
    context. *)
Lemma fetch_chunks (bf : worker.BundleFunc) (bb : APIClient) (cmsID : string)
    (jobArgs : JobEnqueueArgs) (fileUUID beneID : string) (w : World S)
    (wr : bufio.Writer) :
  oneRequest bf ->
  bufio.buffered (snd (fst (worker.fetchBeneficiary env WriteOperationOutcome bf bb cmsID
                              jobArgs fileUUID beneID w wr)))
  = bufio.buffered wr
    ++ fetchChunks env WriteOperationOutcome bf bb cmsID jobArgs fileUUID
         (store w) (ctx w) beneID.
Proof.
  intros (call & resp & Hbf). unfold fetchChunks, worker.fetchBeneficiary.
  destruct (ParseUint beneID) as [id|err]; [|symmetry; apply app_nil_r].
  pose proof (getBeneficiary_result w (mkWorld (store w) ∅ [] [] (ctx w))
                (uint_wrap id) bb eq_refl eq_refl) as Hg.
  destruct (worker.getBeneficiary w (uint_wrap id) bb) as [w1 [bene err]].
  destruct (worker.getBeneficiary (mkWorld (store w) ∅ [] [] (ctx w)) (uint_wrap id) bb)
    as [w1' [bene' err']].
  simpl in Hg. injection Hg as <- <-.
  destruct err as [err|]; [symmetry; apply app_nil_r|].
  rewrite !Hbf.
  destruct (resp (bene_BlueButtonID bene)) as [b|err]; [|symmetry; apply app_nil_r].
  pose proof (fhirBundle_buffered (Entries b) (add_call w1 (call (bene_BlueButtonID bene)))
                wr (args_ResourceType jobArgs) beneID cmsID fileUUID (args_ID jobArgs))
    as H1.
  pose proof (fhirBundle_buffered (Entries b) (add_call w1' (call (bene_BlueButtonID bene)))
                bufio.NewWriter (args_ResourceType jobArgs) beneID cmsID fileUUID
                (args_ID jobArgs)) as H2.
  destruct (worker.fhirBundleToResourceNDJSON _ _ (add_call w1 _) _ _ _ _ _ _ _)
    as [wa wra].
  destruct (worker.fhirBundleToResourceNDJSON _ _ (add_call w1' _) _ _ _ _ _ _ _)
    as [wb wrb].
  cbn [fst snd] in *. rewrite H1, H2. reflexivity.
Qed.

Lemma fetch_keeps (bf : worker.BundleFunc) (bb : APIClient) (cmsID : string)
    (jobArgs : JobEnqueueArgs) (fileUUID beneID : string) (w : World S)
    (wr : bufio.Writer) (d n : string) :
  oneRequest bf ->
  n <> fileUUID +:+ "-error.ndjson" ->
  read (files (fst (fst (worker.fetchBeneficiary env WriteOperationOutcome bf bb cmsID
                           jobArgs fileUUID beneID w wr)))) d n
  = read (files w) d n.
Proof.
  intros (call & resp & Hbf) Hn. unfold worker.fetchBeneficiary.
  destruct (ParseUint beneID) as [id|err]; [|reflexivity].
  assert (Hg : files (fst (worker.getBeneficiary w (uint_wrap id) bb)) = files w).
  { unfold worker.getBeneficiary, worker.getBlueButtonID.
    destruct (GetCCLFBeneficiaryByID (store w) (ctx w) (uint_wrap id)) as [bene|err];
      [|reflexivity].
    destruct (LookupUpstreamIdByMBI bb (bene_MBI bene)); reflexivity. }
  destruct (worker.getBeneficiary w (uint_wrap id) bb) as [w1 [bene err]].
  cbn [fst] in Hg.
  destruct err as [err|]; [cbn [fst]; rewrite Hg; reflexivity|].
  rewrite Hbf.
  destruct (resp (bene_BlueButtonID bene)) as [b|err];
    [|cbn [fst files add_call]; rewrite Hg; reflexivity].
  pose proof (fhirBundle_keeps (Entries b) d n fileUUID Hn
                (add_call w1 (call (bene_BlueButtonID bene))) wr
                (args_ResourceType jobArgs) beneID cmsID (args_ID jobArgs)) as Hk.
  destruct (worker.fhirBundleToResourceNDJSON _ _ _ _ _ _ _ _ _ _) as [wa wra].
  cbn [fst files add_call] in *. rewrite Hk, Hg. reflexivity.
Qed.

(** The beneficiary loop without interference: it processes a prefix of
    the list. *)
Lemma beneLoop_prefix (bf : worker.BundleFunc) (bb : APIClient) (cmsID : string)
    (jobArgs : JobEnqueueArgs) (fileUUID : string) (totalBeneIDs failThreshold : float64) :
  oneRequest bf ->
  forall (beneIDs : list string) (w : World S) (wr : bufio.Writer) (errorCount : Z),
    0 <= errorCount ->
    errorCount + Z.of_nat (length beneIDs) < 2 ^ 63 ->
    let r := worker.beneLoop env WriteOperationOutcome bf bb cmsID jobArgs fileUUID
               totalBeneIDs failThreshold beneIDs [] w wr errorCount in
    let dir := conf.GetEnv env "FHIR_STAGING_DIR" +:+ "/" +:+ Itoa (args_ID jobArgs) in
    exists k : nat,
      (k <= length beneIDs)%nat /\
      bufio.buffered (worker.lr_writer r)
      = bufio.buffered wr
        ++ concat (map (fetchChunks env WriteOperationOutcome bf bb cmsID jobArgs fileUUID
                          (store w) (ctx w)) (take k beneIDs)) /\
      worker.lr_errorCount r
      = errorCount + failures env WriteOperationOutcome bf bb cmsID jobArgs fileUUID
                       (store w) (ctx w) (take k beneIDs) /\
      (worker.lr_failed r = false -> k = length beneIDs) /\
      frame w (worker.lr_world r) /\
      (forall d n, n <> fileUUID +:+ "-error.ndjson" ->
                   read (files (worker.lr_world r)) d n = read (files w) d n) /\
      (files w !! dir <> None ->
       (outcomeLines (files w) dir (fileUUID +:+ "-error.ndjson")
        + Z.to_nat (worker.lr_errorCount r - errorCount)
        <= outcomeLines (files (worker.lr_world r)) dir (fileUUID +:+ "-error.ndjson"))%nat).
Proof.
  intros Hbf.
  set (dir := conf.GetEnv env "FHIR_STAGING_DIR" +:+ "/" +:+ Itoa (args_ID jobArgs)).
  set (ename := fileUUID +:+ "-error.ndjson").
  induction beneIDs as [|beneID rest IH]; intros w wr errorCount Hec Hbound r dir';
    subst dir'; fold dir.
  - exists 0%nat. unfold r, failures. cbn.
    split; [lia|]. split; [symmetry; apply app_nil_r|]. split; [lia|].
    split; [reflexivity|]. split; [apply frame_refl|]. split; [reflexivity|].
    intros _. rewrite Z.sub_diag. cbn. lia.
  - cbn [length] in Hbound.
    destruct (canceled (ctx w)) eqn:Hctx.
    + exists 0%nat. unfold r, failures.
      rewrite (beneLoop_cancelled env WriteOperationOutcome bf bb cmsID jobArgs fileUUID
                 totalBeneIDs failThreshold beneID rest [] w wr errorCount Hctx).
      cbn. split; [lia|]. split; [symmetry; apply app_nil_r|]. split; [lia|].
      split; [intros Hx; discriminate Hx|]. split; [apply frame_refl|].
      split; [reflexivity|]. intros _. rewrite Z.sub_diag. cbn. lia.
    + destruct (worker.fetchBeneficiary env WriteOperationOutcome bf bb cmsID jobArgs
                  fileUUID beneID w wr) as [[w1 wr1] [errMsg err]] eqn:Hfetch.
      pose proof (fetch_frame env WriteOperationOutcome bf bb cmsID jobArgs fileUUID
                    beneID w wr Hbf) as Hframe1.
      pose proof (fetch_error env WriteOperationOutcome bf bb cmsID jobArgs fileUUID
                    beneID w wr Hbf) as Herr.
      pose proof (fetch_chunks bf bb cmsID jobArgs fileUUID beneID w wr Hbf) as Hchunks.
      assert (Hkeep1 : forall d n, n <> ename ->
                read (files w1) d n = read (files w) d n).
      { intros d n Hn.
        pose proof (fetch_keeps bf bb cmsID jobArgs fileUUID beneID w wr d n Hbf Hn) as Hk.
        rewrite Hfetch in Hk. exact Hk. }
      rewrite Hfetch in Hframe1, Herr, Hchunks. cbn [fst snd] in Hframe1, Herr, Hchunks.
      set (errorCount' := match err with
                          | Some _ => int_wrap (errorCount + 1)
                          | None => errorCount
                          end).
      set (w2 := match err with
                 | Some e =>
                     worker.appendErrorToFile env WriteOperationOutcome (log_Error w1 e)
                       fileUUID IssueTypeCode_EXCEPTION BbErr errMsg (args_ID jobArgs)
                 | None => w1
                 end).
      assert (Hstep : r = if float64_ge
                                (float64_mul (float64_div (float64_of_int errorCount')
                                                totalBeneIDs) (float64_of_int 100))
                                failThreshold
                          then worker.mkLoopResult w2 wr1 errorCount' true
                          else worker.beneLoop env WriteOperationOutcome bf bb cmsID
                                 jobArgs fileUUID totalBeneIDs failThreshold rest []
                                 w2 wr1 errorCount').
      { unfold r.
        rewrite (beneLoop_step env WriteOperationOutcome bf bb cmsID jobArgs fileUUID
                   totalBeneIDs failThreshold beneID rest [] w wr errorCount
                   w1 wr1 errMsg err Hctx Hfetch). reflexivity. }
      assert (Hfails : beneficiaryFails env WriteOperationOutcome bf bb cmsID jobArgs
                         fileUUID (store w) (ctx w) beneID
                       = match err with Some _ => true | None => false end)
        by (unfold beneficiaryFails; rewrite <- Herr; reflexivity).
      assert (Hcount : errorCount' = errorCount
                       + failures env WriteOperationOutcome bf bb cmsID jobArgs fileUUID
                           (store w) (ctx w) [beneID]).
      { unfold errorCount', failures. destruct err as [e|].
        - rewrite filter_cons_True by exact Hfails. cbn.
          rewrite int_wrap_small by lia. reflexivity.
        - rewrite filter_cons_False by (rewrite Hfails; discriminate). cbn. lia. }
      assert (Hone : 0 <= failures env WriteOperationOutcome bf bb cmsID jobArgs fileUUID
                            (store w) (ctx w) [beneID] <= 1).
      { unfold failures. destruct err as [e|].
        - rewrite filter_cons_True by exact Hfails. cbn. lia.
        - rewrite filter_cons_False by (rewrite Hfails; discriminate). cbn. lia. }
      assert (Hframe2 : frame w w2).
      { unfold w2. destruct err as [e|]; [|exact Hframe1].
        eapply frame_trans; [exact Hframe1|].
        eapply frame_trans; [apply frame_log | apply appendErrorToFile_frame]. }
      assert (Hkeep2 : forall d n, n <> ename ->
                read (files w2) d n = read (files w) d n).
      { intros d n Hn. unfold w2. destruct err as [e|]; [|apply Hkeep1, Hn].
        rewrite appendErrorToFile_keeps by exact Hn. cbn [files log_Error add_log].
        apply Hkeep1, Hn. }
      assert (Hline : files w !! dir <> None ->
                (outcomeLines (files w) dir ename + Z.to_nat (errorCount' - errorCount)
                 <= outcomeLines (files w2) dir ename)%nat).
      { intros Hdir. unfold w2. rewrite Hcount.
        replace (errorCount + _ - errorCount)
          with (failures env WriteOperationOutcome bf bb cmsID jobArgs fileUUID
                  (store w) (ctx w) [beneID]) by lia.
        unfold failures. destruct err as [e|].
        - rewrite filter_cons_True by exact Hfails. cbn.
          etransitivity; [|apply appendErrorToFile_line].
          + destruct Hframe1 as (_ & _ & _ & Hl). specialize (Hl dir ename).
            fold dir ename. cbn [files log_Error add_log]. lia.
          + destruct Hframe1 as (_ & _ & Hd & _). apply Hd, Hdir.
        - rewrite filter_cons_False by (rewrite Hfails; discriminate). cbn.
          destruct Hframe1 as (_ & _ & _ & Hl). specialize (Hl dir ename). lia. }
      destruct (float64_ge _ failThreshold) eqn:Hge.
      * exists 1%nat. rewrite Hstep.
        cbn [worker.lr_writer worker.lr_errorCount worker.lr_failed worker.lr_world
             take length map concat].
        split; [lia|]. split; [rewrite app_nil_r; exact Hchunks|].
        split; [exact Hcount|]. split; [intros Hx; discriminate Hx|].
        split; [exact Hframe2|]. split; [exact Hkeep2 | exact Hline].
      * destruct Hframe2 as (Hs & Hc & Hd & Hl).
        destruct (IH w2 wr1 errorCount') as (k & Hk & Hbuf & Hn & Hfull & Hfr & Hkeep & Hlines).
        { lia. }
        { lia. }
        exists (Datatypes.S k). rewrite Hstep.
        cbn [take length map concat]. rewrite Hs, Hc in Hbuf, Hn.
        split; [lia|]. split.
        { rewrite Hbuf, Hchunks. rewrite <- app_assoc. reflexivity. }
        split.
        { rewrite Hn, Hcount. unfold failures.
          change (beneID :: take k rest) with ([beneID] ++ take k rest).
          rewrite filter_app, length_app. lia. }
        split; [intros Hx; rewrite (Hfull Hx); reflexivity|].
        split; [eapply frame_trans; [|exact Hfr]; unfold frame; auto|].
        split.
        { intros d n Hne. rewrite Hkeep by exact Hne. apply Hkeep2, Hne. }
        intros Hdir. specialize (Hline Hdir). specialize (Hlines (Hd _ Hdir)).
        fold dir ename in Hlines.
        assert (errorCount' <= worker.lr_errorCount
                  (worker.beneLoop env WriteOperationOutcome bf bb cmsID jobArgs fileUUID
                     totalBeneIDs failThreshold rest [] w2 wr1 errorCount')).
        { rewrite Hn. unfold failures. lia. }
        assert (errorCount <= errorCount') by lia.
        lia.
Qed.

(** The beneficiary loop without interference leaves store and context. *)
Lemma beneLoop_frame (bf : worker.BundleFunc) (bb : APIClient) (cmsID : string)
    (jobArgs : JobEnqueueArgs) (fileUUID : string) (totalBeneIDs failThreshold : float64) :
  oneRequest bf ->
  forall (beneIDs : list string) (w : World S) (wr : bufio.Writer) (errorCount : Z),
    frame w (worker.lr_world
               (worker.beneLoop env WriteOperationOutcome bf bb cmsID jobArgs fileUUID
                  totalBeneIDs failThreshold beneIDs [] w wr errorCount)).
Proof.
  intros Hbf. induction beneIDs as [|beneID rest IH]; intros w wr errorCount.
  - apply frame_refl.
  - destruct (canceled (ctx w)) eqn:Hctx.
    + rewrite (beneLoop_cancelled env WriteOperationOutcome bf bb cmsID jobArgs fileUUID
                 totalBeneIDs failThreshold beneID rest [] w wr errorCount Hctx).
      apply frame_refl.
    + destruct (worker.fetchBeneficiary env WriteOperationOutcome bf bb cmsID jobArgs
                  fileUUID beneID w wr) as [[w1 wr1] [errMsg err]] eqn:Hfetch.
      pose proof (fetch_frame env WriteOperationOutcome bf bb cmsID jobArgs fileUUID
                    beneID w wr Hbf) as Hframe1.
      rewrite Hfetch in Hframe1. cbn [fst] in Hframe1.
      rewrite (beneLoop_step env WriteOperationOutcome bf bb cmsID jobArgs fileUUID
                 totalBeneIDs failThreshold beneID rest [] w wr errorCount
                 w1 wr1 errMsg err Hctx Hfetch).
      set (w2 := match err with
                 | Some e => worker.appendErrorToFile env WriteOperationOutcome
                               (log_Error w1 e) fileUUID IssueTypeCode_EXCEPTION BbErr
                               errMsg (args_ID jobArgs)
                 | None => w1
                 end).
      assert (Hframe2 : frame w w2).
      { unfold w2. destruct err as [e|]; [|exact Hframe1].
        eapply frame_trans; [exact Hframe1|].
        eapply frame_trans; [apply frame_log | apply appendErrorToFile_frame]. }
      destruct (float64_ge _ _); [exact Hframe2|].
      eapply frame_trans; [exact Hframe2 | apply IH].
Qed.

End StreamFacts.

Section ArtifactFacts.
Context {S : Type} `{Repository S}.
Variable env : conf.Env.
Variable WriteOperationOutcome : OperationOutcome -> string.
Import observe stream.

Lemma artifact_names_differ (fileUUID : string) :
  fileUUID +:+ ".ndjson" <> fileUUID +:+ "-error.ndjson".
Proof.
  induction fileUUID as [|c u IH]; cbn; [discriminate|].
  intros Heq. injection Heq as Heq. exact (IH Heq).
Qed.

Lemma Flush_read (chunks : list string) :
  forall (fs : fsys.FS) (dir name d n : string),
    read (foldl (fun fs chunk => fsys.Append fs dir name chunk) fs chunks) d n
    = if decide (dir = d /\ name = n) then (fun f => f ++ chunks) <$> read fs dir name
      else read fs d n.
Proof.
  induction chunks as [|c rest IH]; intros fs dir name d n; cbn [foldl].
  - destruct (decide (dir = d /\ name = n)) as [[<- <-]|_]; [|reflexivity].
    destruct (read fs dir name) as [f|]; cbn; [rewrite app_nil_r|]; reflexivity.
  - rewrite IH, !read_Append.
    destruct (decide (dir = d /\ name = n)) as [[<- <-]|_]; [|reflexivity].
    rewrite decide_True by auto.
    destruct (read fs dir name) as [f|]; cbn; [rewrite <- app_assoc|]; reflexivity.
Qed.

Lemma StatSize_read (fs : fsys.FS) (dir name : string) :
  fsys.StatSize fs dir name
  = match read fs dir name with
    | Some f => Ok (fsys.file_size f)
    | None => Err (PathError "stat" (fsys.path_join dir name))
    end.
Proof.
  unfold fsys.StatSize, read. destruct (fs !! dir) as [d|]; [|reflexivity].
  destruct (d !! name); reflexivity.
Qed.

(** [os.Create] in a directory that exists. *)
Lemma Create_ok (fs : fsys.FS) (dir name : string) :
  fs !! dir <> None ->
  exists fs' : fsys.FS,
    fsys.Create fs dir name = (fs', None) /\
    read fs' dir name = Some [] /\
    (forall d n, n <> name -> read fs' d n = read fs d n) /\
    (forall d, fs !! d <> None -> fs' !! d <> None).
Proof.
  intros Hdir. unfold fsys.Create.
  destruct (fs !! dir) as [dm|] eqn:Ed; [|contradiction].
  eexists. split; [reflexivity|]. split; [|split].
  - unfold read. rewrite lookup_insert_eq, lookup_insert_eq. reflexivity.
  - intros d n Hn. unfold read. destruct (decide (dir = d)) as [<-|Hd].
    + rewrite lookup_insert_eq, Ed. rewrite lookup_insert_ne by auto. reflexivity.
    + rewrite lookup_insert_ne by exact Hd. reflexivity.
  - intros d Hd. destruct (decide (dir = d)) as [<-|Hne].
    + rewrite lookup_insert_eq. discriminate.
    + rewrite lookup_insert_ne by exact Hne. exact Hd.
Qed.

Lemma outcomeLines_read (fs fs' : fsys.FS) (d n : string) :
  read fs' d n = read fs d n -> outcomeLines fs' d n = outcomeLines fs d n.
Proof. intros Hr. unfold outcomeLines. rewrite Hr. reflexivity. Qed.

(** [writeBBDataToFile] past its [switch] and [os.Create], in terms of
    the loop result. *)
Lemma writeBBDataToFile_run (w : World S) (bb : APIClient) (cmsID : string)
    (jobArgs : JobEnqueueArgs) (fileUUID : string) (others : worker.Interference)
    (bf : worker.BundleFunc) (fs : fsys.FS) :
  let dir := conf.GetEnv env "FHIR_STAGING_DIR" +:+ "/" +:+ Itoa (args_ID jobArgs) in
  let name := fileUUID +:+ ".ndjson" in
  worker.bundleFunc bb cmsID jobArgs = Some bf ->
  fsys.Create (files w) dir name = (fs, None) ->
  let lr := worker.beneLoop env WriteOperationOutcome bf bb cmsID jobArgs fileUUID
              (float64_of_int (Z.of_nat (length (args_BeneficiaryIDs jobArgs))))
              (worker.getFailureThreshold env) (args_BeneficiaryIDs jobArgs) others
              (set_files w fs) bufio.NewWriter 0 in
  let w2 := set_files (worker.lr_world lr)
              (foldl (fun fs chunk => fsys.Append fs dir name chunk)
                 (files (worker.lr_world lr)) (bufio.buffered (worker.lr_writer lr))) in
  worker.writeBBDataToFile env WriteOperationOutcome w bb cmsID jobArgs fileUUID others
  = (w2,
     if worker.lr_failed lr then
       if canceled (ctx (worker.lr_world lr)) then
         ("", 0, Some (errorString ("Parent job " +:+ Itoa (args_ID jobArgs)
                                      +:+ " was cancelled")))
       else ("", 0, Some (errorString "number of failed requests has exceeded threshold"))
     else
       match read (files w2) dir name with
       | Some f => (fileUUID, fsys.file_size f, None)
       | None => ("", 0, Some (PathError "stat" (fsys.path_join dir name)))
       end).
Proof.
  intros dir name Hbf Hcreate lr w2.
  unfold worker.writeBBDataToFile. rewrite Hbf. fold dir name. rewrite Hcreate.
  cbv zeta. fold lr. unfold bufio.Flush. fold w2.
  destruct (worker.lr_failed lr).
  - unfold ctx_Err. change (ctx w2) with (ctx (worker.lr_world lr)).
    destruct (canceled (ctx (worker.lr_world lr))).
    + rewrite decide_True by reflexivity. reflexivity.
    + rewrite decide_False by discriminate. reflexivity.
  - rewrite StatSize_read. destruct (read (files w2) dir name); reflexivity.
Qed.

(** X7. Without interference, and whatever its outcome, a call of
    [writeBBDataToFile] leaves in the data artifact the chunks of a prefix
    of the beneficiary list, beneficiary by beneficiary in the order of
    the list (a failing beneficiary contributes nothing); the job store and
    the context are not changed, and the error artifact has gained at
    least one record for every failing beneficiary of that prefix. The call
    either returns the artifact id, the size of the artifact and no error,
    in which case the prefix is the whole list, or it returns the empty
    id, size 0 and an error. *)
Theorem X7_data_artifact_holds_a_prefix (w : World S) (bb : APIClient) (cmsID : string)
    (jobArgs : JobEnqueueArgs) (fileUUID : string) (bf : worker.BundleFunc) :
  let dir := conf.GetEnv env "FHIR_STAGING_DIR" +:+ "/" +:+ Itoa (args_ID jobArgs) in
  let chunks := fetchChunks env WriteOperationOutcome bf bb cmsID jobArgs fileUUID
                  (store w) (ctx w) in
  let r := worker.writeBBDataToFile env WriteOperationOutcome w bb cmsID jobArgs
             fileUUID [] in
  worker.bundleFunc bb cmsID jobArgs = Some bf ->
  files w !! dir <> None ->
  Z.of_nat (length (args_BeneficiaryIDs jobArgs)) < 2 ^ 63 ->
  exists k : nat,
    (k <= length (args_BeneficiaryIDs jobArgs))%nat /\
    read (files (fst r)) dir (fileUUID +:+ ".ndjson")
    = Some (concat (map chunks (take k (args_BeneficiaryIDs jobArgs)))) /\
    store (fst r) = store w /\ ctx (fst r) = ctx w /\
    (outcomeLines (files w) dir (fileUUID +:+ "-error.ndjson")
     + Z.to_nat (failures env WriteOperationOutcome bf bb cmsID jobArgs fileUUID
                   (store w) (ctx w) (take k (args_BeneficiaryIDs jobArgs)))
     <= outcomeLines (files (fst r)) dir (fileUUID +:+ "-error.ndjson"))%nat /\
    ((snd r = (fileUUID,
               fsys.file_size (concat (map chunks (args_BeneficiaryIDs jobArgs))),
               None) /\
      k = length (args_BeneficiaryIDs jobArgs)) \/
     exists e : error, snd r = ("", 0, Some e)).
Proof.
  intros dir chunks r Hbf Hdir Hlen.
  set (name := fileUUID +:+ ".ndjson"). set (ename := fileUUID +:+ "-error.ndjson").
  assert (Hnames : name <> ename) by apply artifact_names_differ.
  destruct (Create_ok (files w) dir name Hdir) as (fs & Hcreate & Hnew & Hother & Hdirs).
  pose proof (writeBBDataToFile_run w bb cmsID jobArgs fileUUID [] bf fs Hbf Hcreate)
    as Hrun.
  cbv zeta in Hrun. fold dir name in Hrun.
  destruct (beneLoop_prefix env WriteOperationOutcome bf bb cmsID jobArgs fileUUID
              (float64_of_int (Z.of_nat (length (args_BeneficiaryIDs jobArgs))))
              (worker.getFailureThreshold env)
              (bundleFunc_oneRequest bb cmsID jobArgs bf Hbf)
              (args_BeneficiaryIDs jobArgs) (set_files w fs) bufio.NewWriter 0
              ltac:(lia) ltac:(lia))
    as (k & Hk & Hbuf & Hcount & Hfull & (Hs & Hc & _ & _) & Hkeep & Hlines).
  fold dir ename in Hlines.
  set (lr := worker.beneLoop env WriteOperationOutcome bf bb cmsID jobArgs fileUUID
               (float64_of_int (Z.of_nat (length (args_BeneficiaryIDs jobArgs))))
               (worker.getFailureThreshold env) (args_BeneficiaryIDs jobArgs) []
               (set_files w fs) bufio.NewWriter 0) in *.
  cbn [store ctx set_files bufio.NewWriter bufio.buffered app] in Hbuf, Hcount, Hs, Hc.
  fold chunks in Hbuf.
  set (w2 := set_files (worker.lr_world lr)
               (foldl (fun fs chunk => fsys.Append fs dir name chunk)
                  (files (worker.lr_world lr)) (bufio.buffered (worker.lr_writer lr))))
    in *.
  assert (Hdata : read (files w2) dir name
                  = Some (concat (map chunks (take k (args_BeneficiaryIDs jobArgs))))).
  { unfold w2. cbn [files set_files]. rewrite Flush_read.
    rewrite decide_True by auto. rewrite (Hkeep dir name Hnames).
    cbn [files set_files]. rewrite Hnew, Hbuf. reflexivity. }
  exists k. unfold r. rewrite Hrun. cbn [fst snd].
  split; [exact Hk|]. split; [exact Hdata|].
  split; [exact Hs|]. split; [exact Hc|]. split.
  - unfold w2. cbn [files set_files].
    destruct (Flush_keeps (bufio.buffered (worker.lr_writer lr))
                (files (worker.lr_world lr)) dir name) as [_ Hl].
    specialize (Hl dir ename).
    assert (Hpre : outcomeLines (files (set_files w fs)) dir ename
                   = outcomeLines (files w) dir ename).
    { apply outcomeLines_read. cbn [files set_files]. apply Hother.
      intros Hx. apply Hnames. symmetry. exact Hx. }
    specialize (Hlines ltac:(cbn [files set_files]; apply Hdirs, Hdir)).
    rewrite Hcount in Hlines. rewrite Z.add_0_l, Z.sub_0_r in Hlines.
    rewrite Hpre in Hlines. lia.
  - destruct (worker.lr_failed lr) eqn:Hfailed.
    + right. destruct (canceled _); eexists; reflexivity.
    + left. specialize (Hfull eq_refl). subst k.
      rewrite firstn_all in Hdata. rewrite Hdata. split; reflexivity.
Qed.

(** X8. For an entry with an empty beneficiary list [writeBBDataToFile]
    succeeds with size 0, whatever the failure threshold is and even when
    the context is already cancelled: the loop body, which alone reads the
    cancellation signal and the threshold, never runs. The data artifact is
    created empty, nothing is requested upstream and the job store is left
    alone. *)
Theorem X8_empty_list_succeeds_with_size_zero (w : World S) (bb : APIClient)
    (cmsID : string) (jobArgs : JobEnqueueArgs) (fileUUID : string)
    (others : worker.Interference (S := S)) (bf : worker.BundleFunc (S := S)) :
  let dir := conf.GetEnv env "FHIR_STAGING_DIR" +:+ "/" +:+ Itoa (args_ID jobArgs) in
  args_BeneficiaryIDs jobArgs = [] ->
  worker.bundleFunc bb cmsID jobArgs = Some bf ->
  files w !! dir <> None ->
  exists w2 : World S,
    worker.writeBBDataToFile env WriteOperationOutcome w bb cmsID jobArgs fileUUID others
    = (w2, (fileUUID, 0, None)) /\
    read (files w2) dir (fileUUID +:+ ".ndjson") = Some [] /\
    store w2 = store w /\ ctx w2 = ctx w /\ upstream w2 = upstream w /\ logs w2 = logs w.
Proof.
  intros dir Hids Hbf Hdir.
  destruct (Create_ok (files w) dir (fileUUID +:+ ".ndjson") Hdir)
    as (fs & Hcreate & Hnew & _).
  pose proof (writeBBDataToFile_run w bb cmsID jobArgs fileUUID others bf fs Hbf Hcreate)
    as Hrun.
  cbv zeta in Hrun. fold dir in Hrun. rewrite Hids in Hrun.
  cbn [worker.beneLoop worker.lr_world worker.lr_writer worker.lr_failed
       bufio.NewWriter bufio.buffered foldl files set_files] in Hrun.
  rewrite Hnew in Hrun. eexists. split; [exact Hrun|].
  cbn [files set_files store ctx upstream logs]. repeat split. exact Hnew.
Qed.

(** X9. When the context is already cancelled as [writeBBDataToFile]
    starts on a non-empty list, the call fails with the message that the
    parent job was cancelled: the data artifact is created and stays empty,
    nothing is requested upstream and the job store is left alone. *)
Theorem X9_cancelled_context_stops_before_first_request (w : World S) (bb : APIClient)
    (cmsID : string) (jobArgs : JobEnqueueArgs) (fileUUID : string)
    (bf : worker.BundleFunc (S := S)) :
  let dir := conf.GetEnv env "FHIR_STAGING_DIR" +:+ "/" +:+ Itoa (args_ID jobArgs) in
  args_BeneficiaryIDs jobArgs <> [] ->
  worker.bundleFunc bb cmsID jobArgs = Some bf ->
  files w !! dir <> None ->
  canceled (ctx w) = true ->
  exists w2 : World S,
    worker.writeBBDataToFile env WriteOperationOutcome w bb cmsID jobArgs fileUUID []
    = (w2, ("", 0, Some (errorString ("Parent job " +:+ Itoa (args_ID jobArgs)
                                        +:+ " was cancelled")))) /\
    read (files w2) dir (fileUUID +:+ ".ndjson") = Some [] /\
    store w2 = store w /\ upstream w2 = upstream w /\ logs w2 = logs w.
Proof.
  intros dir Hids Hbf Hdir Hctx.
  destruct (Create_ok (files w) dir (fileUUID +:+ ".ndjson") Hdir)
    as (fs & Hcreate & Hnew & _).
  pose proof (writeBBDataToFile_run w bb cmsID jobArgs fileUUID [] bf fs Hbf Hcreate)
    as Hrun.
  cbv zeta in Hrun. fold dir in Hrun.
  destruct (args_BeneficiaryIDs jobArgs) as [|beneID rest]; [contradiction|].
  rewrite (beneLoop_cancelled env WriteOperationOutcome bf bb cmsID jobArgs fileUUID
             _ _ beneID rest [] (set_files w fs) bufio.NewWriter 0 Hctx) in Hrun.
  cbn [worker.lr_world worker.lr_writer worker.lr_failed
       bufio.NewWriter bufio.buffered foldl files set_files ctx] in Hrun.
  rewrite Hctx in Hrun. eexists. split; [exact Hrun|].
  cbn [files set_files store upstream logs]. repeat split. exact Hnew.
Qed.

(** Zero errors stay below any threshold above zero. *)
Lemma failPct_zero_below (totalBeneIDs failThreshold : float64) :
  f64_pos totalBeneIDs -> f64_pos failThreshold ->
  float64_ge
    (float64_mul (float64_div (float64_of_int 0) totalBeneIDs) (float64_of_int 100))
    failThreshold = false.
Proof.
  change (float64_of_int 0) with (S754_zero false).
  change (float64_of_int 100) with (S754_finite false 7036874417766400 (-46)).
  destruct totalBeneIDs as [| [] | | [] mt et]; cbn; try tauto; intros _;
    destruct failThreshold as [| [] | | [] mf ef]; cbn; try tauto; intros _; reflexivity.
Qed.

Lemma getFailureThreshold_pos :
  (forall v, Atoi (conf.GetEnv env "EXPORT_FAIL_PCT") = Ok v -> 1 <= v) ->
  f64_pos (worker.getFailureThreshold env).
Proof.
  intros Hv. unfold worker.getFailureThreshold.
  destruct (Atoi (conf.GetEnv env "EXPORT_FAIL_PCT")) as [v|e]; [|exact I].
  specialize (Hv v eq_refl).
  destruct (Z.ltb_spec v 0); [lia|]. destruct (Z.ltb_spec 100 v); [exact I|].
  destruct v as [|p|p]; [lia| |lia]. apply float64_of_int_pos.
Qed.

(** The loop over beneficiaries none of which fails. *)
Lemma beneLoop_all_succeed (bf : worker.BundleFunc) (bb : APIClient) (cmsID : string)
    (jobArgs : JobEnqueueArgs) (fileUUID : string) (totalBeneIDs failThreshold : float64) :
  oneRequest bf -> f64_pos totalBeneIDs -> f64_pos failThreshold ->
  forall (beneIDs : list string) (w : World S) (wr : bufio.Writer),
    canceled (ctx w) = false ->
    Forall (fun b => beneficiaryFails env WriteOperationOutcome bf bb cmsID jobArgs
                       fileUUID (store w) (ctx w) b = false) beneIDs ->
    worker.lr_failed
      (worker.beneLoop env WriteOperationOutcome bf bb cmsID jobArgs fileUUID
         totalBeneIDs failThreshold beneIDs [] w wr 0) = false.
Proof.
  intros Hbf Htotal Hthr.
  induction beneIDs as [|beneID rest IH]; intros w wr Hlive Hall; [reflexivity|].
  apply Forall_cons in Hall as [Hok Hrest].
  destruct (worker.fetchBeneficiary env WriteOperationOutcome bf bb cmsID jobArgs
              fileUUID beneID w wr) as [[w1 wr1] [errMsg err]] eqn:Hfetch.
  pose proof (fetch_frame env WriteOperationOutcome bf bb cmsID jobArgs fileUUID
                beneID w wr Hbf) as (Hs & Hc & _).
  pose proof (fetch_error env WriteOperationOutcome bf bb cmsID jobArgs fileUUID
                beneID w wr Hbf) as Herr.
  rewrite Hfetch in Hs, Hc, Herr. cbn [fst snd] in Hs, Hc, Herr.
  unfold beneficiaryFails in Hok. rewrite <- Herr in Hok.
  destruct err as [e|]; [discriminate Hok|].
  rewrite (beneLoop_step env WriteOperationOutcome bf bb cmsID jobArgs fileUUID
             totalBeneIDs failThreshold beneID rest [] w wr 0 w1 wr1 errMsg None
             Hlive Hfetch).
  rewrite (failPct_zero_below _ _ Htotal Hthr). cbn [tail].
  apply IH; rewrite ?Hs, ?Hc; assumption.
Qed.

(** [writeBBDataToFile] on an entry none of whose beneficiaries fails. *)
Lemma writeBBDataToFile_all_succeed (w : World S) (bb : APIClient) (cmsID : string)
    (jobArgs : JobEnqueueArgs) (fileUUID : string) (bf : worker.BundleFunc) :
  let dir := conf.GetEnv env "FHIR_STAGING_DIR" +:+ "/" +:+ Itoa (args_ID jobArgs) in
  let content :=
    concat (map (fetchChunks env WriteOperationOutcome bf bb cmsID jobArgs fileUUID
                   (store w) (ctx w)) (args_BeneficiaryIDs jobArgs)) in
  worker.bundleFunc bb cmsID jobArgs = Some bf ->
  files w !! dir <> None ->
  canceled (ctx w) = false ->
  (forall v, Atoi (conf.GetEnv env "EXPORT_FAIL_PCT") = Ok v -> 1 <= v) ->
  Forall (fun b => beneficiaryFails env WriteOperationOutcome bf bb cmsID jobArgs
                     fileUUID (store w) (ctx w) b = false)
         (args_BeneficiaryIDs jobArgs) ->
  exists w2 : World S,
    worker.writeBBDataToFile env WriteOperationOutcome w bb cmsID jobArgs fileUUID []
    = (w2, (fileUUID, fsys.file_size content, None)) /\
    read (files w2) dir (fileUUID +:+ ".ndjson") = Some content /\
    store w2 = store w /\ ctx w2 = ctx w /\
    (forall d, files w !! d <> None -> files w2 !! d <> None).
Proof.
  intros dir content Hbf Hdir Hlive Hpct Hall.
  set (name := fileUUID +:+ ".ndjson").
  pose proof (bundleFunc_oneRequest bb cmsID jobArgs bf Hbf) as Hone.
  destruct (Create_ok (files w) dir name Hdir) as (fs & Hcreate & Hnew & _ & Hdirs).
  pose proof (writeBBDataToFile_run w bb cmsID jobArgs fileUUID [] bf fs Hbf Hcreate)
    as Hrun.
  cbv zeta in Hrun. fold dir name in Hrun.
  pose proof (beneLoop_frame env WriteOperationOutcome bf bb cmsID jobArgs fileUUID
                (float64_of_int (Z.of_nat (length (args_BeneficiaryIDs jobArgs))))
                (worker.getFailureThreshold env) Hone (args_BeneficiaryIDs jobArgs)
                (set_files w fs) bufio.NewWriter 0) as (_ & Hctx & Hkeepdirs & _).
  set (total := float64_of_int (Z.of_nat (length (args_BeneficiaryIDs jobArgs)))) in *.
  assert (Hloop :
    let lr := worker.beneLoop env WriteOperationOutcome bf bb cmsID jobArgs fileUUID
                total (worker.getFailureThreshold env) (args_BeneficiaryIDs jobArgs) []
                (set_files w fs) bufio.NewWriter 0 in
    worker.lr_failed lr = false /\
    bufio.buffered (worker.lr_writer lr) = content /\
    store (worker.lr_world lr) = store w /\
    read (files (worker.lr_world lr)) dir name = Some []).
  { intros lr. clear Hrun. subst lr total content. revert Hall.
    generalize (args_BeneficiaryIDs jobArgs). intros ids Hall.
    assert (Hfailed : worker.lr_failed
                        (worker.beneLoop env WriteOperationOutcome bf bb cmsID jobArgs
                           fileUUID (float64_of_int (Z.of_nat (length ids)))
                           (worker.getFailureThreshold env) ids []
                           (set_files w fs) bufio.NewWriter 0) = false).
    { destruct ids as [|b rest]; [reflexivity|].
      apply beneLoop_all_succeed.
      - exact Hone.
      - cbn [length]. rewrite Nat2Z.inj_succ, <- Z.add_1_r.
        destruct (Z.of_nat (length rest) + 1) as [|p|p] eqn:Ep; [lia| |lia].
        apply float64_of_int_pos.
      - apply getFailureThreshold_pos, Hpct.
      - exact Hlive.
      - exact Hall. }
    split; [exact Hfailed|].
    assert (Hgen : forall (l : list string) (w0 : World S) (wr : bufio.Writer)
                     (total thr : float64),
              store w0 = store w -> ctx w0 = ctx w ->
              Forall (fun b => beneficiaryFails env WriteOperationOutcome bf bb cmsID
                                 jobArgs fileUUID (store w) (ctx w) b = false) l ->
              worker.lr_failed
                (worker.beneLoop env WriteOperationOutcome bf bb cmsID jobArgs fileUUID
                   total thr l [] w0 wr 0) = false ->
              let lr := worker.beneLoop env WriteOperationOutcome bf bb cmsID jobArgs
                          fileUUID total thr l [] w0 wr 0 in
              bufio.buffered (worker.lr_writer lr)
              = bufio.buffered wr
                ++ concat (map (fetchChunks env WriteOperationOutcome bf bb cmsID jobArgs
                                  fileUUID (store w) (ctx w)) l) /\
              store (worker.lr_world lr) = store w /\
              read (files (worker.lr_world lr)) dir name = read (files w0) dir name).
    { induction l as [|b rest IHl]; intros w0 wr tot thr Hs0 Hc0 Hl Hnf lr0.
      - unfold lr0. cbn. rewrite app_nil_r. auto.
      - apply Forall_cons in Hl as [Hok Hrest]. unfold lr0 in *. clear lr0.
        assert (Hlive0 : canceled (ctx w0) = false) by (rewrite Hc0; exact Hlive).
        destruct (worker.fetchBeneficiary env WriteOperationOutcome bf bb cmsID jobArgs
                    fileUUID b w0 wr) as [[w1 wr1] [errMsg err]] eqn:Hfetch.
        pose proof (fetch_frame env WriteOperationOutcome bf bb cmsID jobArgs fileUUID
                      b w0 wr Hone) as (Hs1 & Hc1 & _).
        pose proof (fetch_error env WriteOperationOutcome bf bb cmsID jobArgs fileUUID
                      b w0 wr Hone) as Herr.
        pose proof (fetch_chunks env WriteOperationOutcome bf bb cmsID jobArgs fileUUID
                      b w0 wr Hone) as Hch.
        pose proof (fetch_keeps env WriteOperationOutcome bf bb cmsID jobArgs fileUUID
                      b w0 wr dir name Hone (artifact_names_differ fileUUID)) as Hkp.
        rewrite Hfetch in Hs1, Hc1, Herr, Hch, Hkp.
        cbn [fst snd] in Hs1, Hc1, Herr, Hch, Hkp.
        rewrite Hs0, Hc0 in Herr, Hch.
        unfold beneficiaryFails in Hok. rewrite <- Herr in Hok.
        destruct err as [e|]; [discriminate Hok|].
        rewrite (beneLoop_step env WriteOperationOutcome bf bb cmsID jobArgs fileUUID
                   tot thr b rest [] w0 wr 0 w1 wr1 errMsg None Hlive0 Hfetch) in Hnf |- *.
        destruct (float64_ge _ thr); [discriminate Hnf|]. cbn [tail] in Hnf |- *.
        destruct (IHl w1 wr1 tot thr) as (Hb & Hst & Hrd);
          [congruence | congruence | exact Hrest | exact Hnf |].
        split; [|split].
        + rewrite Hb, Hch. cbn [map concat]. rewrite <- app_assoc. reflexivity.
        + exact Hst.
        + rewrite Hrd. exact Hkp. }
    destruct (Hgen ids (set_files w fs) bufio.NewWriter
                (float64_of_int (Z.of_nat (length ids))) (worker.getFailureThreshold env)
                eq_refl eq_refl Hall Hfailed) as (Hb & Hst & Hrd).
    split; [exact Hb|]. split; [exact Hst|]. rewrite Hrd. exact Hnew. }
  cbv zeta in Hloop. destruct Hloop as (Hfailed & Hbuf & Hst & Hrd).
  set (lr := worker.beneLoop env WriteOperationOutcome bf bb cmsID jobArgs fileUUID
               total (worker.getFailureThreshold env) (args_BeneficiaryIDs jobArgs) []
               (set_files w fs) bufio.NewWriter 0) in *.
  assert (Hdata : read (foldl (fun fs chunk => fsys.Append fs dir name chunk)
                          (files (worker.lr_world lr))
                          (bufio.buffered (worker.lr_writer lr))) dir name
                  = Some content).
  { rewrite Flush_read. rewrite decide_True by auto. rewrite Hrd, Hbuf. reflexivity. }
  rewrite Hfailed in Hrun. cbn [files set_files] in Hrun. rewrite Hdata in Hrun.
  eexists. split; [exact Hrun|]. cbn [files set_files store ctx].
  split; [exact Hdata|]. split; [exact Hst|]. split; [exact Hctx|].
  intros d Hd.
  destruct (Flush_keeps (bufio.buffered (worker.lr_writer lr)) (files (worker.lr_world lr))
              dir name) as [Hflush _].
  apply Hflush, Hkeepdirs. cbn [files set_files]. apply Hdirs, Hd.
Qed.

(** X10. When the context is live, the failure threshold is above zero
    and none of the beneficiaries of the entry fails, [writeBBDataToFile]
    succeeds: it returns the artifact id drawn for the call and the size of
    the data artifact, which holds the chunks of all the beneficiaries in
    the order of the list; the job store is left alone. *)
Theorem X10_all_beneficiaries_succeed (w : World S) (bb : APIClient) (cmsID : string)
    (jobArgs : JobEnqueueArgs) (fileUUID : string) (bf : worker.BundleFunc) :
  let dir := conf.GetEnv env "FHIR_STAGING_DIR" +:+ "/" +:+ Itoa (args_ID jobArgs) in
  let content :=
    concat (map (fetchChunks env WriteOperationOutcome bf bb cmsID jobArgs fileUUID
                   (store w) (ctx w)) (args_BeneficiaryIDs jobArgs)) in
  worker.bundleFunc bb cmsID jobArgs = Some bf ->
  files w !! dir <> None ->
  canceled (ctx w) = false ->
  (forall v, Atoi (conf.GetEnv env "EXPORT_FAIL_PCT") = Ok v -> 1 <= v) ->
  Forall (fun b => beneficiaryFails env WriteOperationOutcome bf bb cmsID jobArgs
                     fileUUID (store w) (ctx w) b = false)
         (args_BeneficiaryIDs jobArgs) ->
  exists w2 : World S,
    worker.writeBBDataToFile env WriteOperationOutcome w bb cmsID jobArgs fileUUID []
    = (w2, (fileUUID, fsys.file_size content, None)) /\
    read (files w2) dir (fileUUID +:+ ".ndjson") = Some content /\
    store w2 = store w.
Proof.
  intros dir content Hbf Hdir Hlive Hpct Hall.
  destruct (writeBBDataToFile_all_succeed w bb cmsID jobArgs fileUUID bf Hbf Hdir Hlive
              Hpct Hall) as (w2 & Hrun & Hread & Hs & _).
  exists w2. split; [exact Hrun|]. split; [exact Hread | exact Hs].
Qed.

End ArtifactFacts.

(** ** Directories and the promotion of staged files *)

Section DirectoryFacts.
Context {S : Type} `{Repository S}.
Variable env : conf.Env.
Import observe.

(** X11. Directories that are already there are left alone. On a path
    that is a directory [createDir] returns nil and the world is the one it
    was given, so calling it again changes nothing; and for an entry whose
    staging and payload directories both exist, as when another entry of
    the same parent has created them, the preparation of [ProcessJob]
    leaves every directory and every file as it found them, whichever
    way it ends. *)
Theorem X11_existing_directories_are_left_alone
    (NewBlueButtonClient : string -> result APIClient) (w : World S) (job : Job)
    (jobArgs : JobEnqueueArgs) :
  let staging := conf.GetEnv env "FHIR_STAGING_DIR" +:+ "/" +:+ Itoa (args_ID jobArgs) in
  let payload := conf.GetEnv env "FHIR_PAYLOAD_DIR" +:+ "/" +:+ Itoa (args_ID jobArgs) in
  files w !! staging <> None -> files w !! payload <> None ->
  worker.createDir w staging = (w, None) /\
  worker.createDir w payload = (w, None) /\
  files (fst (worker.prepareEntry env NewBlueButtonClient w job jobArgs)) = files w.
Proof.
  intros staging payload Hs Hp.
  assert (Hdir : forall (w0 : World S) (path : string),
            files w0 !! path <> None -> worker.createDir w0 path = (w0, None)).
  { intros w0 path Hx. unfold worker.createDir, fsys.IsNotExist.
    rewrite bool_decide_eq_false_2 by exact Hx. reflexivity. }
  split; [apply Hdir, Hs|]. split; [apply Hdir, Hp|].
  unfold worker.prepareEntry.
  destruct (GetACOByUUID (store w) (ctx w) (job_ACOID job)) as [aco|e]; [|reflexivity].
  destruct (UpdateJobStatusCheckStatus (store w) (ctx w) (job_ID job)
              JobStatusPending JobStatusInProgress) as [s err].
  fold staging payload.
  assert (Hproceed : forall w0 : World S,
    files w0 = files w ->
    files (fst
      match NewBlueButtonClient (args_BBBasePath jobArgs) with
      | Ok bb0 =>
          let '(w2, err0) := worker.createDir w0 staging in
          match err0 with
          | Some e => (log_Error w2 e, Err e)
          | None =>
              let '(w3, err1) := worker.createDir w2 payload in
              match err1 with
              | Some e => (log_Error w3 e, Err e)
              | None => (w3, Ok (aco, bb0))
              end
          end
      | Err err0 =>
          (log_Error w0 (errors_Wrap err0 "could not create Blue Button client"),
           Err (errors_Wrap err0 "could not create Blue Button client"))
      end) = files w).
  { intros w0 Hf.
    destruct (NewBlueButtonClient (args_BBBasePath jobArgs)) as [bb0|e0]; [|exact Hf].
    rewrite (Hdir w0 staging) by (rewrite Hf; exact Hs).
    rewrite (Hdir w0 payload) by (rewrite Hf; exact Hp). exact Hf. }
  cbv zeta.
  destruct (errors_Is err ErrJobNotUpdated).
  - apply Hproceed. reflexivity.
  - destruct err as [e|]; [reflexivity|]. apply Hproceed. reflexivity.
Qed.

(** X12. While the number of job keys of the parent is below its jobCount
    the completion check reports "not complete" without an error and
    leaves the whole world as it is: no file is moved, no directory
    removed, no status written. An error of either read is returned with
    the world unchanged as well. *)
Theorem X12_completion_check_waits_for_all_keys (w : World S) (jobID : Z) :
  (forall (j : Job) (n : Z),
     GetJobByID (store w) (ctx w) jobID = Ok j ->
     job_Status j = JobStatusPending \/ job_Status j = JobStatusInProgress ->
     GetJobKeyCount (store w) (ctx w) jobID = Ok n ->
     n < job_JobCount j ->
     worker.checkJobCompleteAndCleanup env w jobID = (w, (false, None))) /\
  (forall e : error,
     GetJobByID (store w) (ctx w) jobID = Err e ->
     worker.checkJobCompleteAndCleanup env w jobID = (w, (false, Some e))) /\
  (forall (j : Job) (e : error),
     GetJobByID (store w) (ctx w) jobID = Ok j ->
     job_Status j = JobStatusPending \/ job_Status j = JobStatusInProgress ->
     GetJobKeyCount (store w) (ctx w) jobID = Err e ->
     worker.checkJobCompleteAndCleanup env w jobID = (w, (false, Some e))).
Proof.
  unfold worker.checkJobCompleteAndCleanup. split; [|split].
  - intros j n Hget Hst Hcount Hlt. rewrite Hget, Hcount.
    rewrite (proj2 (Z.leb_gt _ _) Hlt). destruct Hst as [-> | ->]; reflexivity.
  - intros e Hget. rewrite Hget. reflexivity.
  - intros j e Hget Hst Hcount. rewrite Hget, Hcount.
    destruct Hst as [-> | ->]; reflexivity.
Qed.

(** Moving the listed files of the staging directory to a different
    payload directory: what each directory holds afterwards. *)
Lemma renameAll_moves (staging payload : string) :
  staging <> payload ->
  forall (names : list string) (fs : fsys.FS) (sd pd : gmap string (list string)),
    NoDup names ->
    (forall n, n ∈ names -> sd !! n <> None) ->
    fs !! staging = Some sd ->
    fs !! payload = Some pd ->
    exists (fs' : fsys.FS) (pd' : gmap string (list string)),
      worker.renameAll fs staging payload names = (fs', None) /\
      fs' !! staging = Some (foldl (fun d n => delete n d) sd names) /\
      fs' !! payload = Some pd' /\
      (forall k, pd' !! k = if decide (k ∈ names) then sd !! k else pd !! k) /\
      (forall d, d <> staging -> d <> payload -> fs' !! d = fs !! d).
Proof.
  intros Hne. induction names as [|n rest IH]; intros fs sd pd Hnd Hin Hs Hp.
  - exists fs, pd. split; [reflexivity|]. split; [exact Hs|]. split; [exact Hp|].
    split; [|reflexivity]. intros k. rewrite decide_False; [reflexivity|].
    intros Hk. apply elem_of_nil in Hk. exact Hk.
  - apply NoDup_cons in Hnd as [Hn Hnd]. cbn [worker.renameAll foldl].
    unfold fsys.Rename. rewrite Hs.
    destruct (sd !! n) as [f|] eqn:Ef;
      [|exfalso; apply (Hin n); [apply elem_of_cons; auto | exact Ef]].
    rewrite lookup_insert_ne by exact Hne. rewrite Hp.
    destruct (IH (<[payload := <[n := f]> pd]> (<[staging := delete n sd]> fs))
                (delete n sd) (<[n := f]> pd) Hnd)
      as (fs' & pd' & Hren & Hs' & Hp' & Hpd & Hrest).
    + intros m Hm. rewrite lookup_delete_ne by (intros ->; contradiction).
      apply Hin. apply elem_of_cons. auto.
    + rewrite lookup_insert_ne by auto. apply lookup_insert_eq.
    + apply lookup_insert_eq.
    + exists fs', pd'. split; [exact Hren|]. split; [exact Hs'|]. split; [exact Hp'|].
      split.
      * intros k. rewrite Hpd.
        destruct (decide (k = n)) as [->|Hkn].
        -- rewrite decide_False by exact Hn.
           rewrite decide_True by (apply elem_of_cons; auto).
           rewrite lookup_insert_eq. symmetry. exact Ef.
        -- destruct (decide (k ∈ rest)) as [Hk|Hk].
           ++ rewrite decide_True by (apply elem_of_cons; auto).
              apply lookup_delete_ne. auto.
           ++ rewrite decide_False
                by (intros Hx; apply elem_of_cons in Hx as [Hx|Hx]; contradiction).
              apply lookup_insert_ne. auto.
      * intros d Hd1 Hd2. rewrite (Hrest d Hd1 Hd2).
        rewrite lookup_insert_ne by auto. apply lookup_insert_ne. auto.
Qed.

(** The whole staging directory, moved. *)
Lemma renameAll_whole_directory (staging payload : string) (fs : fsys.FS)
    (sd pd : gmap string (list string)) :
  staging <> payload ->
  fs !! staging = Some sd ->
  fs !! payload = Some pd ->
  worker.renameAll fs staging payload ((map_to_list sd).*1)
  = (<[payload := sd ∪ pd]> (<[staging := ∅]> fs), None).
Proof.
  intros Hne Hs Hp.
  destruct (renameAll_moves staging payload Hne ((map_to_list sd).*1) fs sd pd
              (NoDup_fst_map_to_list sd))
    as (fs' & pd' & Hren & Hs' & Hp' & Hpd & Hrest); [ | exact Hs | exact Hp | ].
  { intros n Hn. apply list_elem_of_fmap in Hn as ([k f] & -> & Hkf).
    apply elem_of_map_to_list in Hkf. cbn. rewrite Hkf. discriminate. }
  rewrite Hren. f_equal. apply map_eq. intros d.
  destruct (decide (d = payload)) as [->|Hd2].
  - rewrite lookup_insert_eq, Hp'. f_equal. apply map_eq. intros k. rewrite Hpd.
    destruct (sd !! k) as [f|] eqn:Ek.
    + rewrite decide_True.
      * symmetry. apply lookup_union_Some_l. exact Ek.
      * apply list_elem_of_fmap. exists (k, f). split; [reflexivity|].
        apply elem_of_map_to_list. exact Ek.
    + rewrite decide_False.
      * symmetry. apply lookup_union_r. exact Ek.
      * intros Hk. apply list_elem_of_fmap in Hk as ([k' f'] & Hkk & Hkf).
        cbn in Hkk. subst k'. apply elem_of_map_to_list in Hkf. congruence.
  - rewrite lookup_insert_ne by auto.
    destruct (decide (d = staging)) as [->|Hd1].
    + rewrite lookup_insert_eq, Hs', delete_all_keys. reflexivity.
    + rewrite lookup_insert_ne by auto. apply Hrest; assumption.
Qed.

(** X13. When every entry of an open parent has its job key and staging
    and payload are different directories that exist, the completion check
    moves every staged file to the payload directory under its own name and
    with its content (replacing a payload file of the same name, keeping the
    others), removes the staging directory, and only then writes the status
    Completed. If that write fails the files stay moved and the error is
    returned. No other directory is affected. *)
Theorem X13_promotion_moves_every_staged_file (w : World S) (jobID : Z) (j : Job)
    (n : Z) (sd pd : gmap string (list string)) (s' : S) (err : option error) :
  let staging := conf.GetEnv env "FHIR_STAGING_DIR" +:+ "/" +:+ Itoa (job_ID j) in
  let payload := conf.GetEnv env "FHIR_PAYLOAD_DIR" +:+ "/" +:+ Itoa (job_ID j) in
  GetJobByID (store w) (ctx w) jobID = Ok j ->
  job_Status j = JobStatusPending \/ job_Status j = JobStatusInProgress ->
  GetJobKeyCount (store w) (ctx w) jobID = Ok n ->
  job_JobCount j <= n ->
  staging <> payload ->
  files w !! staging = Some sd ->
  files w !! payload = Some pd ->
  UpdateJobStatus (store w) (ctx w) (job_ID j) JobStatusCompleted = (s', err) ->
  worker.checkJobCompleteAndCleanup env w jobID
  = (mkWorld s' (<[payload := sd ∪ pd]> (delete staging (files w)))
       (logs w) (upstream w) (ctx w),
     (bool_decide (err = None), err)).
Proof.
  intros staging payload Hget Hst Hcount Hle Hne Hsd Hpd Hup.
  unfold worker.checkJobCompleteAndCleanup. rewrite Hget, Hcount.
  rewrite (proj2 (Z.leb_le _ _) Hle). fold staging payload.
  unfold fsys.ReadDir. rewrite Hsd.
  rewrite (renameAll_whole_directory staging payload (files w) sd pd Hne Hsd Hpd).
  cbn [files set_files]. unfold fsys.Remove.
  rewrite lookup_insert_ne by auto. rewrite lookup_insert_eq.
  rewrite bool_decide_eq_true_2 by reflexivity.
  cbn [store ctx set_files]. rewrite Hup.
  assert (Hfiles : delete staging (<[payload := sd ∪ pd]> (<[staging := ∅]> (files w)))
                   = <[payload := sd ∪ pd]> (delete staging (files w))).
  { rewrite delete_insert_ne by auto. rewrite delete_insert_eq. reflexivity. }
  rewrite Hfiles.
  destruct Hst as [-> | ->]; destruct err as [e|]; reflexivity.
Qed.

(** Moving the files of a directory onto themselves changes nothing. *)
Lemma renameAll_same_directory (dir : string) (sd : gmap string (list string)) :
  forall (names : list string) (fs : fsys.FS),
    fs !! dir = Some sd ->
    (forall n, n ∈ names -> sd !! n <> None) ->
    worker.renameAll fs dir dir names = (fs, None).
Proof.
  induction names as [|n rest IH]; intros fs Hd Hin; [reflexivity|].
  cbn [worker.renameAll]. unfold fsys.Rename. rewrite Hd.
  destruct (sd !! n) as [f|] eqn:Ef;
    [|exfalso; apply (Hin n); [apply elem_of_cons; auto | exact Ef]].
  rewrite lookup_insert_eq.
  assert (Hsame : <[dir := <[n := f]> (delete n sd)]> (<[dir := delete n sd]> fs) = fs).
  { rewrite insert_insert_eq. rewrite (insert_delete_id sd n f Ef).
    apply insert_id. exact Hd. }
  rewrite Hsame. apply IH; [exact Hd|].
  intros m Hm. apply Hin. apply elem_of_cons. auto.
Qed.

(** X14. When the staging and the payload option name the same directory
    and that directory holds a file, the completion check of an open
    parent whose entries all have their job keys cannot finish: every file
    is renamed onto itself, the removal of the directory fails because it
    is not empty, and the check returns that error with the files and the
    job store as they were; the parent is not marked Completed. *)
Theorem X14_shared_directory_is_never_promoted (w : World S) (jobID : Z) (j : Job)
    (n : Z) (sd : gmap string (list string)) :
  let staging := conf.GetEnv env "FHIR_STAGING_DIR" +:+ "/" +:+ Itoa (job_ID j) in
  let payload := conf.GetEnv env "FHIR_PAYLOAD_DIR" +:+ "/" +:+ Itoa (job_ID j) in
  GetJobByID (store w) (ctx w) jobID = Ok j ->
  job_Status j = JobStatusPending \/ job_Status j = JobStatusInProgress ->
  GetJobKeyCount (store w) (ctx w) jobID = Ok n ->
  job_JobCount j <= n ->
  staging = payload ->
  files w !! staging = Some sd ->
  sd <> ∅ ->
  worker.checkJobCompleteAndCleanup env w jobID
  = (w, (false, Some (PathError "remove" staging))).
Proof.
  intros staging payload Hget Hst Hcount Hle Heq Hsd Hfull.
  unfold worker.checkJobCompleteAndCleanup. rewrite Hget, Hcount.
  rewrite (proj2 (Z.leb_le _ _) Hle). fold staging payload. rewrite <- Heq.
  unfold fsys.ReadDir. rewrite Hsd.
  rewrite (renameAll_same_directory staging sd _ (files w) Hsd).
  - cbn [files set_files]. unfold fsys.Remove. rewrite Hsd.
    rewrite bool_decide_eq_false_2 by exact Hfull.
    destruct w as [s fs l u c]. destruct Hst as [-> | ->]; reflexivity.
  - intros k Hk. apply list_elem_of_fmap in Hk as ([k' f] & -> & Hkf).
    apply elem_of_map_to_list in Hkf. cbn. rewrite Hkf. discriminate.
Qed.

End DirectoryFacts.

(** ** What [ProcessJob] leaves in the job store *)

Section EntryFrames.
Context {S : Type} `{Repository S}.
Variable env : conf.Env.
Variable NewBlueButtonClient : string -> result APIClient.
Variable WriteOperationOutcome : OperationOutcome -> string.
Import observe.

Lemma chain_Is_refl (e : error) : chain_Is e e = true.
Proof. destruct e; cbn [chain_Is]; rewrite decide_True by reflexivity; reflexivity. Qed.

(** X15. [getBeneficiary] asks the upstream service only for a
    beneficiary the store knows: a failed store lookup is returned as it
    is, with an empty beneficiary and no upstream call. For a known
    beneficiary exactly one lookup by its MBI is sent; its answer becomes
    the upstream id of the returned beneficiary, and its error is returned
    wrapped, with the cause still matched by [errors.Is], together with the
    beneficiary as the store has it. *)
Theorem X15_getBeneficiary_resolves_the_upstream_id (w : World S) (beneID : Z)
    (bb : APIClient) :
  let r := worker.getBeneficiary w beneID bb in
  (forall e : error,
     GetCCLFBeneficiaryByID (store w) (ctx w) beneID = Err e ->
     r = (w, (mkCCLFBeneficiary 0 "" "", Some e))) /\
  (forall bene : CCLFBeneficiary,
     GetCCLFBeneficiaryByID (store w) (ctx w) beneID = Ok bene ->
     fst r = add_call w (CallLookupUpstreamIdByMBI (bene_MBI bene)) /\
     bene_ID (fst (snd r)) = bene_ID bene /\
     bene_MBI (fst (snd r)) = bene_MBI bene /\
     (forall bbID : string,
        LookupUpstreamIdByMBI bb (bene_MBI bene) = Ok bbID ->
        snd (snd r) = None /\ bene_BlueButtonID (fst (snd r)) = bbID) /\
     (forall e : error,
        LookupUpstreamIdByMBI bb (bene_MBI bene) = Err e ->
        fst (snd r) = bene /\
        snd (snd r)
        = Some (withMessage e ("failed to get blue button id for ID " +:+ Itoa beneID)) /\
        errors_Is (snd (snd r)) e = true)).
Proof.
  intros r. unfold r, worker.getBeneficiary, worker.getBlueButtonID. split.
  - intros e ->. reflexivity.
  - intros bene ->.
    destruct (LookupUpstreamIdByMBI bb (bene_MBI bene)) as [bbID|e]; cbn [fst snd].
    + split; [reflexivity|]. split; [reflexivity|]. split; [reflexivity|]. split.
      * intros bbID' Hx. injection Hx as <-. split; reflexivity.
      * intros e Hx. discriminate Hx.
    + split; [reflexivity|]. split; [reflexivity|]. split; [reflexivity|]. split.
      * intros bbID Hx. discriminate Hx.
      * intros e' Hx. injection Hx as <-. split; [reflexivity|].
        split; [reflexivity|]. cbn [errors_Is chain_Is].
        destruct (decide _); [reflexivity | apply chain_Is_refl].
Qed.

Lemma writeBBDataToFile_store (w : World S) (bb : APIClient) (cmsID : string)
    (jobArgs : JobEnqueueArgs) (fileUUID : string) :
  store (fst (worker.writeBBDataToFile env WriteOperationOutcome w bb cmsID jobArgs
                fileUUID [])) = store w /\
  ctx (fst (worker.writeBBDataToFile env WriteOperationOutcome w bb cmsID jobArgs
              fileUUID [])) = ctx w.
Proof.
  unfold worker.writeBBDataToFile.
  destruct (worker.bundleFunc bb cmsID jobArgs) as [bf|] eqn:Hbf; [|split; reflexivity].
  destruct (fsys.Create (files w) _ _) as [fs [e|]]; [split; reflexivity|].
  destruct (beneLoop_frame env WriteOperationOutcome bf bb cmsID jobArgs fileUUID
              (float64_of_int (Z.of_nat (length (args_BeneficiaryIDs jobArgs))))
              (worker.getFailureThreshold env)
              (bundleFunc_oneRequest bb cmsID jobArgs bf Hbf)
              (args_BeneficiaryIDs jobArgs) (set_files w fs) bufio.NewWriter 0)
    as (Hs & Hc & _).
  cbv zeta. set (lr := worker.beneLoop _ _ _ _ _ _ _ _ _ _ _ _ _ _) in *.
  unfold bufio.Flush.
  destruct (worker.lr_failed lr).
  - destruct (decide _); split; assumption.
  - destruct (fsys.StatSize _ _ _); split; assumption.
Qed.

(** A successful call returns the artifact id drawn for it. *)
Lemma writeBBDataToFile_success_id (w : World S) (bb : APIClient) (cmsID : string)
    (jobArgs : JobEnqueueArgs) (fileUUID : string) (others : worker.Interference)
    (w2 : World S) (u : string) (size : Z) :
  worker.writeBBDataToFile env WriteOperationOutcome w bb cmsID jobArgs fileUUID others
  = (w2, (u, size, None)) ->
  u = fileUUID.
Proof.
  unfold worker.writeBBDataToFile.
  destruct (worker.bundleFunc bb cmsID jobArgs) as [bf|]; [|intros Hx; discriminate Hx].
  destruct (fsys.Create (files w) _ _) as [fs [e|]]; [intros Hx; discriminate Hx|].
  cbv zeta. set (lr := worker.beneLoop _ _ _ _ _ _ _ _ _ _ _ _ _ _).
  unfold bufio.Flush.
  destruct (worker.lr_failed lr).
  - destruct (decide _); intros Hx; discriminate Hx.
  - destruct (fsys.StatSize _ _ _); intros Hx; [|discriminate Hx].
    injection Hx as _ <- _. reflexivity.
Qed.

(** The store [prepareEntry] leaves is the one it was given, possibly
    after the conditional update Pending -> InProgress. *)
Lemma prepareEntry_store (w : World S) (job : Job) (jobArgs : JobEnqueueArgs) :
  let w1 := fst (worker.prepareEntry env NewBlueButtonClient w job jobArgs) in
  ctx w1 = ctx w /\ upstream w1 = upstream w /\
  (store w1 = store w \/
   store w1 = fst (UpdateJobStatusCheckStatus (store w) (ctx w) (job_ID job)
                     JobStatusPending JobStatusInProgress)).
Proof.
  unfold worker.prepareEntry.
  destruct (GetACOByUUID (store w) (ctx w) (job_ACOID job)) as [aco|e];
    [|cbn; auto].
  destruct (UpdateJobStatusCheckStatus (store w) (ctx w) (job_ID job)
              JobStatusPending JobStatusInProgress) as [s err] eqn:Hup.
  assert (Hproceed : forall w0 : World S,
    store w0 = s -> ctx w0 = ctx w -> upstream w0 = upstream w ->
    let w1 := fst
      match NewBlueButtonClient (args_BBBasePath jobArgs) with
      | Ok bb0 =>
          let '(w2, err0) :=
            worker.createDir w0
              (conf.GetEnv env "FHIR_STAGING_DIR" +:+ "/" +:+ Itoa (args_ID jobArgs)) in
          match err0 with
          | Some e => (log_Error w2 e, Err e)
          | None =>
              let '(w3, err1) :=
                worker.createDir w2
                  (conf.GetEnv env "FHIR_PAYLOAD_DIR" +:+ "/" +:+ Itoa (args_ID jobArgs)) in
              match err1 with
              | Some e => (log_Error w3 e, Err e)
              | None => (w3, Ok (aco, bb0))
              end
          end
      | Err err0 =>
          (log_Error w0 (errors_Wrap err0 "could not create Blue Button client"),
           Err (errors_Wrap err0 "could not create Blue Button client"))
      end in
    ctx w1 = ctx w /\ upstream w1 = upstream w /\ store w1 = s).
  { intros w0 Hs0 Hc0 Hu0.
    destruct (NewBlueButtonClient (args_BBBasePath jobArgs)) as [bb0|e0];
      [|cbn; auto].
    destruct (createDir_ok w0
                (conf.GetEnv env "FHIR_STAGING_DIR" +:+ "/" +:+ Itoa (args_ID jobArgs)))
      as (w2 & -> & Hs2 & Hc2 & _ & Hu2 & _).
    destruct (createDir_ok w2
                (conf.GetEnv env "FHIR_PAYLOAD_DIR" +:+ "/" +:+ Itoa (args_ID jobArgs)))
      as (w3 & -> & Hs3 & Hc3 & _ & Hu3 & _).
    cbn [fst]. repeat split; congruence. }
  cbn [fst]. cbv zeta in Hproceed.
  destruct (errors_Is err ErrJobNotUpdated).
  - destruct (Hproceed (log_Warnf (set_store w s)
                          "Failed to update job. Assume job already updated. Continuing. %s"
                          [LErr err]) eq_refl eq_refl eq_refl) as (Hc & Hu & Hs).
    split; [exact Hc|]. split; [exact Hu|]. right. exact Hs.
  - destruct err as [e|]; [cbn; auto|].
    destruct (Hproceed (set_store w s) eq_refl eq_refl eq_refl) as (Hc & Hu & Hs).
    split; [exact Hc|]. split; [exact Hu|]. right. exact Hs.
Qed.

Lemma checkJobCompleteAndCleanup_calls (w : World S) (jobID : Z) :
  upstream (fst (worker.checkJobCompleteAndCleanup env w jobID)) = upstream w /\
  ctx (fst (worker.checkJobCompleteAndCleanup env w jobID)) = ctx w.
Proof.
  unfold worker.checkJobCompleteAndCleanup.
  destruct (GetJobByID (store w) (ctx w) jobID) as [j|e]; [|split; reflexivity].
  destruct (job_Status j); try (split; reflexivity);
    (destruct (GetJobKeyCount (store w) (ctx w) jobID) as [n|e]; [|split; reflexivity];
     destruct (job_JobCount j <=? n); [|split; reflexivity];
     destruct (fsys.ReadDir _ _) as [names|e]; [|split; reflexivity];
     destruct (worker.renameAll _ _ _ _) as [fs [e|]]; [split; reflexivity|];
     destruct (fsys.Remove _ _) as [fs' [e|]]; [split; reflexivity|];
     destruct (UpdateJobStatus _ _ _ _) as [s [e|]]; split; reflexivity).
Qed.

Lemma completeEntry_calls (w : World S) (job : Job) :
  upstream (fst (worker.completeEntry env w job)) = upstream w /\
  ctx (fst (worker.completeEntry env w job)) = ctx w.
Proof.
  unfold worker.completeEntry.
  pose proof (checkJobCompleteAndCleanup_calls w (job_ID job)) as [Hu Hc].
  destruct (worker.checkJobCompleteAndCleanup env w (job_ID job)) as [w1 [b [e|]]];
    cbn [fst] in Hu, Hc; [split; assumption|].
  destruct (IncrementCompletedJobCount _ _ _) as [s [e|]]; split; assumption.
Qed.

Lemma recordOutcome_calls (w : World S) (job : Job) (jobArgs : JobEnqueueArgs)
    (out : string * Z * option error) :
  upstream (fst (worker.recordOutcome env w job jobArgs out)) = upstream w.
Proof.
  unfold worker.recordOutcome. destruct out as [[u size] [e|]].
  - destruct (UpdateJobStatusCheckStatus _ _ _ _ _) as [s err].
    destruct (errors_Is err ErrJobNotUpdated); [reflexivity|].
    destruct err as [e1|]; [reflexivity|].
    destruct (completeEntry_calls (set_store w s) job) as [Hu _]. exact Hu.
  - destruct (size =? 0); destruct (CreateJobKey _ _ _) as [s [e|]]; try reflexivity.
    + match goal with |- context [worker.completeEntry env ?w0 job] =>
        destruct (completeEntry_calls w0 job) as [Hu _] end. exact Hu.
    + destruct (completeEntry_calls (set_store w s) job) as [Hu _]. exact Hu.
Qed.

End EntryFrames.

Section StoreFacts.
Import memstore observe manager stream quetest.
Variable env : conf.Env.
Variable NewBlueButtonClient : string -> result APIClient.
Variable WriteOperationOutcome : OperationOutcome -> string.

(** X16. An entry whose resource type is none of Coverage,
    ExplanationOfBenefit and Patient fails before any file is created or
    any request sent: [writeBBDataToFile] returns the unsupported-type
    error with the world untouched, and [ProcessJob] then moves the
    InProgress parent to Failed, writes no job key and returns no error,
    so the entry is acknowledged. *)
Theorem X16_unsupported_resource_type_fails_parent (w : World Store) (job : Job)
    (jobArgs : JobEnqueueArgs) (fileUUID : string)
    (others : worker.Interference (S := Store))
    (w1 : World Store) (aco : ACO) (bb : APIClient) (cmsID : string) (j1 : Job) :
  args_ResourceType jobArgs ∉ ["Coverage"; "ExplanationOfBenefit"; "Patient"] ->
  worker.prepareEntry env NewBlueButtonClient w job jobArgs = (w1, Ok (aco, bb)) ->
  aco_CMSID aco = Some cmsID ->
  jobs (store w1) !! job_ID job = Some j1 ->
  job_Status j1 = JobStatusInProgress ->
  worker.writeBBDataToFile env WriteOperationOutcome w1 bb cmsID jobArgs fileUUID others
  = (w1, ("", 0, Some (errorString ("unsupported resource type "
                                      +:+ args_ResourceType jobArgs)))) /\
  exists (w' : World Store) (j' : Job),
    worker.ProcessJob env NewBlueButtonClient WriteOperationOutcome w job jobArgs
      fileUUID others = (w', None) /\
    jobs (store w') !! job_ID job = Some j' /\ job_Status j' = JobStatusFailed /\
    jobKeys (store w') = jobKeys (store w1) /\
    files w' = files w1 /\ upstream w' = upstream w.
Proof.
  intros Hrt Hprep Hcms Hj Hst.
  assert (Hwrite : worker.writeBBDataToFile env WriteOperationOutcome w1 bb cmsID jobArgs
                     fileUUID others
                   = (w1, ("", 0, Some (errorString ("unsupported resource type "
                                                       +:+ args_ResourceType jobArgs))))).
  { unfold worker.writeBBDataToFile, worker.bundleFunc.
    rewrite !elem_of_cons in Hrt.
    rewrite decide_False by (intros Hx; apply Hrt; auto).
    rewrite decide_False by (intros Hx; apply Hrt; auto).
    rewrite decide_False by (intros Hx; apply Hrt; auto).
    reflexivity. }
  split; [exact Hwrite|].
  destruct (recordOutcome_failed_InProgress env w1 job jobArgs "" 0
              (errorString ("unsupported resource type " +:+ args_ResourceType jobArgs))
              j1 Hj Hst)
    as (w' & j' & Hrec & Hj' & Hst' & Hkeys & Hfiles).
  destruct (prepareEntry_ok env NewBlueButtonClient w job jobArgs w1 aco bb Hprep)
    as (_ & Hu1 & _).
  pose proof (recordOutcome_calls env w1 job jobArgs
                ("", 0, Some (errorString ("unsupported resource type "
                                             +:+ args_ResourceType jobArgs)))) as Hu.
  rewrite Hrec in Hu. cbn [fst] in Hu.
  exists w', j'. unfold worker.ProcessJob. rewrite Hprep, Hcms, Hwrite, Hrec.
  split; [reflexivity|]. split; [exact Hj'|]. split; [exact Hst'|].
  split; [exact Hkeys|]. split; [exact Hfiles|]. congruence.
Qed.

(** X17. Once the completion check has reported a parent as done, a
    second check reports it as done again and changes neither the job
    store nor the files: a parent the first check promoted is read back as
    Completed. The store is the in-memory store, every job filed under its
    own id. *)
Theorem X17_completion_check_is_idempotent (w w1 : World Store) (jobID : Z) :
  keyed (store w) ->
  worker.checkJobCompleteAndCleanup env w jobID = (w1, (true, None)) ->
  exists w2 : World Store,
    worker.checkJobCompleteAndCleanup env w1 jobID = (w2, (true, None)) /\
    store w2 = store w1 /\ files w2 = files w1.
Proof.
  intros Hkeyed. unfold worker.checkJobCompleteAndCleanup at 1.
  cbn [GetJobByID GetJobKeyCount UpdateJobStatus memRepository].
  unfold mem_GetJobByID, mem_GetJobKeyCount.
  destruct (jobs (store w) !! jobID) as [j|] eqn:Hj; [|intros Hx; discriminate Hx].
  assert (Hagain : forall w0 : World Store,
            (exists j0, jobs (store w0) !! jobID = Some j0 /\
                        isTerminalStatus (job_Status j0) = true) ->
            exists w2 : World Store,
              worker.checkJobCompleteAndCleanup env w0 jobID = (w2, (true, None)) /\
              store w2 = store w0 /\ files w2 = files w0).
  { intros w0 (j0 & Hj0 & Hterm). unfold worker.checkJobCompleteAndCleanup.
    cbn [GetJobByID memRepository]. unfold mem_GetJobByID. rewrite Hj0.
    destruct (job_Status j0); try discriminate Hterm;
      eexists; (split; [reflexivity|]); split; reflexivity. }
  assert (Hpromote :
    (if job_JobCount j
        <=? Z.of_nat (length (filter (fun jk => jk_JobID jk = jobID) (jobKeys (store w))))
     then
       match fsys.ReadDir (files w)
               (conf.GetEnv env "FHIR_STAGING_DIR" +:+ "/" +:+ Itoa (job_ID j)) with
       | Ok names =>
           let '(fs, err) :=
             worker.renameAll (files w)
               (conf.GetEnv env "FHIR_STAGING_DIR" +:+ "/" +:+ Itoa (job_ID j))
               (conf.GetEnv env "FHIR_PAYLOAD_DIR" +:+ "/" +:+ Itoa (job_ID j)) names in
           match err with
           | Some e => (set_files w fs, (false, Some e))
           | None =>
               let '(fs0, err0) :=
                 fsys.Remove (files (set_files w fs))
                   (conf.GetEnv env "FHIR_STAGING_DIR" +:+ "/" +:+ Itoa (job_ID j)) in
               match err0 with
               | Some e => (set_files w fs, (false, Some e))
               | None =>
                   let '(s, err1) :=
                     mem_UpdateJobStatus (store (set_files (set_files w fs) fs0))
                       (ctx (set_files (set_files w fs) fs0)) (job_ID j)
                       JobStatusCompleted in
                   match err1 with
                   | Some e => (set_store (set_files (set_files w fs) fs0) s,
                                (false, Some e))
                   | None => (set_store (set_files (set_files w fs) fs0) s, (true, None))
                   end
               end
           end
       | Err err => (w, (false, Some err))
       end
     else (w, (false, None))) = (w1, (true, None)) ->
    exists w2 : World Store,
      worker.checkJobCompleteAndCleanup env w1 jobID = (w2, (true, None)) /\
      store w2 = store w1 /\ files w2 = files w1).
  { destruct (job_JobCount j <=? _); [|intros Hx; discriminate Hx].
    destruct (fsys.ReadDir _ _) as [names|e]; [|intros Hx; discriminate Hx].
    destruct (worker.renameAll _ _ _ _) as [fs [e|]]; [intros Hx; discriminate Hx|].
    destruct (fsys.Remove _ _) as [fs0 [e|]]; [intros Hx; discriminate Hx|].
    unfold mem_UpdateJobStatus. cbn [store set_files].
    rewrite (Hkeyed jobID j Hj), Hj.
    intros Hx. injection Hx as <-. apply Hagain.
    exists (with_Status j JobStatusCompleted).
    cbn [store set_store jobs set_jobs]. rewrite lookup_insert_eq.
    split; reflexivity. }
  destruct (job_Status j) eqn:Hst.
  - exact Hpromote.
  - exact Hpromote.
  - intros Hx. injection Hx as <-. apply Hagain. exists j. rewrite Hst. auto.
  - intros Hx. injection Hx as <-. apply Hagain. exists j.
    cbn [store log_Warnf add_log]. rewrite Hst. auto.
  - intros Hx. injection Hx as <-. apply Hagain. exists j.
    cbn [store log_Warnf add_log]. rewrite Hst. auto.
Qed.

Lemma settled_check_update (id : Z) (st : JobStatus) (s : Store) (c : Context)
    (id' : Z) (expected new : JobStatus) :
  isTerminalStatus st = true -> isTerminalStatus expected = false ->
  settled id st s ->
  settled id st (fst (mem_UpdateJobStatusCheckStatus s c id' expected new)).
Proof.
  intros Hterm Hopen (Hkeyed & j & Hj & Hst). unfold mem_UpdateJobStatusCheckStatus.
  destruct (jobs s !! id') as [j0|] eqn:Hj0; [|split; eauto].
  destruct (decide (job_Status j0 = expected)) as [Hexp|_]; [|split; eauto].
  assert (Hne : id' <> id).
  { intros ->. rewrite Hj in Hj0. injection Hj0 as <-. congruence. }
  cbn [fst]. split.
  - intros k jk. cbn [jobs set_jobs]. destruct (decide (id' = k)) as [<-|Hk].
    + rewrite lookup_insert_eq. intros Hx. injection Hx as <-. cbn.
      apply (Hkeyed id' j0 Hj0).
    + rewrite lookup_insert_ne by exact Hk. apply Hkeyed.
  - exists j. cbn [jobs set_jobs]. rewrite lookup_insert_ne by exact Hne. auto.
Qed.

Lemma settled_increment (id : Z) (st : JobStatus) (s : Store) (c : Context) (id' : Z) :
  settled id st s -> settled id st (fst (mem_IncrementCompletedJobCount s c id')).
Proof.
  intros (Hkeyed & j & Hj & Hst). unfold mem_IncrementCompletedJobCount.
  destruct (jobs s !! id') as [j0|] eqn:Hj0; [|split; eauto].
  cbn [fst]. split.
  - intros k jk. cbn [jobs set_jobs]. destruct (decide (id' = k)) as [<-|Hk].
    + rewrite lookup_insert_eq. intros Hx. injection Hx as <-. cbn.
      apply (Hkeyed id' j0 Hj0).
    + rewrite lookup_insert_ne by exact Hk. apply Hkeyed.
  - cbn [jobs set_jobs]. destruct (decide (id' = id)) as [->|Hk].
    + rewrite lookup_insert_eq. rewrite Hj in Hj0. injection Hj0 as <-.
      eexists. split; [reflexivity|]. exact Hst.
    + exists j. rewrite lookup_insert_ne by exact Hk. auto.
Qed.

Lemma settled_create_key (id : Z) (st : JobStatus) (s : Store) (c : Context)
    (jk : JobKey) :
  settled id st s -> settled id st (fst (mem_CreateJobKey s c jk)).
Proof.
  intros Hs. unfold mem_CreateJobKey.
  destruct (uniqueKeys s && existsb (same_key jk) (jobKeys s)); exact Hs.
Qed.

Lemma settled_check (id : Z) (st : JobStatus) (w : World Store) (jobID : Z) :
  isTerminalStatus st = true ->
  settled id st (store w) ->
  settled id st (store (fst (worker.checkJobCompleteAndCleanup env w jobID))).
Proof.
  intros Hterm Hs. unfold worker.checkJobCompleteAndCleanup.
  cbn [GetJobByID GetJobKeyCount UpdateJobStatus memRepository].
  unfold mem_GetJobByID, mem_GetJobKeyCount.
  destruct (jobs (store w) !! jobID) as [j|] eqn:Hj; [|exact Hs].
  assert (Hpromote : job_Status j = JobStatusPending \/ job_Status j = JobStatusInProgress ->
    forall w0 : World Store, store w0 = store w ->
      settled id st (store (set_store w0
        (fst (mem_UpdateJobStatus (store w0) (ctx w0) (job_ID j) JobStatusCompleted))))).
  { intros Hopen w0 Hw0. destruct Hs as (Hkeyed & j0 & Hj0 & Hst0).
    unfold mem_UpdateJobStatus. rewrite Hw0, (Hkeyed jobID j Hj), Hj.
    assert (Hne : jobID <> id).
    { intros ->. rewrite Hj0 in Hj. injection Hj as <-.
      rewrite Hst0 in Hopen. destruct Hopen as [-> | ->]; discriminate Hterm. }
    cbn [fst store set_store]. split.
    - intros k jk. cbn [jobs set_jobs]. destruct (decide (jobID = k)) as [<-|Hk].
      + rewrite lookup_insert_eq. intros Hx. injection Hx as <-. cbn.
        apply (Hkeyed jobID j Hj).
      + rewrite lookup_insert_ne by exact Hk. apply Hkeyed.
    - exists j0. cbn [jobs set_jobs]. rewrite lookup_insert_ne by exact Hne. auto. }
  destruct (job_Status j) eqn:Hst; try exact Hs;
    (destruct (job_JobCount j <=? _); [|exact Hs];
     destruct (fsys.ReadDir _ _) as [names|e]; [|exact Hs];
     destruct (worker.renameAll _ _ _ _) as [fs [e|]]; [exact Hs|];
     destruct (fsys.Remove _ _) as [fs0 [e|]]; [exact Hs|];
     specialize (Hpromote ltac:(auto) (set_files (set_files w fs) fs0) eq_refl);
     destruct (mem_UpdateJobStatus _ _ _ _) as [s [e|]]; exact Hpromote).
Qed.

Lemma settled_complete (id : Z) (st : JobStatus) (w : World Store) (job : Job) :
  isTerminalStatus st = true ->
  settled id st (store w) ->
  settled id st (store (fst (worker.completeEntry env w job))).
Proof.
  intros Hterm Hs. unfold worker.completeEntry.
  pose proof (settled_check id st w (job_ID job) Hterm Hs) as Hc.
  destruct (worker.checkJobCompleteAndCleanup env w (job_ID job)) as [w1 [b [e|]]];
    cbn [fst] in Hc; [exact Hc|].
  cbn [IncrementCompletedJobCount memRepository].
  pose proof (settled_increment id st (store w1) (ctx w1) (job_ID job) Hc) as Hi.
  destruct (mem_IncrementCompletedJobCount _ _ _) as [s [e|]]; exact Hi.
Qed.

Lemma settled_record (id : Z) (st : JobStatus) (w : World Store) (job : Job)
    (jobArgs : JobEnqueueArgs) (out : string * Z * option error) :
  isTerminalStatus st = true ->
  settled id st (store w) ->
  settled id st (store (fst (worker.recordOutcome env w job jobArgs out))).
Proof.
  intros Hterm Hs. unfold worker.recordOutcome. destruct out as [[u size] [e|]].
  - cbn [UpdateJobStatusCheckStatus memRepository].
    pose proof (settled_check_update id st (store w) (ctx w) (job_ID job)
                  JobStatusInProgress JobStatusFailed Hterm eq_refl Hs) as Hu.
    destruct (mem_UpdateJobStatusCheckStatus _ _ _ _ _) as [s err]. cbn [fst] in Hu.
    destruct (errors_Is err ErrJobNotUpdated); [exact Hu|].
    destruct err as [e1|]; [exact Hu|].
    apply settled_complete; assumption.
  - cbn [CreateJobKey memRepository].
    destruct (size =? 0).
    + pose proof (settled_create_key id st (store w) (ctx w)
                    (mkJobKey (job_ID job) BlankFileName (args_ResourceType jobArgs)) Hs)
        as Hk.
      cbn [store log_Warn add_log ctx].
      destruct (mem_CreateJobKey _ _ _) as [s [e|]]; cbn [fst] in Hk; [exact Hk|].
      apply settled_complete; assumption.
    + pose proof (settled_create_key id st (store w) (ctx w)
                    (mkJobKey (job_ID job) (u +:+ ".ndjson") (args_ResourceType jobArgs))
                    Hs) as Hk.
      destruct (mem_CreateJobKey _ _ _) as [s [e|]]; cbn [fst] in Hk; [exact Hk|].
      apply settled_complete; assumption.
Qed.

(** X18. [ProcessJob] never overwrites a terminal status: on the
    in-memory store with every job filed under its own id, a job that is
    Completed, Failed or Cancelled when an entry is processed (the entry's
    own parent or any other job) has the same status afterwards, whatever
    the entry does. Both conditional updates expect a status that is not
    terminal, and the completion check writes Completed only over Pending
    or InProgress. *)
Theorem X18_terminal_status_is_never_overwritten (w : World Store) (job : Job)
    (jobArgs : JobEnqueueArgs) (fileUUID : string) (id : Z) (j : Job) :
  keyed (store w) ->
  jobs (store w) !! id = Some j ->
  isTerminalStatus (job_Status j) = true ->
  exists j' : Job,
    jobs (store (fst (worker.ProcessJob env NewBlueButtonClient WriteOperationOutcome
                        w job jobArgs fileUUID []))) !! id = Some j' /\
    job_Status j' = job_Status j.
Proof.
  intros Hkeyed Hj Hterm.
  assert (Hs : settled id (job_Status j) (store w)) by (split; eauto).
  assert (Hgoal : settled id (job_Status j)
                    (store (fst (worker.ProcessJob env NewBlueButtonClient
                                   WriteOperationOutcome w job jobArgs fileUUID []))));
    [|destruct Hgoal as (_ & j' & Hj' & Hst'); eauto].
  unfold worker.ProcessJob.
  destruct (prepareEntry_store env NewBlueButtonClient w job jobArgs) as (_ & _ & Hstore).
  assert (Hs1 : settled id (job_Status j)
                  (store (fst (worker.prepareEntry env NewBlueButtonClient w job jobArgs)))).
  { destruct Hstore as [-> | ->]; [exact Hs|].
    apply settled_check_update; [exact Hterm | reflexivity | exact Hs]. }
  destruct (worker.prepareEntry env NewBlueButtonClient w job jobArgs) as [w1 [[aco bb]|e]];
    cbn [fst] in Hs1; [|exact Hs1].
  destruct (aco_CMSID aco) as [cmsID|]; [|exact Hs1].
  destruct (writeBBDataToFile_store env WriteOperationOutcome w1 bb cmsID jobArgs fileUUID)
    as (Hst2 & _).
  destruct (worker.writeBBDataToFile env WriteOperationOutcome w1 bb cmsID jobArgs
              fileUUID []) as [w2 out].
  cbn [fst] in Hst2. apply settled_record; [exact Hterm|]. rewrite Hst2. exact Hs1.
Qed.

(** X19. One delivery of an entry adds at most one job key, whatever the
    cancellation monitor and other writers of job statuses do meanwhile:
    afterwards the job keys are those found, or those found followed by one
    key of the entry's parent and resource type whose file name is the
    artifact id of this delivery followed by .ndjson, or blank.ndjson. *)
Theorem X19_one_delivery_adds_at_most_one_key (w : World Store) (job : Job)
    (jobArgs : JobEnqueueArgs) (fileUUID : string) (sched : list (list EnvEvent)) :
  let r := worker.ProcessJob env NewBlueButtonClient WriteOperationOutcome w job jobArgs
             fileUUID (interference (args_ID jobArgs) sched) in
  jobKeys (store (fst r)) = jobKeys (store w) \/
  exists fileName : string,
    (fileName = fileUUID +:+ ".ndjson" \/ fileName = "blank.ndjson") /\
    jobKeys (store (fst r))
    = jobKeys (store w)
      ++ [mkJobKey (job_ID job) fileName (args_ResourceType jobArgs)].
Proof.
  intros r. unfold r, worker.ProcessJob.
  destruct (prepareEntry_store env NewBlueButtonClient w job jobArgs) as (_ & _ & Hstore).
  assert (Hk1 : jobKeys (store (fst (worker.prepareEntry env NewBlueButtonClient w job
                                       jobArgs))) = jobKeys (store w)).
  { destruct Hstore as [-> | ->]; [reflexivity|].
    apply mem_UpdateJobStatusCheckStatus_keys. }
  destruct (worker.prepareEntry env NewBlueButtonClient w job jobArgs) as [w1 [[aco bb]|e]];
    cbn [fst] in Hk1; [|left; exact Hk1].
  destruct (aco_CMSID aco) as [cmsID|]; [|left; exact Hk1].
  pose proof (writeBBDataToFile_keys env WriteOperationOutcome w1 bb cmsID jobArgs fileUUID
                (interference (args_ID jobArgs) sched)
                (interference_keys (args_ID jobArgs) sched)) as Hk2.
  destruct (worker.writeBBDataToFile env WriteOperationOutcome w1 bb cmsID jobArgs
              fileUUID (interference (args_ID jobArgs) sched))
    as [w2 [[u size] err]] eqn:Hwrite.
  cbn [fst] in Hk2. rewrite <- Hk1, <- Hk2.
  unfold worker.recordOutcome. destruct err as [e|].
  - left. cbn [UpdateJobStatusCheckStatus memRepository].
    pose proof (mem_UpdateJobStatusCheckStatus_keys (store w2) (ctx w2) (job_ID job)
                  JobStatusInProgress JobStatusFailed) as Hu.
    destruct (mem_UpdateJobStatusCheckStatus _ _ _ _ _) as [s err]. cbn [fst] in Hu.
    destruct (errors_Is err ErrJobNotUpdated); [exact Hu|].
    destruct err as [e1|]; [exact Hu|].
    rewrite completeEntry_keys. exact Hu.
  - pose proof (writeBBDataToFile_success_id env WriteOperationOutcome w1 bb cmsID jobArgs
                  fileUUID _ w2 u size Hwrite) as ->.
    cbn [CreateJobKey memRepository]. unfold mem_CreateJobKey.
    destruct (size =? 0); cbn [store log_Warn add_log ctx];
      destruct (uniqueKeys (store w2) && existsb _ (jobKeys (store w2)));
      try (left; reflexivity);
      right; eexists; (split; [|rewrite completeEntry_keys; reflexivity]); auto.
Qed.

End StoreFacts.

(** ** The error artifact, validation and the early exits of [ProcessJob] *)

Section ErrorArtifact.
Context {S : Type} `{Repository S}.
Variable env : conf.Env.
Variable WriteOperationOutcome : OperationOutcome -> string.
Import observe.

(** X20. [appendErrorToFile] adds one record to the error artifact of
    the entry, creating the artifact when it is the first: the bytes of the
    OperationOutcome followed by a newline, after whatever the artifact
    held. Every other file, the job store, the context, the log and the
    upstream calls stay as they are. When the staging directory of the job
    is missing nothing is written at all. *)
Theorem X20_appendErrorToFile_appends_one_record (w : World S) (fileUUID : string)
    (code : IssueTypeCode) (detailsCode : DetailsCode) (detailsDisplay : string)
    (jobID : Z) :
  let dir := conf.GetEnv env "FHIR_STAGING_DIR" +:+ "/" +:+ Itoa jobID in
  let name := fileUUID +:+ "-error.ndjson" in
  let oo := CreateOpOutcome IssueSeverityCode_ERROR code detailsCode detailsDisplay in
  let w' := worker.appendErrorToFile env WriteOperationOutcome w fileUUID code
              detailsCode detailsDisplay jobID in
  store w' = store w /\ ctx w' = ctx w /\ upstream w' = upstream w /\
  (files w !! dir <> None ->
   read (files w') dir name
   = Some (default [] (read (files w) dir name) ++ [WriteOperationOutcome oo; newline]) /\
   logs w' = logs w /\
   (forall d n, (d, n) <> (dir, name) -> read (files w') d n = read (files w) d n)) /\
  (files w !! dir = None -> files w' = files w).
Proof.
  intros dir name oo w'. unfold w', worker.appendErrorToFile. fold dir name oo.
  unfold fsys.OpenAppend.
  destruct (files w !! dir) as [dm|] eqn:Ed.
  - assert (Hother : forall (fs : fsys.FS) (a b d n : string),
              (d, n) <> (dir, name) ->
              read (fsys.Append (fsys.Append fs dir name a) dir name b) d n = read fs d n).
    { intros fs a b d n Hne. rewrite !read_Append.
      repeat rewrite decide_False by (intros [-> ->]; apply Hne; reflexivity).
      reflexivity. }
    destruct (dm !! name) as [f|] eqn:En; cbn [store ctx upstream files logs set_files].
    + repeat (split; [reflexivity|]). split; [|intros Hx; discriminate Hx].
      intros _. split; [|split; [reflexivity|]].
      * rewrite !read_Append. rewrite !decide_True by auto.
        unfold read. rewrite Ed, En. cbn. rewrite <- app_assoc. reflexivity.
      * intros d n Hne. apply Hother, Hne.
    + repeat (split; [reflexivity|]). split; [|intros Hx; discriminate Hx].
      intros _. split; [|split; [reflexivity|]].
      * rewrite !read_Append. rewrite !decide_True by auto.
        unfold read. rewrite lookup_insert_eq, lookup_insert_eq, Ed, En. reflexivity.
      * intros d n Hne. rewrite Hother by exact Hne. unfold read.
        destruct (decide (dir = d)) as [<-|Hd].
        -- rewrite lookup_insert_eq, Ed. apply lookup_insert_ne.
           intros <-. apply Hne. reflexivity.
        -- rewrite lookup_insert_ne by exact Hd. reflexivity.
  - cbn [store ctx upstream files log_Error add_log].
    repeat (split; [reflexivity|]). split; [intros Hx; contradiction | reflexivity].
Qed.

End ErrorArtifact.

Section ValidatedEntries.
Context {S : Type} `{Repository S}.
Variable env : conf.Env.
Variable NewBlueButtonClient : string -> result APIClient.
Variable WriteOperationOutcome : OperationOutcome -> string.
Variable json_Unmarshal : string -> result JobEnqueueArgs.
Variable cloudWatchEnv : string.
Variable PutSample : World S -> option error.

(** X21. [ValidateJob] returns the parent job exactly when the base path
    is not empty, the job store returns the job, and its status is not
    Cancelled; it never returns a Cancelled job, and it accepts a parent in
    every other status, Failed and Completed included. *)
Theorem X21_ValidateJob_accepts_all_but_cancelled (w : World S)
    (jobArgs : JobEnqueueArgs) (j : Job) :
  worker.ValidateJob w jobArgs = Ok j <->
  args_BBBasePath jobArgs <> "" /\
  GetJobByID (store w) (ctx w) (uint_wrap (args_ID jobArgs)) = Ok j /\
  job_Status j <> JobStatusCancelled.
Proof.
  unfold worker.ValidateJob. split.
  - destruct (args_BBBasePath jobArgs) as [|c p]; [intros Hx; discriminate Hx|].
    cbn [String.length Nat.eqb].
    destruct (GetJobByID (store w) (ctx w) (uint_wrap (args_ID jobArgs))) as [j0|e].
    + destruct (decide (job_Status j0 = JobStatusCancelled)) as [Hc|Hc];
        intros Hx; [discriminate Hx|]. injection Hx as <-.
      split; [discriminate|]. split; [reflexivity | exact Hc].
    + destruct (errors_Is (Some e) ErrJobNotFound); intros Hx; discriminate Hx.
  - intros (Hbase & Hget & Hst).
    destruct (args_BBBasePath jobArgs) as [|c p]; [contradiction|].
    cbn [String.length Nat.eqb]. rewrite Hget.
    rewrite decide_False by exact Hst. reflexivity.
Qed.

(** X22. For an entry that passes validation and whose ACO, if the job
    store returns one, has a CMS ID (with a nil CMS ID [ProcessJob] panics
    and nothing is returned), [processJob] returns what [ProcessJob]
    returns: no error when it returns none, and otherwise its error
    wrapped, the cause still matched by [errors.Is], so the entry is
    rescheduled. The worker runs on a fresh context, whatever the context
    of the caller was; job store, files and upstream calls are left as
    [ProcessJob] left them, and the context is cancelled when [processJob]
    returns, which stops the cancellation monitor. *)
Theorem X22_validated_entry_returns_what_ProcessJob_returns (w : World S)
    (job : manager.QueJob) (jobArgs : JobEnqueueArgs) (exportJob : Job)
    (fileUUID : string) (sched : list (list manager.EnvEvent)) :
  let w0 := mkWorld (store w) (files w) (logs w) (upstream w) context_Background in
  let p := worker.ProcessJob env NewBlueButtonClient WriteOperationOutcome w0 exportJob
             jobArgs fileUUID (manager.interference (args_ID jobArgs) sched) in
  let r := manager.processJob env NewBlueButtonClient WriteOperationOutcome
             json_Unmarshal cloudWatchEnv PutSample w job fileUUID sched in
  json_Unmarshal (manager.qj_Args job) = Ok jobArgs ->
  worker.ValidateJob w0 jobArgs = Ok exportJob ->
  (forall aco : ACO,
     GetACOByUUID (store w0) (ctx w0) (job_ACOID exportJob) = Ok aco ->
     aco_CMSID aco <> None) ->
  snd r = (fun e => errors_Wrap e "failed to process job") <$> snd p /\
  (snd p = None -> manager.disposition (snd r) = manager.Ack) /\
  (forall e, snd p = Some e -> errors_Is (snd r) e = true) /\
  store (fst r) = store (fst p) /\ files (fst r) = files (fst p) /\
  upstream (fst r) = upstream (fst p) /\
  canceled (ctx (fst r)) = true /\
  (forall (w1 : World S) (aco : ACO) (bb : APIClient),
     worker.prepareEntry env NewBlueButtonClient w0 exportJob jobArgs = (w1, Ok (aco, bb)) ->
     exists cmsID : string,
       aco_CMSID aco = Some cmsID /\
       p = let '(w2, out) :=
             worker.writeBBDataToFile env WriteOperationOutcome w1 bb cmsID jobArgs
               fileUUID (manager.interference (args_ID jobArgs) sched) in
           worker.recordOutcome env w2 exportJob jobArgs out).
Proof.
  intros w0 p r Hdec Hval Hcms.
  assert (Hrun : forall (w1 : World S) (aco : ACO) (bb : APIClient),
     worker.prepareEntry env NewBlueButtonClient w0 exportJob jobArgs = (w1, Ok (aco, bb)) ->
     exists cmsID : string,
       aco_CMSID aco = Some cmsID /\
       p = let '(w2, out) :=
             worker.writeBBDataToFile env WriteOperationOutcome w1 bb cmsID jobArgs
               fileUUID (manager.interference (args_ID jobArgs) sched) in
           worker.recordOutcome env w2 exportJob jobArgs out).
  { intros w1 aco bb Hprep.
    assert (Haco : GetACOByUUID (store w0) (ctx w0) (job_ACOID exportJob) = Ok aco).
    { revert Hprep. unfold worker.prepareEntry.
      destruct (GetACOByUUID (store w0) (ctx w0) (job_ACOID exportJob)) as [aco'|e];
        [|intros Hx; discriminate Hx].
      destruct (UpdateJobStatusCheckStatus _ _ _ _ _) as [s err].
      destruct (NewBlueButtonClient (args_BBBasePath jobArgs)) as [bb0|e0].
      - destruct (createDir_ok
                    (set_store w0 s)
                    (conf.GetEnv env "FHIR_STAGING_DIR" +:+ "/" +:+ Itoa (args_ID jobArgs)))
          as (wa & Ha & _).
        destruct (createDir_ok
                    (log_Warnf (set_store w0 s)
                       "Failed to update job. Assume job already updated. Continuing. %s"
                       [LErr err])
                    (conf.GetEnv env "FHIR_STAGING_DIR" +:+ "/" +:+ Itoa (args_ID jobArgs)))
          as (wb & Hb & _).
        destruct (createDir_ok wa
                    (conf.GetEnv env "FHIR_PAYLOAD_DIR" +:+ "/" +:+ Itoa (args_ID jobArgs)))
          as (wa' & Ha' & _).
        destruct (createDir_ok wb
                    (conf.GetEnv env "FHIR_PAYLOAD_DIR" +:+ "/" +:+ Itoa (args_ID jobArgs)))
          as (wb' & Hb' & _).
        cbv zeta. rewrite Ha, Hb, Ha', Hb'.
        destruct (errors_Is err ErrJobNotUpdated).
        + intros Hx. injection Hx as _ -> _. reflexivity.
        + destruct err as [e|]; [intros Hx; discriminate Hx|].
          intros Hx. injection Hx as _ -> _. reflexivity.
      - cbv zeta. destruct (errors_Is err ErrJobNotUpdated);
          [intros Hx; discriminate Hx|].
        destruct err as [e|]; intros Hx; discriminate Hx. }
    destruct (aco_CMSID aco) as [cmsID|] eqn:Hid; [|exact (False_ind _ (Hcms aco Haco Hid))].
    exists cmsID. split; [reflexivity|].
    unfold p, worker.ProcessJob. rewrite Hprep, Hid. reflexivity. }
  unfold r, manager.processJob, manager.processJob_body.
  fold w0. unfold context_Background in w0. fold w0. rewrite Hdec, Hval. fold p.
  clearbody p.
  destruct p as [wp [e|]]; cbn [fst snd fmap option_fmap option_map manager.disposition].
  - split; [reflexivity|]. split; [intros Hx; discriminate Hx|]. split.
    { intros e' Hx. injection Hx as <-. cbn [errors_Is errors_Wrap chain_Is].
      destruct (decide _); [reflexivity|].
      destruct e; cbn [chain_Is]; rewrite decide_True by reflexivity; reflexivity. }
    destruct (metric_update_keeps cloudWatchEnv PutSample (cancel wp)) as (Hs & Hf & _).
    destruct (metric_update_calls cloudWatchEnv PutSample (cancel wp)) as (Hu & Hc).
    rewrite Hs, Hf, Hu, Hc. repeat split. exact Hrun.
  - split; [reflexivity|]. split; [reflexivity|]. split; [intros e Hx; discriminate Hx|].
    destruct (metric_update_keeps cloudWatchEnv PutSample (cancel wp)) as (Hs & Hf & _).
    destruct (metric_update_calls cloudWatchEnv PutSample (cancel wp)) as (Hu & Hc).
    rewrite Hs, Hf, Hu, Hc. repeat split. exact Hrun.
Qed.

(** X23. The early exits of [ProcessJob]. A failed ACO lookup returns the
    wrapped error with the world untouched: the parent is not promoted. A
    promotion Pending -> InProgress that fails with anything but the
    not-updated sentinel returns that error wrapped, and a failure to create
    the upstream client returns it wrapped after the promotion was tried;
    in both cases no directory is created, no file written and nothing is
    requested upstream. *)
Theorem X23_early_exits_leave_no_files (w : World S) (job : Job)
    (jobArgs : JobEnqueueArgs) (fileUUID : string) (others : worker.Interference) :
  let r := worker.ProcessJob env NewBlueButtonClient WriteOperationOutcome w job jobArgs
             fileUUID others in
  (forall e : error,
     GetACOByUUID (store w) (ctx w) (job_ACOID job) = Err e ->
     r = (w, Some (errors_Wrap e "could not retrieve ACO from database"))) /\
  (forall (aco : ACO) (s : S) (err : option error),
     GetACOByUUID (store w) (ctx w) (job_ACOID job) = Ok aco ->
     UpdateJobStatusCheckStatus (store w) (ctx w) (job_ID job)
       JobStatusPending JobStatusInProgress = (s, err) ->
     (forall e, err = Some e -> errors_Is err ErrJobNotUpdated = false ->
        r = (set_store w s,
             Some (errors_Wrap e "could not update job status in database"))) /\
     (forall e, (err = None \/ errors_Is err ErrJobNotUpdated = true) ->
        NewBlueButtonClient (args_BBBasePath jobArgs) = Err e ->
        snd r = Some (errors_Wrap e "could not create Blue Button client") /\
        store (fst r) = s /\ files (fst r) = files w /\ upstream (fst r) = upstream w)).
Proof.
  intros r. unfold r, worker.ProcessJob, worker.prepareEntry. split.
  - intros e ->. reflexivity.
  - intros aco s err -> ->. split.
    + intros e -> Hnot. rewrite Hnot. reflexivity.
    + intros e Hok ->. destruct Hok as [-> | Hup].
      * cbn [errors_Is]. repeat split.
      * rewrite Hup. repeat split.
Qed.

End ValidatedEntries.

(** ** Whole entries whose beneficiaries all succeed *)

Section WholeEntries.
Import memstore observe stream quetest.
Variable env : conf.Env.
Variable NewBlueButtonClient : string -> result APIClient.
Variable WriteOperationOutcome : OperationOutcome -> string.

(** [ProcessJob] up to the insertion of the job key, for an entry none of
    whose beneficiaries fails and whose output is not empty. *)
Lemma ProcessJob_fetched (w : World Store) (job : Job) (jobArgs : JobEnqueueArgs)
    (fileUUID : string) (w1 : World Store) (aco : ACO) (bb : APIClient) (cmsID : string)
    (bf : worker.BundleFunc (S := Store)) :
  let staging := conf.GetEnv env "FHIR_STAGING_DIR" +:+ "/" +:+ Itoa (args_ID jobArgs) in
  let payload := conf.GetEnv env "FHIR_PAYLOAD_DIR" +:+ "/" +:+ Itoa (args_ID jobArgs) in
  let name := fileUUID +:+ ".ndjson" in
  let content :=
    concat (map (fetchChunks env WriteOperationOutcome bf bb cmsID jobArgs fileUUID
                   (store w1) (ctx w1)) (args_BeneficiaryIDs jobArgs)) in
  let jk := mkJobKey (job_ID job) name (args_ResourceType jobArgs) in
  worker.prepareEntry env NewBlueButtonClient w job jobArgs = (w1, Ok (aco, bb)) ->
  aco_CMSID aco = Some cmsID ->
  worker.bundleFunc bb cmsID jobArgs = Some bf ->
  canceled (ctx w) = false ->
  (forall v, Atoi (conf.GetEnv env "EXPORT_FAIL_PCT") = Ok v -> 1 <= v) ->
  Forall (fun b => beneficiaryFails env WriteOperationOutcome bf bb cmsID jobArgs
                     fileUUID (store w1) (ctx w1) b = false)
         (args_BeneficiaryIDs jobArgs) ->
  fsys.file_size content <> 0 ->
  uniqueKeys (store w1) && existsb (same_key jk) (jobKeys (store w1)) = false ->
  exists (w3 : World Store) (sd pd : gmap string (list string)),
    worker.ProcessJob env NewBlueButtonClient WriteOperationOutcome w job jobArgs
      fileUUID []
    = worker.completeEntry env w3 job /\
    jobs (store w3) = jobs (store w1) /\
    jobKeys (store w3) = jobKeys (store w1) ++ [jk] /\
    files w3 !! staging = Some sd /\ sd !! name = Some content /\
    files w3 !! payload = Some pd.
Proof.
  intros staging payload name content jk Hprep Hcms Hbf Hlive Hpct Hall Hsize Hfree.
  destruct (prepareEntry_ok env NewBlueButtonClient w job jobArgs w1 aco bb Hprep)
    as (Hc1 & _ & _ & Hstaging & Hpayload).
  fold staging in Hstaging. fold payload in Hpayload.
  destruct (writeBBDataToFile_all_succeed env WriteOperationOutcome w1 bb cmsID jobArgs
              fileUUID bf Hbf Hstaging ltac:(congruence) Hpct Hall)
    as (w2 & Hrun & Hread & Hs2 & _ & Hdirs).
  fold staging name content in Hrun, Hread.
  unfold read in Hread.
  destruct (files w2 !! staging) as [sd|] eqn:Hsd; [|discriminate Hread].
  specialize (Hdirs payload Hpayload).
  destruct (files w2 !! payload) as [pd|] eqn:Hpd; [|contradiction].
  eexists; exists sd, pd. split.
  { unfold worker.ProcessJob. rewrite Hprep, Hcms, Hrun. unfold worker.recordOutcome.
    rewrite (proj2 (Z.eqb_neq _ _) Hsize).
    cbn [CreateJobKey memRepository]. unfold mem_CreateJobKey. fold name jk.
    rewrite Hs2, Hfree. reflexivity. }
  cbn [store set_store jobs jobKeys files]. repeat split; assumption.
Qed.

(** The completion check and the advisory counter for an open parent all
    of whose entries have their job keys. *)
Lemma completeEntry_promotes (w3 : World Store) (job j1 : Job)
    (sd pd : gmap string (list string)) :
  let staging := conf.GetEnv env "FHIR_STAGING_DIR" +:+ "/" +:+ Itoa (job_ID j1) in
  let payload := conf.GetEnv env "FHIR_PAYLOAD_DIR" +:+ "/" +:+ Itoa (job_ID j1) in
  jobs (store w3) !! job_ID job = Some j1 ->
  job_ID j1 = job_ID job ->
  job_Status j1 = JobStatusPending \/ job_Status j1 = JobStatusInProgress ->
  job_JobCount j1
  <= Z.of_nat (length (filter (fun k => jk_JobID k = job_ID job) (jobKeys (store w3)))) ->
  staging <> payload ->
  files w3 !! staging = Some sd ->
  files w3 !! payload = Some pd ->
  exists (w' : World Store) (j' : Job),
    worker.completeEntry env w3 job = (w', None) /\
    jobKeys (store w') = jobKeys (store w3) /\
    jobs (store w') !! job_ID job = Some j' /\ job_Status j' = JobStatusCompleted /\
    files w' = delete staging (<[payload := sd ∪ pd]> (<[staging := ∅]> (files w3))).
Proof.
  intros staging payload Hj Hid Hst Hcount Hne Hsd Hpd.
  eexists; eexists. split.
  { unfold worker.completeEntry, worker.checkJobCompleteAndCleanup.
    cbn [GetJobByID GetJobKeyCount memRepository].
    unfold mem_GetJobByID, mem_GetJobKeyCount. rewrite Hj.
    rewrite (proj2 (Z.leb_le _ _) Hcount). fold staging payload.
    unfold fsys.ReadDir. rewrite Hsd.
    rewrite (renameAll_whole_directory staging payload (files w3) sd pd Hne Hsd Hpd).
    cbn [files set_files]. unfold fsys.Remove.
    rewrite lookup_insert_ne by auto. rewrite lookup_insert_eq.
    rewrite bool_decide_eq_true_2 by reflexivity.
    cbn [UpdateJobStatus IncrementCompletedJobCount memRepository store set_store
         set_files ctx].
    unfold mem_UpdateJobStatus, mem_IncrementCompletedJobCount.
    rewrite Hid, Hj.
    destruct Hst as [Hs | Hs]; rewrite Hs;
      cbn [jobs set_jobs store set_store set_files ctx];
      rewrite lookup_insert_eq; reflexivity. }
  cbn [store set_store jobs set_jobs jobKeys files set_files].
  split; [reflexivity|]. split; [apply lookup_insert_eq|]. split; reflexivity.
Qed.

(** X24. The last entry of an open parent. When none of its
    beneficiaries fails, its output is not empty and the store accepts the
    job key, [ProcessJob] returns no error, the parent has one more job key,
    named after the artifact id of this delivery; the key count having
    reached jobCount, the parent is Completed, the staging directory is
    gone, and the data artifact lies in the payload directory with the
    chunks of all the beneficiaries in the order of the list. *)
Theorem X24_last_entry_completes_the_parent (w : World Store) (job : Job)
    (jobArgs : JobEnqueueArgs) (fileUUID : string) (w1 : World Store) (aco : ACO)
    (bb : APIClient) (cmsID : string) (bf : worker.BundleFunc (S := Store)) (j1 : Job) :
  let staging := conf.GetEnv env "FHIR_STAGING_DIR" +:+ "/" +:+ Itoa (args_ID jobArgs) in
  let payload := conf.GetEnv env "FHIR_PAYLOAD_DIR" +:+ "/" +:+ Itoa (args_ID jobArgs) in
  let name := fileUUID +:+ ".ndjson" in
  let content :=
    concat (map (fetchChunks env WriteOperationOutcome bf bb cmsID jobArgs fileUUID
                   (store w1) (ctx w1)) (args_BeneficiaryIDs jobArgs)) in
  let jk := mkJobKey (job_ID job) name (args_ResourceType jobArgs) in
  worker.prepareEntry env NewBlueButtonClient w job jobArgs = (w1, Ok (aco, bb)) ->
  aco_CMSID aco = Some cmsID ->
  worker.bundleFunc bb cmsID jobArgs = Some bf ->
  canceled (ctx w) = false ->
  (forall v, Atoi (conf.GetEnv env "EXPORT_FAIL_PCT") = Ok v -> 1 <= v) ->
  Forall (fun b => beneficiaryFails env WriteOperationOutcome bf bb cmsID jobArgs
                     fileUUID (store w1) (ctx w1) b = false)
         (args_BeneficiaryIDs jobArgs) ->
  fsys.file_size content <> 0 ->
  uniqueKeys (store w1) && existsb (same_key jk) (jobKeys (store w1)) = false ->
  jobs (store w1) !! job_ID job = Some j1 ->
  job_ID j1 = job_ID job ->
  args_ID jobArgs = job_ID job ->
  job_Status j1 = JobStatusPending \/ job_Status j1 = JobStatusInProgress ->
  staging <> payload ->
  job_JobCount j1
  <= Z.of_nat (length (filter (fun k => jk_JobID k = job_ID job)
                         (jobKeys (store w1) ++ [jk]))) ->
  exists (w' : World Store) (j' : Job),
    worker.ProcessJob env NewBlueButtonClient WriteOperationOutcome w job jobArgs
      fileUUID [] = (w', None) /\
    jobKeys (store w') = jobKeys (store w1) ++ [jk] /\
    jobs (store w') !! job_ID job = Some j' /\ job_Status j' = JobStatusCompleted /\
    files w' !! staging = None /\
    read (files w') payload name = Some content.
Proof.
  intros staging payload name content jk Hprep Hcms Hbf Hlive Hpct Hall Hsize Hfree
    Hj Hid Hargs Hst Hne Hcount.
  destruct (ProcessJob_fetched w job jobArgs fileUUID w1 aco bb cmsID bf Hprep Hcms Hbf
              Hlive Hpct Hall Hsize Hfree)
    as (w3 & sd & pd & Hrun & Hjobs & Hkeys & Hsd & Hname & Hpd).
  fold staging payload name content jk in Hrun, Hkeys, Hsd, Hname, Hpd.
  assert (Hj3 : jobs (store w3) !! job_ID job = Some j1) by (rewrite Hjobs; exact Hj).
  assert (Hstg : conf.GetEnv env "FHIR_STAGING_DIR" +:+ "/" +:+ Itoa (job_ID j1) = staging)
    by (unfold staging; rewrite Hid, Hargs; reflexivity).
  assert (Hpay : conf.GetEnv env "FHIR_PAYLOAD_DIR" +:+ "/" +:+ Itoa (job_ID j1) = payload)
    by (unfold payload; rewrite Hid, Hargs; reflexivity).
  destruct (completeEntry_promotes w3 job j1 sd pd Hj3 Hid Hst) as
    (w' & j' & Hcomplete & Hkeys' & Hj' & Hst' & Hfiles).
  { rewrite Hkeys. exact Hcount. }
  { rewrite Hstg, Hpay. exact Hne. }
  { rewrite Hstg. exact Hsd. }
  { rewrite Hpay. exact Hpd. }
  rewrite Hstg, Hpay in Hfiles.
  exists w', j'. split; [rewrite Hrun; exact Hcomplete|].
  split; [rewrite Hkeys'; exact Hkeys|]. split; [exact Hj'|]. split; [exact Hst'|].
  rewrite Hfiles. split.
  - apply lookup_delete_eq.
  - unfold read. rewrite lookup_delete_ne by auto. rewrite lookup_insert_eq.
    apply lookup_union_Some_l. exact Hname.
Qed.

(** X25. An entry delivered for a parent that is already in a terminal
    status (Failed and Completed parents pass validation) is still fetched
    in full: when none of its beneficiaries fails and its output is not
    empty, [ProcessJob] returns no error and the parent has one more job
    key, but the completion check does nothing on a terminal parent, so the
    status stays as it was and the data artifact is left in the staging
    directory. *)
Theorem X25_entry_of_terminal_parent_is_left_in_staging (w : World Store) (job : Job)
    (jobArgs : JobEnqueueArgs) (fileUUID : string) (w1 : World Store) (aco : ACO)
    (bb : APIClient) (cmsID : string) (bf : worker.BundleFunc (S := Store)) (j1 : Job) :
  let staging := conf.GetEnv env "FHIR_STAGING_DIR" +:+ "/" +:+ Itoa (args_ID jobArgs) in
  let name := fileUUID +:+ ".ndjson" in
  let content :=
    concat (map (fetchChunks env WriteOperationOutcome bf bb cmsID jobArgs fileUUID
                   (store w1) (ctx w1)) (args_BeneficiaryIDs jobArgs)) in
  let jk := mkJobKey (job_ID job) name (args_ResourceType jobArgs) in
  worker.prepareEntry env NewBlueButtonClient w job jobArgs = (w1, Ok (aco, bb)) ->
  aco_CMSID aco = Some cmsID ->
  worker.bundleFunc bb cmsID jobArgs = Some bf ->
  canceled (ctx w) = false ->
  (forall v, Atoi (conf.GetEnv env "EXPORT_FAIL_PCT") = Ok v -> 1 <= v) ->
  Forall (fun b => beneficiaryFails env WriteOperationOutcome bf bb cmsID jobArgs
                     fileUUID (store w1) (ctx w1) b = false)
         (args_BeneficiaryIDs jobArgs) ->
  fsys.file_size content <> 0 ->
  uniqueKeys (store w1) && existsb (same_key jk) (jobKeys (store w1)) = false ->
  jobs (store w1) !! job_ID job = Some j1 ->
  isTerminalStatus (job_Status j1) = true ->
  exists (w' : World Store) (j' : Job),
    worker.ProcessJob env NewBlueButtonClient WriteOperationOutcome w job jobArgs
      fileUUID [] = (w', None) /\
    jobKeys (store w') = jobKeys (store w1) ++ [jk] /\
    jobs (store w') !! job_ID job = Some j' /\ job_Status j' = job_Status j1 /\
    read (files w') staging name = Some content.
Proof.
  intros staging name content jk Hprep Hcms Hbf Hlive Hpct Hall Hsize Hfree Hj Hterm.
  destruct (ProcessJob_fetched w job jobArgs fileUUID w1 aco bb cmsID bf Hprep Hcms Hbf
              Hlive Hpct Hall Hsize Hfree)
    as (w3 & sd & pd & Hrun & Hjobs & Hkeys & Hsd & Hname & Hpd).
  fold staging name content jk in Hrun, Hkeys, Hsd, Hname.
  assert (Hj3 : jobs (store w3) !! job_ID job = Some j1) by (rewrite Hjobs; exact Hj).
  assert (Hread : read (files w3) staging name = Some content)
    by (unfold read; rewrite Hsd; exact Hname).
  assert (Hcomplete : exists w4 : World Store,
            worker.completeEntry env w3 job
            = (set_store w4
                 (set_jobs (store w3)
                    (<[job_ID job :=
                         mkJob (job_ID j1) (job_ACOID j1) (job_Status j1) (job_JobCount j1)
                           (int_wrap (job_CompletedJobCount j1 + 1))]> (jobs (store w3)))),
               None) /\
            files w4 = files w3).
  { unfold worker.completeEntry, worker.checkJobCompleteAndCleanup.
    cbn [GetJobByID memRepository]. unfold mem_GetJobByID. rewrite Hj3.
    destruct (job_Status j1) eqn:Hst; try discriminate Hterm;
      cbn [IncrementCompletedJobCount memRepository store ctx log_Warnf add_log];
      unfold mem_IncrementCompletedJobCount; rewrite Hj3, ?Hst;
      eexists; (split; [reflexivity|]); reflexivity. }
  destruct Hcomplete as (w4 & Hcomplete & Hfiles).
  eexists; eexists. split; [rewrite Hrun; exact Hcomplete|].
  cbn [store set_store jobs set_jobs jobKeys files].
  split; [exact Hkeys|]. split; [apply lookup_insert_eq|].
  split; [reflexivity|]. rewrite Hfiles. exact Hread.
Qed.

End WholeEntries.

(** ** Runs that show the statements above at work *)

Lemma keyed_jobStore (st : JobStatus) (jobCount : Z) (keys : list JobKey) (unique : bool) :
  stream.keyed (scenario.jobStore st jobCount keys unique).
Proof.
  intros k j Hk. unfold scenario.jobStore in Hk. cbn [memstore.jobs] in Hk.
  apply lookup_singleton_Some in Hk as [<- <-]. reflexivity.
Qed.

(** The payload of the test [TestProcessJobInvalidArgs]. *)
Lemma X1_undecodable_payload_is_acked_witness :
  let r := scenario.processEntry scenario.baseEnv [] (scenario.entryArgs "Patient" ["1"])
             (scenario.world (scenario.jobStore JobStatusPending 1 [] false))
             (manager.mkQueJob 7 "{invalid_json" 0) "u1" [] in
  manager.disposition (snd r) = manager.Ack /\
  store (fst r) = scenario.jobStore JobStatusPending 1 [] false /\
  upstream (fst r) = [].
Proof.
  intros r.
  destruct (X1_undecodable_payload_is_acked scenario.baseEnv (scenario.newClient [])
              scenario.encode
              (scenario.decodeAs scenario.payload (scenario.entryArgs "Patient" ["1"]))
              "" scenario.noSample
              (scenario.world (scenario.jobStore JobStatusPending 1 [] false))
              (manager.mkQueJob 7 "{invalid_json" 0) "u1" []
              (errorString "invalid character") eq_refl)
    as (Hack & Hs & _ & Hu & _).
  split; [exact Hack|]. split; [exact Hs | exact Hu].
Defined.

(** An entry without a base path, on a store that does not know its
    parent: the missing parent goes unnoticed. *)
Lemma X2_empty_base_path_is_acked_witness :
  let jobArgs := mkJobEnqueueArgs 1 "A0001" ["1"] "Patient" "" Time_zero Time_zero ""
                   (mkWindow Time_zero Time_zero) in
  let r := scenario.processEntry scenario.baseEnv [] jobArgs
             (scenario.world scenario.orphanStore) (scenario.queueEntry 0) "u1" [] in
  manager.disposition (snd r) = manager.Ack /\
  store (fst r) = scenario.orphanStore.
Proof.
  intros jobArgs r.
  destruct (X2_empty_base_path_is_acked scenario.baseEnv (scenario.newClient [])
              scenario.encode (scenario.decodeAs scenario.payload jobArgs)
              "" scenario.noSample (scenario.world scenario.orphanStore)
              (scenario.queueEntry 0) jobArgs "u1" [] eq_refl eq_refl)
    as (Hack & Hs & _).
  split; [exact Hack | exact Hs].
Defined.

(** An entry of a cancelled parent, delivered for the fifth time. *)
Lemma X3_cancelled_parent_is_acked_witness :
  let r := scenario.processEntry scenario.baseEnv [] (scenario.entryArgs "Patient" ["1"])
             (scenario.world (scenario.jobStore JobStatusCancelled 1 [] false))
             (scenario.queueEntry 4) "u1" [] in
  manager.disposition (snd r) = manager.Ack /\
  store (fst r) = scenario.jobStore JobStatusCancelled 1 [] false /\
  files (fst r) = ∅ /\ upstream (fst r) = [].
Proof.
  intros r.
  destruct (X3_cancelled_parent_is_acked scenario.baseEnv (scenario.newClient [])
              scenario.encode
              (scenario.decodeAs scenario.payload (scenario.entryArgs "Patient" ["1"]))
              "" scenario.noSample
              (scenario.world (scenario.jobStore JobStatusCancelled 1 [] false))
              (scenario.queueEntry 4) (scenario.entryArgs "Patient" ["1"])
              (scenario.parent JobStatusCancelled 1) "u1" []
              eq_refl ltac:(discriminate) eq_refl eq_refl)
    as (Hack & Hs & Hf & Hu & _).
  split; [exact Hack|]. split; [exact Hs|]. split; [exact Hf | exact Hu].
Defined.

(** A job store that cannot be reached. *)
Lemma X4_store_failure_is_retried_witness :
  let r := manager.processJob (H := cases.downRepository) scenario.baseEnv
             (scenario.newClient []) scenario.encode
             (scenario.decodeAs scenario.payload (scenario.entryArgs "Patient" ["1"]))
             "" (fun _ => None) cases.downWorld (scenario.queueEntry 0) "u1" [] in
  manager.disposition (snd r)
  = manager.Retry
      (errors_Wrap (errors_Wrap cases.unreachable "could not retrieve job from database")
         "failed to validate job") /\
  errors_Is (snd r) cases.unreachable = true.
Proof.
  intros r.
  destruct (X4_store_failure_is_retried (H := cases.downRepository) scenario.baseEnv
              (scenario.newClient []) scenario.encode
              (scenario.decodeAs scenario.payload (scenario.entryArgs "Patient" ["1"]))
              "" (fun _ => None) cases.downWorld (scenario.queueEntry 0)
              (scenario.entryArgs "Patient" ["1"]) cases.unreachable "u1" []
              eq_refl ltac:(discriminate) eq_refl eq_refl eq_refl eq_refl eq_refl)
    as (Hretry & His & _).
  split; [exact Hretry | exact His].
Defined.

(** Three beneficiaries, the second of which fails upstream; threshold 50. *)
Lemma X7_data_artifact_holds_a_prefix_witness :
  let env := scenario.envWithPct "50" in
  let jobArgs := scenario.entryArgs "Patient" ["1"; "2"; "3"] in
  let bb := scenario.upstreamClient ["bbm2"] in
  let bf := scenario.bundleFuncOf ["bbm2"] jobArgs in
  let w := scenario.staged (scenario.jobStore JobStatusInProgress 1 [] false) in
  let r := worker.writeBBDataToFile env scenario.encode w bb "A0001" jobArgs "u1" [] in
  exists k : nat,
    (k <= 3)%nat /\
    observe.read (files (fst r)) "/staging/1" "u1.ndjson"
    = Some (concat (map (stream.fetchChunks env scenario.encode bf bb "A0001" jobArgs "u1"
                           (store w) (ctx w)) (take k ["1"; "2"; "3"]))) /\
    store (fst r) = store w.
Proof.
  intros env jobArgs bb bf w r.
  destruct (X7_data_artifact_holds_a_prefix env scenario.encode w bb "A0001" jobArgs "u1" bf
              eq_refl ltac:(vm_compute; discriminate) ltac:(vm_compute; reflexivity))
    as (k & Hk & Hread & Hs & _).
  exists k. split; [exact Hk|]. split; [exact Hread | exact Hs].
Defined.

(** An entry without beneficiaries, threshold 0, context already cancelled. *)
Lemma X8_empty_list_succeeds_with_size_zero_witness :
  let env := scenario.envWithPct "0" in
  let jobArgs := scenario.entryArgs "Patient" [] in
  let w := cancel (scenario.staged (scenario.jobStore JobStatusInProgress 1 [] false)) in
  exists w2 : World memstore.Store,
    worker.writeBBDataToFile env scenario.encode w (scenario.upstreamClient []) "A0001"
      jobArgs "u1" [] = (w2, ("u1", 0, None)) /\
    observe.read (files w2) "/staging/1" "u1.ndjson" = Some [] /\
    upstream w2 = [].
Proof.
  intros env jobArgs w.
  destruct (X8_empty_list_succeeds_with_size_zero env scenario.encode w
              (scenario.upstreamClient []) "A0001" jobArgs "u1" []
              (scenario.bundleFuncOf [] jobArgs)
              eq_refl eq_refl ltac:(vm_compute; discriminate))
    as (w2 & Hrun & Hread & _ & _ & Hu & _).
  exists w2. split; [exact Hrun|]. split; [exact Hread | exact Hu].
Defined.

(** Two beneficiaries, the context cancelled before the call. *)
Lemma X9_cancelled_context_stops_before_first_request_witness :
  let jobArgs := scenario.entryArgs "Patient" ["1"; "2"] in
  let w := cancel (scenario.staged (scenario.jobStore JobStatusCancelled 1 [] false)) in
  exists w2 : World memstore.Store,
    worker.writeBBDataToFile scenario.baseEnv scenario.encode w (scenario.upstreamClient [])
      "A0001" jobArgs "u1" []
    = (w2, ("", 0, Some (errorString "Parent job 1 was cancelled"))) /\
    upstream w2 = [].
Proof.
  intros jobArgs w.
  destruct (X9_cancelled_context_stops_before_first_request scenario.baseEnv
              scenario.encode w (scenario.upstreamClient []) "A0001" jobArgs "u1"
              (scenario.bundleFuncOf [] jobArgs)
              ltac:(discriminate) eq_refl ltac:(vm_compute; discriminate) eq_refl)
    as (w2 & Hrun & _ & _ & Hu & _).
  exists w2. split; [exact Hrun | exact Hu].
Defined.

(** Three beneficiaries, an upstream that answers for all of them. *)
Lemma X10_all_beneficiaries_succeed_witness :
  let jobArgs := scenario.entryArgs "Patient" ["1"; "2"; "3"] in
  let w := scenario.staged (scenario.jobStore JobStatusInProgress 1 [] false) in
  exists w2 : World memstore.Store,
    worker.writeBBDataToFile (scenario.envWithPct "50") scenario.encode w
      (scenario.upstreamClient []) "A0001" jobArgs "u1" []
    = (w2, ("u1", 30, None)) /\
    observe.read (files w2) "/staging/1" "u1.ndjson"
    = Some ["{id:bbm1}" +:+ newline; "{id:bbm2}" +:+ newline; "{id:bbm3}" +:+ newline].
Proof.
  intros jobArgs w.
  destruct (X10_all_beneficiaries_succeed (scenario.envWithPct "50") scenario.encode w
              (scenario.upstreamClient []) "A0001" jobArgs "u1"
              (scenario.bundleFuncOf [] jobArgs)
              eq_refl ltac:(vm_compute; discriminate) eq_refl
              ltac:(intros v Hv; vm_compute in Hv; injection Hv as <-; lia)
              ltac:(repeat (constructor; [vm_compute; reflexivity|]); constructor))
    as (w2 & Hrun & Hread & _).
  exists w2. split; [exact Hrun | exact Hread].
Defined.

(** Parent 1 has its two directories: nothing is created for its next
    entry. *)
Lemma X11_existing_directories_are_left_alone_witness :
  let w := scenario.staged (scenario.jobStore JobStatusInProgress 2 [] false) in
  let jobArgs := scenario.entryArgs "Patient" ["1"; "2"] in
  worker.createDir w "/staging/1" = (w, None) /\
  worker.createDir w "/payload/1" = (w, None) /\
  files (fst (worker.prepareEntry (H := memstore.memRepository) (scenario.envWithPct "50")
                (scenario.newClient []) w (scenario.parent JobStatusInProgress 2) jobArgs))
  = files w.
Proof.
  intros w jobArgs.
  exact (X11_existing_directories_are_left_alone (H := memstore.memRepository)
           (scenario.envWithPct "50") (scenario.newClient []) w
           (scenario.parent JobStatusInProgress 2) jobArgs
           ltac:(vm_compute; discriminate) ltac:(vm_compute; discriminate)).
Defined.

(** Parent 1 split into two entries, one of them keyed. *)
Lemma X12_completion_check_waits_for_all_keys_witness :
  let w := scenario.staged
             (scenario.jobStore JobStatusInProgress 2 [mkJobKey 1 "u1.ndjson" "Patient"]
                false) in
  worker.checkJobCompleteAndCleanup scenario.baseEnv w 1 = (w, (false, None)).
Proof.
  intros w.
  apply (proj1 (X12_completion_check_waits_for_all_keys (H := memstore.memRepository)
                  scenario.baseEnv w 1)
           (scenario.parent JobStatusInProgress 2) 1);
    [vm_compute; reflexivity | right; reflexivity | vm_compute; reflexivity
    | vm_compute; reflexivity].
Defined.

(** Parent 1 with its only entry keyed, two staged files, one payload file. *)
Lemma X13_promotion_moves_every_staged_file_witness :
  let w := cases.stagedWorld
             (scenario.jobStore JobStatusInProgress 1 [mkJobKey 1 "u1.ndjson" "Patient"]
                false) in
  let r := worker.checkJobCompleteAndCleanup scenario.baseEnv w 1 in
  snd r = (true, None) /\
  files (fst r) !! "/staging/1" = None /\
  observe.read (files (fst r)) "/payload/1" "u1.ndjson" = Some ["{a}"; "{b}"] /\
  observe.read (files (fst r)) "/payload/1" "u2.ndjson" = Some [] /\
  observe.read (files (fst r)) "/payload/1" "u0.ndjson" = Some ["{z}"].
Proof.
  intros w r. unfold r.
  rewrite (X13_promotion_moves_every_staged_file (H := memstore.memRepository)
             scenario.baseEnv w 1
             (scenario.parent JobStatusInProgress 1) 1
             {[ "u1.ndjson" := ["{a}"; "{b}"]; "u2.ndjson" := [] ]}
             {[ "u0.ndjson" := ["{z}"] ]}
             (fst (memstore.mem_UpdateJobStatus (store w) (ctx w) 1 JobStatusCompleted))
             None
             ltac:(vm_compute; reflexivity) ltac:(right; reflexivity)
             ltac:(vm_compute; reflexivity) ltac:(vm_compute; discriminate)
             ltac:(vm_compute; discriminate) ltac:(vm_compute; reflexivity)
             ltac:(vm_compute; reflexivity) ltac:(vm_compute; reflexivity)).
  vm_compute. repeat split; reflexivity.
Defined.

(** The directories of the test [TestProcessJob]: one for both options. *)
Lemma X14_shared_directory_is_never_promoted_witness :
  let w := cases.sharedDirWorld
             (scenario.jobStore JobStatusInProgress 1 [mkJobKey 1 "u1.ndjson" "Patient"]
                false) in
  worker.checkJobCompleteAndCleanup cases.sharedDirEnv w 1
  = (w, (false, Some (PathError "remove" "/data/1"))).
Proof.
  intros w.
  apply (X14_shared_directory_is_never_promoted (H := memstore.memRepository)
           cases.sharedDirEnv w 1
           (scenario.parent JobStatusInProgress 1) 1 {[ "u1.ndjson" := ["{a}"] ]}
           ltac:(vm_compute; reflexivity) ltac:(right; reflexivity)
           ltac:(vm_compute; reflexivity) ltac:(vm_compute; discriminate)
           ltac:(vm_compute; reflexivity) ltac:(vm_compute; reflexivity)
           ltac:(intros Hx; vm_compute in Hx; discriminate Hx)).
Defined.

(** Beneficiary 1 of the table, resolved upstream. *)
Lemma X15_getBeneficiary_resolves_the_upstream_id_witness :
  let w := scenario.world (scenario.jobStore JobStatusInProgress 1 [] false) in
  let r := worker.getBeneficiary w 1 (scenario.upstreamClient []) in
  upstream (fst r) = [CallLookupUpstreamIdByMBI "m1"] /\
  snd (snd r) = None /\ bene_BlueButtonID (fst (snd r)) = "bbm1".
Proof.
  intros w r.
  destruct (proj2 (X15_getBeneficiary_resolves_the_upstream_id
                     (H := memstore.memRepository) w 1 (scenario.upstreamClient []))
              (mkCCLFBeneficiary 1 "m1" "") ltac:(vm_compute; reflexivity))
    as (Hfst & _ & _ & Hok & _).
  destruct (Hok "bbm1" eq_refl) as (Hnone & Hid).
  split; [|split; [exact Hnone | exact Hid]].
  fold r in Hfst. rewrite Hfst. reflexivity.
Defined.

(** The entry of the test [TestProcessJob]: no resource type. *)
Lemma X16_unsupported_resource_type_fails_parent_witness :
  let w := scenario.world (scenario.jobStore JobStatusPending 1 [] false) in
  let job := scenario.parent JobStatusPending 1 in
  let jobArgs := scenario.entryArgs "" [] in
  exists (w' : World memstore.Store) (j' : Job),
    worker.ProcessJob scenario.baseEnv (scenario.newClient []) scenario.encode w job
      jobArgs "u1" [] = (w', None) /\
    memstore.jobs (store w') !! 1 = Some j' /\ job_Status j' = JobStatusFailed /\
    memstore.jobKeys (store w') = [] /\ upstream w' = [].
Proof.
  intros w job jobArgs.
  destruct (X16_unsupported_resource_type_fails_parent scenario.baseEnv
              (scenario.newClient []) scenario.encode w job jobArgs "u1" []
              (fst (worker.prepareEntry scenario.baseEnv (scenario.newClient []) w job
                      jobArgs))
              (mkACO "aco-1" (Some "A0001")) (scenario.upstreamClient []) "A0001"
              (scenario.parent JobStatusInProgress 1)
              ltac:(rewrite !elem_of_cons, elem_of_nil; intros [Hx|[Hx|[Hx|Hx]]];
                    [discriminate Hx | discriminate Hx | discriminate Hx | exact Hx])
              ltac:(vm_compute; reflexivity) eq_refl
              ltac:(vm_compute; reflexivity) eq_refl)
    as (_ & w' & j' & Hrun & Hj & Hst & Hkeys & _ & Hu).
  exists w', j'. split; [exact Hrun|]. split; [exact Hj|]. split; [exact Hst|].
  split; [exact Hkeys | exact Hu].
Defined.

(** The promotion of the staged files of parent 1, checked twice. *)
Lemma X17_completion_check_is_idempotent_witness :
  let w := cases.stagedWorld
             (scenario.jobStore JobStatusInProgress 1 [mkJobKey 1 "u1.ndjson" "Patient"]
                false) in
  let w1 := fst (worker.checkJobCompleteAndCleanup scenario.baseEnv w 1) in
  exists w2 : World memstore.Store,
    worker.checkJobCompleteAndCleanup scenario.baseEnv w1 1 = (w2, (true, None)) /\
    store w2 = store w1 /\ files w2 = files w1.
Proof.
  intros w w1.
  apply (X17_completion_check_is_idempotent scenario.baseEnv w w1 1).
  - apply keyed_jobStore.
  - vm_compute. reflexivity.
Defined.

(** A second entry of a parent that is already Failed breaches the
    threshold: the parent stays Failed. *)
Lemma X18_terminal_status_is_never_overwritten_witness :
  exists j' : Job,
    memstore.jobs
      (store (fst (worker.ProcessJob (scenario.envWithPct "50")
                     (scenario.newClient ["bbm1"]) scenario.encode
                     scenario.failedParentWorld (scenario.parent JobStatusFailed 2)
                     (scenario.entryArgs "Patient" ["1"; "2"]) "u1" []))) !! 1 = Some j' /\
    job_Status j' = JobStatusFailed.
Proof.
  apply (X18_terminal_status_is_never_overwritten (scenario.envWithPct "50")
           (scenario.newClient ["bbm1"]) scenario.encode scenario.failedParentWorld
           (scenario.parent JobStatusFailed 2) (scenario.entryArgs "Patient" ["1"; "2"])
           "u1" 1 (scenario.parent JobStatusFailed 2)).
  - apply keyed_jobStore.
  - vm_compute. reflexivity.
  - reflexivity.
Defined.

(** The first error of an entry of parent 1. *)
Lemma X20_appendErrorToFile_appends_one_record_witness :
  let w := scenario.staged (scenario.jobStore JobStatusInProgress 1 [] false) in
  let w' := worker.appendErrorToFile scenario.baseEnv scenario.encode w "u1"
              IssueTypeCode_EXCEPTION BbErr "no answer" 1 in
  observe.read (files w') "/staging/1" "u1-error.ndjson"
  = Some ["{OperationOutcome:no answer}"; newline] /\
  store w' = store w /\ upstream w' = upstream w.
Proof.
  intros w w'.
  destruct (X20_appendErrorToFile_appends_one_record
              scenario.baseEnv scenario.encode w "u1" IssueTypeCode_EXCEPTION BbErr
              "no answer" 1)
    as (Hs & _ & Hu & Hdir & _).
  destruct (Hdir ltac:(vm_compute; discriminate)) as (Hread & _).
  split; [|split; [exact Hs | exact Hu]].
  etransitivity; [exact Hread|]. vm_compute. reflexivity.
Defined.

(** The second entry of a parent that is already Failed: [ProcessJob]
    returns the error of the rejected update, [processJob] wraps it. *)
Lemma X22_validated_entry_returns_what_ProcessJob_returns_witness :
  let jobArgs := scenario.entryArgs "Patient" ["1"; "2"] in
  let r := scenario.processEntry (scenario.envWithPct "50") ["bbm1"] jobArgs
             scenario.failedParentWorld (scenario.queueEntry 0) "u1" [] in
  snd r = Some (errors_Wrap ErrJobNotUpdated "failed to process job") /\
  errors_Is (snd r) ErrJobNotUpdated = true /\
  canceled (ctx (fst r)) = true.
Proof.
  intros jobArgs r.
  destruct (X22_validated_entry_returns_what_ProcessJob_returns
              (H := memstore.memRepository) (scenario.envWithPct "50") (scenario.newClient ["bbm1"]) scenario.encode
              (scenario.decodeAs scenario.payload jobArgs) "" scenario.noSample
              scenario.failedParentWorld (scenario.queueEntry 0) jobArgs
              (scenario.parent JobStatusFailed 2) "u1" []
              eq_refl ltac:(vm_compute; reflexivity)
              ltac:(intros aco Ha; vm_compute in Ha; injection Ha as <-; discriminate))
    as (Hsnd & _ & His & _ & _ & _ & Hc & _).
  split; [|split; [|exact Hc]].
  - etransitivity; [exact Hsnd|]. vm_compute. reflexivity.
  - apply His. vm_compute. reflexivity.
Defined.

(** An entry whose ACO is not in the job store. *)
Lemma X23_early_exits_leave_no_files_witness :
  let w := scenario.world scenario.orphanStore in
  worker.ProcessJob scenario.baseEnv (scenario.newClient []) scenario.encode w
    (scenario.parent JobStatusPending 1) (scenario.entryArgs "Patient" ["1"]) "u1" []
  = (w, Some (errors_Wrap (errorString "no ACO record found")
                "could not retrieve ACO from database")).
Proof.
  intros w.
  apply (proj1 (X23_early_exits_leave_no_files (H := memstore.memRepository)
                  scenario.baseEnv (scenario.newClient []) scenario.encode w
                  (scenario.parent JobStatusPending 1)
                  (scenario.entryArgs "Patient" ["1"]) "u1" [])
           (errorString "no ACO record found")).
  vm_compute. reflexivity.
Defined.

(** Parent 1 and its only entry, two beneficiaries, on a store that
    enforces the uniqueness key. *)
Lemma X24_last_entry_completes_the_parent_witness :
  exists (w' : World memstore.Store) (j' : Job),
    worker.ProcessJob (scenario.envWithPct "50") (scenario.newClient []) scenario.encode
      (scenario.world (scenario.jobStore JobStatusPending 1 [] true))
      (scenario.parent JobStatusPending 1) (scenario.entryArgs "Patient" ["1"; "2"])
      "u1" [] = (w', None) /\
    memstore.jobKeys (store w') = [mkJobKey 1 "u1.ndjson" "Patient"] /\
    memstore.jobs (store w') !! 1 = Some j' /\ job_Status j' = JobStatusCompleted /\
    files w' !! "/staging/1" = None /\
    observe.read (files w') "/payload/1" "u1.ndjson"
    = Some ["{id:bbm1}" +:+ newline; "{id:bbm2}" +:+ newline].
Proof.
  set (env := scenario.envWithPct "50").
  set (w := scenario.world (scenario.jobStore JobStatusPending 1 [] true)).
  set (job := scenario.parent JobStatusPending 1).
  set (jobArgs := scenario.entryArgs "Patient" ["1"; "2"]).
  destruct (X24_last_entry_completes_the_parent env (scenario.newClient [])
              scenario.encode w job jobArgs "u1"
              (fst (worker.prepareEntry (H := memstore.memRepository) env
                      (scenario.newClient []) w job jobArgs))
              (mkACO "aco-1" (Some "A0001")) (scenario.upstreamClient []) "A0001"
              (scenario.bundleFuncOf [] jobArgs) (scenario.parent JobStatusInProgress 1)
              ltac:(vm_compute; reflexivity) eq_refl eq_refl eq_refl
              ltac:(intros v Hv; vm_compute in Hv; injection Hv as <-; lia)
              ltac:(repeat (constructor; [vm_compute; reflexivity|]); constructor)
              ltac:(vm_compute; discriminate) ltac:(vm_compute; reflexivity)
              ltac:(vm_compute; reflexivity) eq_refl eq_refl ltac:(right; reflexivity)
              ltac:(vm_compute; discriminate) ltac:(vm_compute; discriminate))
    as (w' & j' & Hrun & Hkeys & Hj' & Hst' & Hstg & Hread).
  exists w', j'. split; [exact Hrun|]. split; [exact Hkeys|]. split; [exact Hj'|].
  split; [exact Hst'|]. split; [exact Hstg | exact Hread].
Defined.

(** The same entry, delivered again after the parent was Completed. *)
Lemma X25_entry_of_terminal_parent_is_left_in_staging_witness :
  exists (w' : World memstore.Store) (j' : Job),
    worker.ProcessJob (scenario.envWithPct "50") (scenario.newClient []) scenario.encode
      (scenario.world (scenario.jobStore JobStatusCompleted 1
                         [mkJobKey 1 "u1.ndjson" "Patient"] true))
      (scenario.parent JobStatusCompleted 1) (scenario.entryArgs "Patient" ["1"; "2"])
      "u2" [] = (w', None) /\
    memstore.jobKeys (store w')
    = [mkJobKey 1 "u1.ndjson" "Patient"; mkJobKey 1 "u2.ndjson" "Patient"] /\
    memstore.jobs (store w') !! 1 = Some j' /\ job_Status j' = JobStatusCompleted /\
    observe.read (files w') "/staging/1" "u2.ndjson"
    = Some ["{id:bbm1}" +:+ newline; "{id:bbm2}" +:+ newline].
Proof.
  set (env := scenario.envWithPct "50").
  set (w := scenario.world (scenario.jobStore JobStatusCompleted 1
                              [mkJobKey 1 "u1.ndjson" "Patient"] true)).
  set (job := scenario.parent JobStatusCompleted 1).
  set (jobArgs := scenario.entryArgs "Patient" ["1"; "2"]).
  destruct (X25_entry_of_terminal_parent_is_left_in_staging env (scenario.newClient [])
              scenario.encode w job jobArgs "u2"
              (fst (worker.prepareEntry (H := memstore.memRepository) env
                      (scenario.newClient []) w job jobArgs))
              (mkACO "aco-1" (Some "A0001")) (scenario.upstreamClient []) "A0001"
              (scenario.bundleFuncOf [] jobArgs) (scenario.parent JobStatusCompleted 1)
              ltac:(vm_compute; reflexivity) eq_refl eq_refl eq_refl
              ltac:(intros v Hv; vm_compute in Hv; injection Hv as <-; lia)
              ltac:(repeat (constructor; [vm_compute; reflexivity|]); constructor)
              ltac:(vm_compute; discriminate) ltac:(vm_compute; reflexivity)
              ltac:(vm_compute; reflexivity) eq_refl)
    as (w' & j' & Hrun & Hkeys & Hj' & Hst' & Hread).
  exists w', j'. split; [exact Hrun|]. split; [exact Hkeys|]. split; [exact Hj'|].
  split; [exact Hst' | exact Hread].
Defined.
